(** * Model-serving bridges of node-red-contrib-condition-monitoring

    A shallow embedding of the three Python helpers under [nodes/]:

    - [python_bridge.py]  (module [PythonBridge]): the long-lived bridge that
      reads one JSON command per line on stdin and answers on stdout;
    - [max_bridge.py]     (module [MaxBridge]): the Flask server exposing the
      same operations as HTTP routes, with the MAX / ONNX Runtime fallback
      and the statistics dictionary;
    - [coral_inference.py] (module [Coral]): the one-shot Edge TPU helper
      with the int8 quantisation steps.

    Conventions of the embedding.
    - Python dictionaries used as registries are [gmap string _].
    - A Python exception is represented by its [str(e)] text.
    - Floating-point numbers are modelled by exact rationals [Q]; every
      statement about latencies and averages is therefore about the
      idealised arithmetic of the source expressions.
    - The external libraries (keras, sklearn, tflite, MAX, ONNX Runtime, the
      file system, the clock) are oracles gathered in an [Env] record; the
      calls made to them are recorded, in order, in the [calls] field of the
      state so that "no second load" and "MAX is tried first" can be stated.
    - Writing a response to stdout is assumed to succeed, and the signal
      handlers [main] installs are not modelled: the embedding follows the
      bridge while its input lasts and no signal arrives. *)

From Stdlib Require Import ZArith QArith Qround Lia Ascii.
From stdpp Require Import gmap strings list fin_maps.

Set Default Proof Using "Type".
Set Warnings "-register-all".

(* ===================================================================== *)
(** ** Python values shared by the three scripts *)
(* ===================================================================== *)

Module Py.

(** [str(e)] of the exception. *)
Definition exn := string.

Inductive outcome (A : Type) : Type :=
| Return (a : A)
| Raised (e : exn).
Arguments Return {A} a.
Arguments Raised {A} e.

(** *** Strings *)

Fixpoint str_drop (n : nat) (s : string) : string :=
  match n, s with
  | O, _ => s
  | S n', String _ t => str_drop n' t
  | S _, EmptyString => EmptyString
  end.

Fixpoint str_take (n : nat) (s : string) : string :=
  match n, s with
  | O, _ => EmptyString
  | S n', String a t => String a (str_take n' t)
  | S _, EmptyString => EmptyString
  end.

(** [p.rfind(c)] for a one-character needle: the last index of [c], or
    [-1].  [i] is the index of the head of [s] in the whole string. *)
Fixpoint rfind_from (c : Ascii.ascii) (s : string) (i : Z) : Z :=
  match s with
  | EmptyString => (-1)%Z
  | String a t =>
      let r := rfind_from c t (i + 1)%Z in
      if (0 <=? r)%Z then r
      else if Ascii.eqb a c then i else (-1)%Z
  end.

Definition rfind (c : Ascii.ascii) (s : string) : Z := rfind_from c s 0%Z.

(** [p[i:]] and [p[:i]] for a non-negative [i]. *)
Definition slice_from (i : Z) (p : string) : string := str_drop (Z.to_nat i) p.
Definition slice_to (i : Z) (p : string) : string := str_take (Z.to_nat i) p.

(** [posixpath.basename]: [i = p.rfind('/') + 1; return p[i:]]. *)
Definition basename (p : string) : string :=
  slice_from (rfind "/"%char p + 1)%Z p.

(** The [while filenameIndex < dotIndex] loop of [genericpath._splitext];
    [fuel] is the number of iterations left, [dotIndex - filenameIndex]. *)
Fixpoint splitext_scan (p : string) (dotIndex filenameIndex : Z) (fuel : nat)
  : option (string * string) :=
  match fuel with
  | O => None
  | S fuel' =>
      match String.get (Z.to_nat filenameIndex) p with
      | Some c =>
          if negb (Ascii.eqb c "."%char)
          then Some (slice_to dotIndex p, slice_from dotIndex p)
          else splitext_scan p dotIndex (filenameIndex + 1)%Z fuel'
      | None => None
      end
  end.

(** [posixpath.splitext]. *)
Definition splitext (p : string) : string * string :=
  let sepIndex := rfind "/"%char p in
  let dotIndex := rfind "."%char p in
  if (sepIndex <? dotIndex)%Z then
    match splitext_scan p dotIndex (sepIndex + 1)%Z
            (Z.to_nat (dotIndex - (sepIndex + 1))) with
    | Some r => r
    | None => (p, EmptyString)
    end
  else (p, EmptyString).

(** [str.lower] on the ASCII range. *)
Definition lower_ascii (c : Ascii.ascii) : ascii :=
  let n := Ascii.nat_of_ascii c in
  if (65 <=? n)%nat && (n <=? 90)%nat then Ascii.ascii_of_nat (n + 32) else c.

Fixpoint lower (s : string) : string :=
  match s with
  | EmptyString => EmptyString
  | String a t => String (lower_ascii a) (lower t)
  end.

(** The line feed character as a string. *)
Definition newline : string := String (Ascii.ascii_of_nat 10) EmptyString.

(** Truthiness of an optional string: [None] and the empty string are
    falsy. *)
Definition truthy (o : option string) : bool :=
  match o with
  | Some (String _ _) => true
  | _ => false
  end.

(** How an optional string prints inside an f-string. *)
Definition fmt (o : option string) : string :=
  match o with
  | Some s => s
  | None => "None"
  end.

(** [t] occurs in [s]: the message [s] mentions [t]. *)
Definition mentions (s t : string) : Prop :=
  exists pre post : string, s = pre +:+ t +:+ post.

Fixpoint is_prefix (t s : string) : bool :=
  match t, s with
  | EmptyString, _ => true
  | String a t', String b s' => Ascii.eqb a b && is_prefix t' s'
  | String _ _, EmptyString => false
  end.

Fixpoint is_infix (t s : string) : bool :=
  is_prefix t s ||
  match s with
  | EmptyString => false
  | String _ s' => is_infix t s'
  end.

(** *** JSON values and numpy arrays *)

Inductive json : Type :=
| JNull
| JBool (b : bool)
| JNum (q : Q)
| JStr (s : string)
| JArr (l : list json)
| JObj (l : list (string * json)).

(** [v is None]. *)
Definition is_none (v : json) : bool :=
  match v with
  | JNull => true
  | _ => false
  end.

Inductive dtype : Type := Float32 | Int8 | UInt8 | Int32.

Definition dtype_eqb (a b : dtype) : bool :=
  match a, b with
  | Float32, Float32 | Int8, Int8 | UInt8, UInt8 | Int32, Int32 => true
  | _, _ => false
  end.

(** A dense array: element type, shape and the elements in row-major
    order. *)
Record ndarray : Type := mk_ndarray {
  arr_dtype : dtype;
  shape : list nat;
  data : list Q
}.

Definition ndim (a : ndarray) : nat := length (shape a).

(** Truncation toward zero, the C conversion of a float to an integer. *)
Definition trunc (q : Q) : Z := Z.quot (Qnum q) (Z.pos (Qden q)).

(** Wrap-around into the signed [bits]-bit range. *)
Definition wrap_signed (bits : Z) (z : Z) : Z :=
  ((z + 2 ^ (bits - 1)) mod 2 ^ bits - 2 ^ (bits - 1))%Z.

Definition wrap_unsigned (bits : Z) (z : Z) : Z := (z mod 2 ^ bits)%Z.

(** Conversion of one element to the array's element type.  Values that
    fit the integer type are truncated toward zero; outside the range the
    result of the cast is platform dependent and modelled by wrap-around. *)
Definition cast (d : dtype) (q : Q) : Q :=
  match d with
  | Float32 => q
  | Int8 => inject_Z (wrap_signed 8 (trunc q))
  | UInt8 => inject_Z (wrap_unsigned 8 (trunc q))
  | Int32 => inject_Z (wrap_signed 32 (trunc q))
  end.

Definition shape_eqb (a b : list nat) : bool := bool_decide (a = b).

(** Shape and elements of a nested JSON list, [None] where numpy raises
    (ragged nesting, or a leaf that is not a number or a boolean). *)
Fixpoint np_shape_data (v : json) : option (list nat * list Q) :=
  match v with
  | JNum q => Some ([], [q])
  | JBool b => Some ([], [if b then 1%Q else 0%Q])
  | JArr l =>
      let fix go (l : list json) : option (list (list nat * list Q)) :=
        match l with
        | [] => Some []
        | x :: r =>
            match np_shape_data x, go r with
            | Some a, Some b => Some (a :: b)
            | _, _ => None
            end
        end in
      match go l with
      | None => None
      | Some [] => Some ([0%nat], [])
      | Some ((sh, d) :: rest) =>
          if forallb (fun p => shape_eqb p.1 sh) rest
          then Some (length l :: sh, d ++ concat (map snd rest))
          else None
      end
  | _ => None
  end.

(** [np.array(v, dtype=d)]. *)
Definition np_array (v : json) (d : dtype) : outcome ndarray :=
  match np_shape_data v with
  | Some (sh, xs) => Return (mk_ndarray d sh (map (cast d) xs))
  | None => Raised "setting an array element with a sequence."
  end.

Definition arr_size (a : ndarray) : nat := foldr Nat.mul 1%nat (shape a).

(** [a.reshape(1, -1)]: one row holding every element. *)
Definition reshape_1_m1 (a : ndarray) : ndarray :=
  mk_ndarray (arr_dtype a) [1%nat; arr_size a] (data a).

(** The step both bridges apply before calling a backend:
    [if len(input_array.shape) == 1: input_array = input_array.reshape(1, -1)]. *)
Definition ensure_batch (a : ndarray) : ndarray :=
  if (ndim a =? 1)%nat then reshape_1_m1 a else a.

(** [round(x)] / [np.round(x)]: to the nearest integer, ties to even. *)
Definition round_half_even (q : Q) : Z :=
  let f := Qfloor q in
  let r := (q - inject_Z f)%Q in
  match Qcompare r (1 # 2) with
  | Lt => f
  | Gt => (f + 1)%Z
  | Eq => if Z.even f then f else (f + 1)%Z
  end.

(** [round(x, 2)]. *)
Definition round2 (q : Q) : Q :=
  (inject_Z (round_half_even (q * 100)) / 100)%Q.

End Py.

(* ===================================================================== *)
(** ** nodes/python_bridge.py: the streaming bridge *)
(* ===================================================================== *)

Module PythonBridge.
Import Py.

(** A loaded model object; opaque to the bridge. *)
Definition handle := nat.

(** The library entry point a load ends in: [keras.models.load_model],
    [joblib.load], [pickle.load] on the opened file, or
    [tflite.Interpreter] followed by [allocate_tensors]. *)
Inductive loader : Type := KerasLoad | JoblibLoad | PickleLoad | TFLiteLoad.

Inductive call : Type :=
| CallLoad (l : loader) (model_path : string)
| CallPredict (model_type : string) (model : handle) (input_array : ndarray).

(** One line written by [send_response]. *)
Record response : Type := mk_response {
  id : string;
  success : bool;
  result : option json;
  error : option string
}.

(** The parsed request object; a missing key and a JSON [null] both read
    as [None] through [msg.get].  String-valued keys hold strings. *)
Record msg : Type := mk_msg {
  m_id : option string;
  m_command : option string;
  m_model_path : option string;
  m_model_id : option string;
  m_input_data : json
}.

(** What reading one line of stdin and [json.loads] make of it.
    [NotJson] is a [json.JSONDecodeError], the one exception [main] catches
    around [json.loads].  [Escapes] is any other exception the line raises
    there: a [ValueError] for an integer literal beyond the digit limit of
    the interpreter, a [RecursionError] for deeply nested brackets, or the
    [UnicodeDecodeError] of the iteration over [sys.stdin] itself.
    [JsonOther] is a JSON value that is not an object. *)
Inductive line : Type :=
| Blank
| NotJson (err : string)
| Escapes (e : exn)
| JsonObject (m : msg)
| JsonOther.

Record Env : Type := mk_env {
  backend_load : loader -> string -> outcome handle;
  (** the inference branch of [handle_predict] for one model type, with
      the [tolist()] of its prediction *)
  backend_predict : string -> handle -> ndarray -> outcome json;
  (** [import numpy as np]: the [np.array] of the module, the one function
      of it the bridge uses, or the exception of the import *)
  import_numpy : outcome (json -> dtype -> outcome ndarray);
  (** the names [handle_status] collects with its four import probes *)
  packages : list string;
  python_version : string;
  format_exc : exn -> string
}.

Record state : Type := mk_state {
  _models : gmap string handle;
  _model_types : gmap string string;
  stdout : list response;
  calls : list call
}.

Definition initial : state := mk_state ∅ ∅ [] [].

(** [np.array(v, dtype=d)] where numpy has been imported. *)
Definition np_array (E : Env) (v : json) (d : dtype) : outcome ndarray :=
  match import_numpy E with
  | Return array => array v d
  | Raised e => Raised e
  end.

(** *** Statements: state passing with exceptions *)

Definition M (A : Type) : Type := state -> state * outcome A.

Definition ret {A} (a : A) : M A := fun s => (s, Return a).
Definition raise {A} (e : exn) : M A := fun s => (s, Raised e).
Definition bind {A B} (m : M A) (k : A -> M B) : M B :=
  fun s =>
    match m s with
    | (s', Return a) => k a s'
    | (s', Raised e) => (s', Raised e)
    end.
Definition try_except {A} (body : M A) (handler : exn -> M A) : M A :=
  fun s =>
    match body s with
    | (s', Raised e) => handler e s'
    | r => r
    end.
Definition lift {A} (o : outcome A) : M A := fun s => (s, o).

Notation "x <- c1 ;; c2" := (bind c1 (fun x => c2))
  (at level 100, c1 at next level, right associativity).
Notation "c1 ;; c2" := (bind c1 (fun _ => c2))
  (at level 100, right associativity).

Definition set_models (f : gmap string handle -> gmap string handle) : M unit :=
  fun s => (mk_state (f (_models s)) (_model_types s) (stdout s) (calls s),
            Return tt).
Definition set_model_types (f : gmap string string -> gmap string string) : M unit :=
  fun s => (mk_state (_models s) (f (_model_types s)) (stdout s) (calls s),
            Return tt).
Definition record_call (c : call) : M unit :=
  fun s => (mk_state (_models s) (_model_types s) (stdout s) (calls s ++ [c]),
            Return tt).

(** [model_id in _models]; the keys are strings, so [None] is never in. *)
Definition contains {V} (m : gmap string V) (k : option string) : bool :=
  match k with
  | Some k => bool_decide (is_Some (m !! k))
  | None => false
  end.

(** [d[k]], raising [KeyError] on a missing key. *)
Definition getitem {V} (m : gmap string V) (k : option string) : M V :=
  match k ≫= (m !!.) with
  | Some v => ret v
  | None => raise ("'" +:+ fmt k +:+ "'")
  end.

(** [del d[k]], raising [KeyError] on a missing key. *)
Definition delitem_models (k : option string) : M unit :=
  fun s =>
    if contains (_models s) k then set_models (delete (fmt k)) s
    else raise ("'" +:+ fmt k +:+ "'") s.
Definition delitem_model_types (k : option string) : M unit :=
  fun s =>
    if contains (_model_types s) k then set_model_types (delete (fmt k)) s
    else raise ("'" +:+ fmt k +:+ "'") s.

Definition send_response (msg_id : string) (success : bool)
    (result : option json) (error : option string) : M unit :=
  fun s => (mk_state (_models s) (_model_types s)
              (stdout s ++ [mk_response msg_id success result error])
              (calls s),
            Return tt).

Section Handlers.
Context (E : Env).

Definition call_load (l : loader) (model_path : string) : M handle :=
  record_call (CallLoad l model_path) ;;
  lift (backend_load E l model_path).

Definition call_predict (model_type : string) (model : handle)
    (input_array : ndarray) : M json :=
  record_call (CallPredict model_type model input_array) ;;
  lift (backend_predict E model_type model input_array).

Definition load_keras_model (model_path : string) : M (handle * string) :=
  model <- call_load KerasLoad model_path ;;
  ret (model, "keras").

Definition load_sklearn_model (model_path : string) : M (handle * string) :=
  let ext := lower (splitext model_path).2 in
  if String.eqb ext ".joblib" then
    model <- call_load JoblibLoad model_path ;;
    ret (model, "sklearn")
  else
    model <- call_load PickleLoad model_path ;;
    ret (model, "sklearn").

Definition load_tflite_model (model_path : string) : M (handle * string) :=
  interpreter <- call_load TFLiteLoad model_path ;;
  ret (interpreter, "tflite").

Definition str_in (x : string) (l : list string) : bool :=
  existsb (String.eqb x) l.

Definition handle_load_model (msg_id : string) (model_path model_id : option string)
  : M unit :=
  model_id <- (if truthy model_id then ret (fmt model_id)
               else match model_path with
                    | Some p => ret (basename p)
                    | None => raise "expected str, bytes or os.PathLike object, not NoneType"
                    end) ;;
  fun s =>
  if contains (_models s) (Some model_id) then
    send_response msg_id true
      (Some (JObj [("message", JStr ("Model " +:+ model_id +:+ " already loaded"))]))
      None s
  else
    match model_path with
    | None => raise "expected str, bytes or os.PathLike object, not NoneType" s
    | Some path =>
        let ext := lower (splitext path).2 in
        try_except
          (loaded <- (if str_in ext [".keras"; ".h5"] then
                        r <- load_keras_model path ;; ret (Some r)
                      else if str_in ext [".pkl"; ".joblib"] then
                        r <- load_sklearn_model path ;; ret (Some r)
                      else if String.eqb ext ".tflite" then
                        r <- load_tflite_model path ;; ret (Some r)
                      else
                        send_response msg_id false None
                          (Some ("Unsupported model format: " +:+ ext)) ;;
                        ret None) ;;
           match loaded with
           | None => ret tt
           | Some (model, model_type) =>
               set_models (insert model_id model) ;;
               set_model_types (insert model_id model_type) ;;
               send_response msg_id true
                 (Some (JObj [("message", JStr ("Model " +:+ model_id +:+ " loaded successfully"));
                              ("model_id", JStr model_id);
                              ("model_type", JStr model_type)]))
                 None
           end)
          (fun e => send_response msg_id false None (Some e))
          s
    end.

Definition handle_predict (msg_id : string) (model_id : option string)
    (input_data : json) : M unit :=
  np_array <- lift (import_numpy E) ;;
  fun s =>
  if negb (contains (_models s) model_id) then
    send_response msg_id false None
      (Some ("Model " +:+ fmt model_id +:+ " not loaded")) s
  else
    (model <- getitem (_models s) model_id ;;
     model_type <- getitem (_model_types s) model_id ;;
     try_except
       (input_array <- lift (np_array input_data Float32) ;;
        let input_array := ensure_batch input_array in
        if str_in model_type ["keras"; "sklearn"; "tflite"] then
          result <- call_predict model_type model input_array ;;
          send_response msg_id true (Some result) None
        else
          send_response msg_id false None
            (Some ("Unknown model type: " +:+ model_type)))
       (fun e => send_response msg_id false None (Some e))) s.

Definition handle_unload_model (msg_id : string) (model_id : option string)
  : M unit :=
  fun s =>
  if contains (_models s) model_id then
    (delitem_models model_id ;;
     delitem_model_types model_id ;;
     send_response msg_id true
       (Some (JObj [("message", JStr ("Model " +:+ fmt model_id +:+ " unloaded"))]))
       None) s
  else
    send_response msg_id false None
      (Some ("Model " +:+ fmt model_id +:+ " not loaded")) s.

(** The order of the keys of a dictionary is not modelled. *)
Definition handle_status (msg_id : string) : M unit :=
  fun s =>
  send_response msg_id true
    (Some (JObj [("loaded_models", JArr (JStr <$> (map_to_list (_models s)).*1));
                 ("model_types",
                  JObj (prod_map Datatypes.id JStr <$> map_to_list (_model_types s)));
                 ("packages", JArr (JStr <$> packages E));
                 ("python_version", JStr (python_version E))]))
    None s.

(** The [if]/[elif] chain of [main]; the result is [true] on [break]. *)
Definition dispatch (m : msg) (msg_id command : string) : M bool :=
  if String.eqb command "load_model" then
    handle_load_model msg_id (m_model_path m) (m_model_id m) ;; ret false
  else if String.eqb command "predict" then
    handle_predict msg_id (m_model_id m) (m_input_data m) ;; ret false
  else if String.eqb command "unload_model" then
    handle_unload_model msg_id (m_model_id m) ;; ret false
  else if String.eqb command "status" then
    handle_status msg_id ;; ret false
  else if String.eqb command "shutdown" then
    send_response msg_id true (Some (JObj [("message", JStr "Shutting down")])) None ;;
    ret true
  else if String.eqb command "ping" then
    send_response msg_id true (Some (JObj [("message", JStr "pong")])) None ;;
    ret false
  else
    send_response msg_id false None (Some ("Unknown command: " +:+ command)) ;;
    ret false.

(** The body of the [for line in sys.stdin] loop for a parsed object:
    the two [msg.get] and the [try] around the dispatch. *)
Definition handle_message (m : msg) : M bool :=
  let msg_id := default "unknown" (m_id m) in
  let command := default EmptyString (m_command m) in
  try_except (dispatch m msg_id command)
    (fun e =>
       send_response msg_id false None
         (Some ("Error: " +:+ e +:+ newline +:+ format_exc E e)) ;;
       ret false).

(** How the read loop ended. *)
Inductive exit : Type :=
| EndOfInput
| ShutDown
| Crashed (e : exn).

Fixpoint read_loop (lines : list line) (s : state) : state * exit :=
  match lines with
  | [] => (s, EndOfInput)
  | Blank :: rest => read_loop rest s
  | NotJson err :: rest =>
      read_loop rest
        (send_response "error" false None (Some ("Invalid JSON: " +:+ err)) s).1
  | Escapes e :: rest => (s, Crashed e)
  | JsonOther :: rest =>
      (s, Crashed "object has no attribute 'get'")
  | JsonObject m :: rest =>
      match handle_message m s with
      | (s', Return true) => (s', ShutDown)
      | (s', Return false) => read_loop rest s'
      | (s', Raised e) => (s', Crashed e)
      end
  end.

Definition main (lines : list line) : state * exit :=
  read_loop lines
    (send_response "ready" true
       (Some (JObj [("message", JStr "Python bridge ready")])) None initial).1.

End Handlers.

End PythonBridge.

(* ===================================================================== *)
(** ** nodes/max_bridge.py: the HTTP bridge *)
(* ===================================================================== *)

Module MaxBridge.
Import Py.

Definition handle := nat.

(** Reading an optional attribute of a backend object. *)
Inductive attr (A : Type) : Type :=
| Missing
| Failing
| Has (a : A).
Arguments Missing {A}.
Arguments Failing {A}.
Arguments Has {A} a.

Inductive call : Type :=
| MaxSession (device : string)
| MaxLoad (session : handle) (model_path : string)
| OrtSession (model_path : string) (providers : list string)
| MaxExecute (model : handle) (input_array : ndarray)
| OrtRun (session : handle) (input_name : string) (input_array : ndarray)
| Printed (text : string).

(** An entry of [_models]. *)
Record model_info : Type := mk_model_info {
  model : handle;
  backend : string;
  path : string
}.

Record stats : Type := mk_stats {
  requests_total : Z;
  inference_total : Z;
  errors_total : Z;
  avg_inference_time_ms : Q;
  start_time : Q
}.

Record state : Type := mk_state {
  _models : gmap string model_info;
  _inference_session : option handle;
  _stats : stats;
  calls : list call
}.

Definition initial (start : Q) : state :=
  mk_state ∅ None (mk_stats 0 0 0 0 start) [].

(** The JSON body of a request as the routes read it with [data.get]. *)
Record body : Type := mk_body {
  b_model_path : option string;
  b_model_id : option string;
  b_backend : option string;
  b_input_data : json;
  b_inputs : json
}.

(** A request; [None] for a body that is not a JSON object.  The clock
    readings the route makes are carried by the request. *)
Inductive request : Type :=
| GetHealth
| GetStatus (uptime : Q)
| PostLoad (data : option body) (load_time : Q)
| PostPredict (data : option body) (inference_time : Q)
| PostUnload (data : option body)
| PostBatchPredict (data : option body) (inference_time : Q).

Record http_response : Type := mk_http {
  status : nat;
  payload : list (string * json)
}.

Record Env : Type := mk_env {
  MAX_AVAILABLE : bool;
  ONNX_AVAILABLE : bool;
  path_exists : string -> bool;
  max_session : string -> outcome handle;
  max_load : handle -> string -> outcome handle;
  max_input_metadata : handle -> attr (list string);
  max_output_metadata : handle -> attr (list string);
  ort_cuda : attr bool;
  ort_session : string -> list string -> outcome handle;
  ort_inputs : handle -> list (string * list (option nat));
  ort_outputs : handle -> list string;
  ort_providers : handle -> list string;
  (** [model.execute] and [session.run] with the conversion of their
      outputs to lists *)
  max_execute : handle -> ndarray -> outcome json;
  ort_run : handle -> string -> ndarray -> outcome json;
  np_array : json -> dtype -> outcome ndarray;
  format_exc : exn -> string
}.

(** The argument of [predict_max] / [predict_onnx]: the JSON value of
    [/predict] or the array [/batch_predict] has already built. *)
Inductive input : Type :=
| Raw (v : json)
| Array (a : ndarray).

(** *** Statements *)

Definition M (A : Type) : Type := state -> state * outcome A.

Definition ret {A} (a : A) : M A := fun s => (s, Return a).
Definition raise {A} (e : exn) : M A := fun s => (s, Raised e).
Definition bind {A B} (m : M A) (k : A -> M B) : M B :=
  fun s =>
    match m s with
    | (s', Return a) => k a s'
    | (s', Raised e) => (s', Raised e)
    end.
Definition try_except {A} (body : M A) (handler : exn -> M A) : M A :=
  fun s =>
    match body s with
    | (s', Raised e) => handler e s'
    | r => r
    end.
Definition lift {A} (o : outcome A) : M A := fun s => (s, o).

Notation "x <- c1 ;; c2" := (bind c1 (fun x => c2))
  (at level 100, c1 at next level, right associativity).
Notation "c1 ;; c2" := (bind c1 (fun _ => c2))
  (at level 100, right associativity).

Definition set_models (f : gmap string model_info -> gmap string model_info) : M unit :=
  fun s => (mk_state (f (_models s)) (_inference_session s) (_stats s) (calls s),
            Return tt).
Definition set_session (v : option handle) : M unit :=
  fun s => (mk_state (_models s) v (_stats s) (calls s), Return tt).
Definition set_stats (f : stats -> stats) : M unit :=
  fun s => (mk_state (_models s) (_inference_session s) (f (_stats s)) (calls s),
            Return tt).
Definition record_call (c : call) : M unit :=
  fun s => (mk_state (_models s) (_inference_session s) (_stats s) (calls s ++ [c]),
            Return tt).

Definition incr_requests (st : stats) : stats :=
  mk_stats (requests_total st + 1) (inference_total st) (errors_total st)
    (avg_inference_time_ms st) (start_time st).
Definition add_inference (k : Z) (st : stats) : stats :=
  mk_stats (requests_total st) (inference_total st + k) (errors_total st)
    (avg_inference_time_ms st) (start_time st).
Definition incr_errors (st : stats) : stats :=
  mk_stats (requests_total st) (inference_total st) (errors_total st + 1)
    (avg_inference_time_ms st) (start_time st).
Definition set_avg (avg : Q) (st : stats) : stats :=
  mk_stats (requests_total st) (inference_total st) (errors_total st)
    avg (start_time st).

Definition contains {V} (m : gmap string V) (k : string) : bool :=
  bool_decide (is_Some (m !! k)).

Definition jstrs (l : list string) : json := JArr (JStr <$> l).

Definition jdim (d : option nat) : json :=
  match d with
  | Some n => JNum (inject_Z (Z.of_nat n))
  | None => JNull
  end.

(** Truthiness and [len] of a JSON value. *)
Definition truthy_json (v : json) : bool :=
  match v with
  | JNull => false
  | JBool b => b
  | JNum q => negb (Qeq_bool q 0)
  | JStr s => negb (String.eqb s EmptyString)
  | JArr l => match l with [] => false | _ => true end
  | JObj l => match l with [] => false | _ => true end
  end.

Definition py_len (v : json) : outcome Z :=
  match v with
  | JArr l => Return (Z.of_nat (length l))
  | JObj l => Return (Z.of_nat (length l))
  | JStr s => Return (Z.of_nat (String.length s))
  | _ => Raised "object has no len()"
  end.

Section Routes.
Context (E : Env).

Definition get_inference_session : M (option handle) :=
  (fun s =>
     if MAX_AVAILABLE E && bool_decide (_inference_session s = None) then
       (record_call (MaxSession "gpu:0") ;;
        match max_session E "gpu:0" with
        | Return h =>
            set_session (Some h) ;;
            record_call (Printed "[MAX Bridge] MAX Engine InferenceSession created (GPU)")
        | Raised _ =>
            record_call (MaxSession "cpu") ;;
            match max_session E "cpu" with
            | Return h =>
                set_session (Some h) ;;
                record_call (Printed "[MAX Bridge] MAX Engine InferenceSession created (CPU)")
            | Raised cpu_err =>
                record_call (Printed ("[MAX Bridge] MAX session creation failed: " +:+ cpu_err)) ;;
                set_session None
            end
        end) s
     else ret tt s) ;;
  (fun s => (s, Return (_inference_session s))).

Definition load_model_max (model_path model_id : string)
  : M (list (string * json)) :=
  session <- get_inference_session ;;
  match session with
  | None => raise "MAX Engine session not available"
  | Some session =>
      record_call (MaxLoad session model_path) ;;
      model <- lift (max_load E session model_path) ;;
      set_models (insert model_id (mk_model_info model "max" model_path)) ;;
      let names :=
        match max_input_metadata E model with
        | Failing => ([], [])
        | Missing =>
            match max_output_metadata E model with
            | Has o => ([], o)
            | _ => ([], [])
            end
        | Has i =>
            match max_output_metadata E model with
            | Has o => (i, o)
            | _ => (i, [])
            end
        end in
      ret [("model_id", JStr model_id);
           ("backend", JStr "max");
           ("input_names", jstrs names.1);
           ("output_names", jstrs names.2)]
  end.

Definition load_model_onnx (model_path model_id : string)
  : M (list (string * json)) :=
  if negb (ONNX_AVAILABLE E) then raise "name 'ort' is not defined"
  else
    let providers :=
      match ort_cuda E with
      | Has true => ["CUDAExecutionProvider"; "CPUExecutionProvider"]
      | _ => ["CPUExecutionProvider"]
      end in
    record_call (OrtSession model_path providers) ;;
    session <- lift (ort_session E model_path providers) ;;
    set_models (insert model_id (mk_model_info session "onnx" model_path)) ;;
    ret [("model_id", JStr model_id);
         ("backend", JStr "onnx");
         ("input_names", jstrs (ort_inputs E session).*1);
         ("output_names", jstrs (ort_outputs E session));
         ("input_shapes", JArr ((fun sh => JArr (jdim <$> sh)) <$> (ort_inputs E session).*2));
         ("providers", jstrs (ort_providers E session))].

(** The common preparation of [predict_max] and [predict_onnx]. *)
Definition prepare_input (input_data : input) : M ndarray :=
  input_array <- match input_data with
                 | Raw (JArr l) => lift (np_array E (JArr l) Float32)
                 | Raw _ => raise "object has no attribute 'shape'"
                 | Array a => ret a
                 end ;;
  ret (ensure_batch input_array).

Definition predict_max (model_id : string) (input_data : input) : M json :=
  fun s =>
  match _models s !! model_id with
  | None => raise ("Model " +:+ model_id +:+ " not loaded") s
  | Some model_info =>
      (input_array <- prepare_input input_data ;;
       record_call (MaxExecute (model model_info) input_array) ;;
       lift (max_execute E (model model_info) input_array)) s
  end.

Definition predict_onnx (model_id : string) (input_data : input) : M json :=
  fun s =>
  match _models s !! model_id with
  | None => raise ("Model " +:+ model_id +:+ " not loaded") s
  | Some model_info =>
      (input_array <- prepare_input input_data ;;
       match (ort_inputs E (model model_info)).*1 with
       | [] => raise "list index out of range"
       | input_name :: _ =>
           record_call (OrtRun (model model_info) input_name input_array) ;;
           lift (ort_run E (model model_info) input_name input_array)
       end) s
  end.

Definition jsonify (code : nat) (fields : list (string * json)) : M http_response :=
  ret (mk_http code fields).

(** [request.get_json()] followed by the first [data.get]. *)
Definition get_json (data : option body) : M body :=
  match data with
  | Some d => ret d
  | None => raise "'NoneType' object has no attribute 'get'"
  end.

(** The [except Exception] clause of [/load] and [/predict]. *)
Definition on_error_traced (e : exn) : M http_response :=
  set_stats incr_errors ;;
  jsonify 500 [("success", JBool false); ("error", JStr e);
               ("traceback", JStr (format_exc E e))].

(** The [except Exception] clause of [/unload] and [/batch_predict]. *)
Definition on_error (e : exn) : M http_response :=
  set_stats incr_errors ;;
  jsonify 500 [("success", JBool false); ("error", JStr e)].

Definition health : M http_response :=
  fun s =>
  jsonify 200 [("status", JStr "healthy");
               ("backend", JStr (if MAX_AVAILABLE E then "max" else "onnx"));
               ("models_loaded", JNum (inject_Z (Z.of_nat (size (_models s)))))] s.

(** The order of the keys of [_models] is not modelled. *)
Definition status_route (uptime : Q) : M http_response :=
  set_stats incr_requests ;;
  fun s =>
  jsonify 200
    [("status", JStr "running");
     ("backend", JStr (if MAX_AVAILABLE E then "max" else "onnx"));
     ("max_available", JBool (MAX_AVAILABLE E));
     ("onnx_available", JBool (ONNX_AVAILABLE E));
     ("models", jstrs (map_to_list (_models s)).*1);
     ("model_info",
      JObj ((fun kv => (kv.1, JObj [("backend", JStr (backend kv.2));
                                    ("path", JStr (path kv.2))]))
              <$> map_to_list (_models s)));
     ("stats",
      JObj [("requests_total", JNum (inject_Z (requests_total (_stats s))));
            ("inference_total", JNum (inject_Z (inference_total (_stats s))));
            ("errors_total", JNum (inject_Z (errors_total (_stats s))));
            ("avg_inference_time_ms", JNum (round2 (avg_inference_time_ms (_stats s))));
            ("uptime_seconds", JNum uptime)])] s.

Definition load_model (data : option body) (load_time : Q) : M http_response :=
  set_stats incr_requests ;;
  try_except
    (data <- get_json data ;;
     let model_path := b_model_path data in
     model_id <- (if truthy (b_model_id data) then ret (fmt (b_model_id data))
                  else match model_path with
                       | Some p => ret (basename p)
                       | None => raise "expected str, bytes or os.PathLike object, not NoneType"
                       end) ;;
     let prefer_backend := default "auto" (b_backend data) in
     if negb (truthy model_path) then
       jsonify 400 [("success", JBool false); ("error", JStr "model_path required")]
     else
       let model_path := fmt model_path in
       fun s =>
       match _models s !! model_id with
       | Some info =>
           jsonify 200 [("success", JBool true);
                        ("message", JStr ("Model " +:+ model_id +:+ " already loaded"));
                        ("model_id", JStr model_id);
                        ("backend", JStr (backend info))] s
       | None =>
           if negb (path_exists E model_path) then
             jsonify 404 [("success", JBool false);
                          ("error", JStr ("Model file not found: " +:+ model_path))] s
           else
             (result <-
                (if String.eqb prefer_backend "max"
                    || (String.eqb prefer_backend "auto" && MAX_AVAILABLE E)
                 then
                   try_except (load_model_max model_path model_id)
                     (fun e =>
                        if ONNX_AVAILABLE E && String.eqb prefer_backend "auto" then
                          record_call (Printed ("[MAX Bridge] MAX load failed, falling back to ONNX: " +:+ e)) ;;
                          load_model_onnx model_path model_id
                        else raise e)
                 else load_model_onnx model_path model_id) ;;
              jsonify 200 ([("success", JBool true);
                            ("message", JStr ("Model " +:+ model_id +:+ " loaded successfully"));
                            ("load_time_ms", JNum (round2 load_time))] ++ result)) s
       end)
    on_error_traced.

Definition predict (data : option body) (inference_time : Q) : M http_response :=
  set_stats incr_requests ;;
  set_stats (add_inference 1) ;;
  try_except
    (data <- get_json data ;;
     let model_id := b_model_id data in
     let input_data := b_input_data data in
     if negb (truthy model_id) then
       jsonify 400 [("success", JBool false); ("error", JStr "model_id required")]
     else
       let model_id := fmt model_id in
       if is_none input_data then
         jsonify 400 [("success", JBool false); ("error", JStr "input_data required")]
       else
         fun s =>
         match _models s !! model_id with
         | None =>
             jsonify 404 [("success", JBool false);
                          ("error", JStr ("Model " +:+ model_id +:+ " not loaded"))] s
         | Some info =>
             (let backend := backend info in
              result <- (if String.eqb backend "max"
                         then predict_max model_id (Raw input_data)
                         else predict_onnx model_id (Raw input_data)) ;;
              fun s =>
              let n := inference_total (_stats s) in
              if (n =? 0)%Z then raise "division by zero" s
              else
                (set_stats (set_avg ((avg_inference_time_ms (_stats s) * inject_Z (n - 1)
                                      + inference_time) / inject_Z n)) ;;
                 jsonify 200 [("success", JBool true);
                              ("prediction", result);
                              ("inference_time_ms", JNum (round2 inference_time));
                              ("backend", JStr backend)]) s) s
         end)
    on_error_traced.

Definition unload_model (data : option body) : M http_response :=
  set_stats incr_requests ;;
  try_except
    (data <- get_json data ;;
     let model_id := b_model_id data in
     if negb (truthy model_id) then
       jsonify 400 [("success", JBool false); ("error", JStr "model_id required")]
     else
       let model_id := fmt model_id in
       fun s =>
       if negb (contains (_models s) model_id) then
         jsonify 404 [("success", JBool false);
                      ("error", JStr ("Model " +:+ model_id +:+ " not loaded"))] s
       else
         (set_models (delete model_id) ;;
          jsonify 200 [("success", JBool true);
                       ("message", JStr ("Model " +:+ model_id +:+ " unloaded"))]) s)
    on_error.

Definition batch_predict (data : option body) (inference_time : Q) : M http_response :=
  set_stats incr_requests ;;
  try_except
    (data <- get_json data ;;
     let model_id := b_model_id data in
     let inputs := b_inputs data in
     if negb (truthy model_id) || negb (truthy_json inputs) then
       jsonify 400 [("success", JBool false);
                    ("error", JStr "model_id and inputs required")]
     else
       let model_id := fmt model_id in
       fun s =>
       match _models s !! model_id with
       | None =>
           jsonify 404 [("success", JBool false);
                        ("error", JStr ("Model " +:+ model_id +:+ " not loaded"))] s
       | Some info =>
           (batch_input <- lift (np_array E inputs Float32) ;;
            let backend := backend info in
            result <- (if String.eqb backend "max"
                       then predict_max model_id (Array batch_input)
                       else predict_onnx model_id (Array batch_input)) ;;
            len <- lift (py_len inputs) ;;
            set_stats (add_inference len) ;;
            jsonify 200 [("success", JBool true);
                         ("predictions", result);
                         ("batch_size", JNum (inject_Z len));
                         ("inference_time_ms", JNum (round2 inference_time));
                         ("per_sample_ms", JNum (round2 (inference_time / inject_Z len)));
                         ("backend", JStr backend)]) s
       end)
    on_error.

(** One request served by the application.  A route whose own
    [except] clause has run never raises; the [500] of the last case is
    Flask's answer to an exception that escapes a route. *)
Definition serve (r : request) (s : state) : state * http_response :=
  let run (m : M http_response) :=
    match m s with
    | (s', Return resp) => (s', resp)
    | (s', Raised e) => (s', mk_http 500 [])
    end in
  match r with
  | GetHealth => run health
  | GetStatus uptime => run (status_route uptime)
  | PostLoad data load_time => run (load_model data load_time)
  | PostPredict data inference_time => run (predict data inference_time)
  | PostUnload data => run (unload_model data)
  | PostBatchPredict data inference_time => run (batch_predict data inference_time)
  end.

(** Requests handled one after the other. *)
Fixpoint serve_all (rs : list request) (s : state) : state * list http_response :=
  match rs with
  | [] => (s, [])
  | r :: rest =>
      let '(s1, resp) := serve r s in
      let '(s2, resps) := serve_all rest s1 in
      (s2, resp :: resps)
  end.

End Routes.

End MaxBridge.

(* ===================================================================== *)
(** ** nodes/coral_inference.py: the Edge TPU helper *)
(* ===================================================================== *)

Module Coral.
Import Py.

Definition handle := nat.

(** One entry of [get_input_details()] / [get_output_details()]. *)
Record tensor_details : Type := mk_details {
  td_dtype : dtype;
  td_shape : list nat;
  td_quantization : Q * Q;   (* (scale, zero_point) *)
  td_index : nat
}.

Record Env : Type := mk_env {
  list_edge_tpus : list string;
  make_interpreter : string -> outcome handle;
  input_details : handle -> tensor_details;
  output_details : handle -> tensor_details;
  (** [set_tensor], [invoke] and [get_tensor] *)
  invoke : handle -> ndarray -> outcome ndarray;
  np_array : json -> dtype -> outcome ndarray
}.

Definition bind {A B} (m : outcome A) (k : A -> outcome B) : outcome B :=
  match m with
  | Return a => k a
  | Raised e => Raised e
  end.

Notation "x <- c1 ;; c2" := (bind c1 (fun x => c2))
  (at level 100, c1 at next level, right associativity).

(** [a.reshape(expected_shape)]. *)
Definition reshape (a : ndarray) (expected_shape : list nat) : outcome ndarray :=
  if (foldr Nat.mul 1%nat expected_shape =? arr_size a)%nat
  then Return (mk_ndarray (arr_dtype a) expected_shape (data a))
  else Raised "cannot reshape array".

(** [a.astype(d)]. *)
Definition astype (d : dtype) (a : ndarray) : ndarray :=
  mk_ndarray d (shape a) (map (cast d) (data a)).

(** [np.round(a / scale + zero_point)], element by element. *)
Definition quantize_values (scale zero_point : Q) (a : ndarray) : ndarray :=
  mk_ndarray (arr_dtype a) (shape a)
    (map (fun x => inject_Z (round_half_even (x / scale + zero_point))) (data a)).

Section Helper.
Context (E : Env).

(** Lines 49-62: "Prepare input", "Reshape if needed" and "Quantize if
    needed (for INT8 models)". *)
Definition prepare_input (details : tensor_details) (input_data : json)
  : outcome ndarray :=
  input_array <- np_array E input_data (td_dtype details) ;;
  let expected_shape := td_shape details in
  input_array <- (if negb (shape_eqb (shape input_array) expected_shape)
                  then reshape input_array expected_shape
                  else Return input_array) ;;
  if dtype_eqb (td_dtype details) Int8 then
    if dtype_eqb (arr_dtype input_array) Float32 then
      let '(scale, zero_point) := td_quantization details in
      Return (astype Int8 (quantize_values scale zero_point input_array))
    else Return input_array
  else Return input_array.

(** Lines 71-74: "Dequantize if needed". *)
Definition dequantize (details : tensor_details) (output_data : ndarray) : ndarray :=
  if dtype_eqb (td_dtype details) Int8 then
    let '(scale, zero_point) := td_quantization details in
    mk_ndarray Float32 (shape output_data)
      (map (fun q => ((q - zero_point) * scale)%Q) (data (astype Float32 output_data)))
  else output_data.

(** The body of the [try] of [main] once a device has been found; an
    exception ends in one of the [except] clauses, which print it and
    exit with status 1. *)
Definition run (model_path : string) (input_data : json) : outcome ndarray :=
  match list_edge_tpus E with
  | [] => Raised "No Coral Edge TPU device found"
  | _ =>
      interpreter <- make_interpreter E model_path ;;
      let input_details := input_details E interpreter in
      let output_details := output_details E interpreter in
      input_array <- prepare_input input_details input_data ;;
      output_data <- invoke E interpreter input_array ;;
      Return (dequantize output_details output_data)
  end.

End Helper.

End Coral.

(* ===================================================================== *)
(** ** Concrete environments used to run the three scripts *)
(* ===================================================================== *)

Module Demo.
Import Py.

(** The files present on the demonstration disk. *)
Definition files : list string :=
  ["models/demo/model.keras"; "models/demo/model.pkl"; "models/demo/model.onnx";
   "models/demo/broken.onnx"].

Definition on_disk (p : string) : bool := existsb (String.eqb p) files.

(** Every loader fails on a missing file and yields object [7] otherwise. *)
Definition py_env : PythonBridge.Env :=
  PythonBridge.mk_env
    (fun _ p => if on_disk p then Return 7%nat
                else Raised ("[Errno 2] No such file or directory: '" +:+ p +:+ "'"))
    (fun _ _ _ => Return (JArr [JArr [JNum (1 # 2)]]))
    (Return np_array)
    ["sklearn"; "numpy"]
    "3.11.4"
    (fun e => "Traceback (most recent call last): " +:+ e).

(** MAX has a CPU session only; it cannot compile [broken.onnx], which
    ONNX Runtime loads.  [declared] is the input shape the ONNX models
    declare. *)
Definition max_env (max_avail onnx_avail : bool) (declared : list (option nat))
  : MaxBridge.Env :=
  MaxBridge.mk_env max_avail onnx_avail on_disk
    (fun dev => if String.eqb dev "cpu" then Return 1%nat
                else Raised "no GPU device")
    (fun _ p => if String.eqb p "models/demo/broken.onnx"
                then Raised "failed to compile the model"
                else Return 10%nat)
    (fun _ => MaxBridge.Has ["input"])
    (fun _ => MaxBridge.Has ["output"])
    (MaxBridge.Has false)
    (fun _ _ => Return 20%nat)
    (fun _ => [("input", declared)])
    (fun _ => ["output"])
    (fun _ => ["CPUExecutionProvider"])
    (fun _ _ => Return (JArr [JArr [JNum (1 # 2)]]))
    (fun _ _ _ => Return (JArr [JArr [JNum (1 # 2)]]))
    np_array
    (fun e => "Traceback (most recent call last): " +:+ e).

(** An int8 model with one input of shape [1; 2], scale 1/2 and zero
    point 0, whose network is the identity. *)
Definition coral_env : Coral.Env :=
  Coral.mk_env ["usb:0"]
    (fun _ => Return 3%nat)
    (fun _ => Coral.mk_details Int8 [1%nat; 2%nat] (1 # 2, 0%Q) 0%nat)
    (fun _ => Coral.mk_details Int8 [1%nat; 2%nat] (1 # 2, 0%Q) 1%nat)
    (fun _ a => Return a)
    np_array.

(** The server of the demonstration runs: both engines, models taking
    a batch of vectors of length 5. *)
Definition server : MaxBridge.Env := max_env true true [None; Some 5%nat].

(** A server whose models take a batch of 2 x 3 matrices. *)
Definition matrix_server : MaxBridge.Env :=
  max_env false true [None; Some 2%nat; Some 3%nat].

Definition sample : json :=
  JArr [JNum (1 # 2); JNum (1 # 2); JNum (1 # 2); JNum (1 # 2); JNum (1 # 2)].

Definition matrix : json :=
  JArr [JArr [JNum 1; JNum 2; JNum 3]; JArr [JNum 4; JNum 5; JNum 6]].

(** Request bodies. *)
Definition load_demo : MaxBridge.body :=
  MaxBridge.mk_body (Some "models/demo/model.onnx") (Some "demo") None JNull JNull.
Definition load_broken : MaxBridge.body :=
  MaxBridge.mk_body (Some "models/demo/broken.onnx") (Some "demo") None JNull JNull.
Definition load_missing : MaxBridge.body :=
  MaxBridge.mk_body (Some "models/none/model.onnx") None None JNull JNull.
Definition use_demo (input_data : json) : MaxBridge.body :=
  MaxBridge.mk_body None (Some "demo") None input_data JNull.
Definition use_nothing : MaxBridge.body :=
  MaxBridge.mk_body None None None sample JNull.
Definition batch_on (model_id : string) : MaxBridge.body :=
  MaxBridge.mk_body None (Some model_id) None JNull (JArr [sample; sample]).

(** Request lines of the streaming bridge. *)
Definition line_load (i path : string) (model_id : option string) : PythonBridge.line :=
  PythonBridge.JsonObject
    (PythonBridge.mk_msg (Some i) (Some "load_model") (Some path) model_id JNull).
Definition line_unload (i model_id : string) : PythonBridge.msg :=
  PythonBridge.mk_msg (Some i) (Some "unload_model") None (Some model_id) JNull.
Definition line_predict (i model_id : string) (input_data : json) : PythonBridge.msg :=
  PythonBridge.mk_msg (Some i) (Some "predict") None (Some model_id) input_data.

End Demo.
(* ===================================================================== *)
(** ** Facts about the streaming bridge *)
(* ===================================================================== *)

Module PythonBridgeFacts.
Import Py PythonBridge.

(** The commands [main] dispatches on. *)
Definition recognized : list string :=
  ["load_model"; "predict"; "unload_model"; "status"; "shutdown"; "ping"].

(** The model types [handle_load_model] can store. *)
Definition known_types : list string := ["keras"; "sklearn"; "tflite"].

(** The registry invariant: both dictionaries have the same keys and
    every stored type is one [handle_predict] dispatches on. *)
Definition consistent (s : state) : Prop :=
  dom (_models s) = dom (_model_types s) ∧
  ∀ k t, _model_types s !! k = Some t → t ∈ known_types.

(** The key a load request is about: the given [model_id] when it is
    truthy, else the base name of the path. *)
Definition requested_id (model_path model_id : option string) : option string :=
  if truthy model_id then model_id else basename <$> model_path.

(** [import numpy] succeeds. *)
Definition numpy_installed (E : Env) : Prop :=
  ∃ array, import_numpy E = Return array.

(** Appending one response to the output. *)
Definition say (r : response) (s : state) : state :=
  mk_state (_models s) (_model_types s) (stdout s ++ [r]) (calls s).

Ltac unfold_m :=
  unfold handle_message, dispatch, handle_load_model, handle_predict,
    handle_unload_model, handle_status, load_keras_model, load_sklearn_model,
    load_tflite_model, call_load, call_predict, delitem_models,
    delitem_model_types, getitem, set_models, set_model_types, record_call,
    send_response, try_except, bind, ret, raise, lift in *.

#[local] Arguments contains : simpl never.
#[local] Arguments str_in : simpl never.

Lemma contains_Some {V} (m : gmap string V) k :
  contains m (Some k) = true ↔ is_Some (m !! k).
Proof. unfold contains. by rewrite bool_decide_eq_true. Qed.

Lemma contains_true {V} (m : gmap string V) o :
  contains m o = true → ∃ k, o = Some k ∧ is_Some (m !! k).
Proof.
  destruct o as [k|]; simpl; [|done].
  intros H%bool_decide_eq_true. eauto.
Qed.

Lemma contains_false {V} (m : gmap string V) k :
  contains m (Some k) = false ↔ m !! k = None.
Proof.
  unfold contains. rewrite bool_decide_eq_false, eq_None_not_Some. done.
Qed.

Lemma str_in_spec x l : str_in x l = true ↔ x ∈ l.
Proof.
  unfold str_in. rewrite existsb_exists. split.
  - intros (y & Hy & ->%String.eqb_eq). by apply list_elem_of_In.
  - intros H. exists x. split; [by apply list_elem_of_In | apply String.eqb_refl].
Qed.

Section WithEnv.
Context (E : Env).

(** What a load can do to the two dictionaries: nothing, or one fresh
    key added to both, with a known type. *)
Lemma handle_load_model_registry msg_id model_path model_id s :
  let s' := (handle_load_model E msg_id model_path model_id s).1 in
  (_models s' = _models s ∧ _model_types s' = _model_types s) ∨
  (∃ k h t, _models s !! k = None ∧ t ∈ known_types ∧
            _models s' = <[k:=h]> (_models s) ∧
            _model_types s' = <[k:=t]> (_model_types s)).
Proof.
  unfold_m. simpl.
  repeat (case_match; simpl in *; simplify_eq; auto);
    right; eexists _, _, _;
    (split; [by apply contains_false|]);
    (split; [|split; reflexivity]);
    unfold known_types; set_solver.
Qed.


Lemma consistent_load msg_id model_path model_id s :
  consistent s →
  consistent (handle_load_model E msg_id model_path model_id s).1.
Proof.
  intros [Hdom Hty].
  destruct (handle_load_model_registry msg_id model_path model_id s)
    as [[Hm Ht] | (k & h & t & _ & Hk & Hm & Ht)];
    unfold consistent; rewrite Hm, Ht.
  - done.
  - split.
    + rewrite !dom_insert_L. by rewrite Hdom.
    + intros k' t'. rewrite lookup_insert.
      case_decide; [intros [= <-]; done | apply Hty].
Qed.

(** An unload never touches a state it finds consistent except by
    deleting the key from both dictionaries, and it does not raise. *)
Lemma handle_unload_model_registry msg_id model_id s :
  consistent s →
  let r := handle_unload_model msg_id model_id s in
  r.2 = Return tt ∧
  ((_models r.1 = _models s ∧ _model_types r.1 = _model_types s) ∨
   (∃ k, model_id = Some k ∧
         _models r.1 = delete k (_models s) ∧
         _model_types r.1 = delete k (_model_types s))).
Proof.
  intros [Hdom Hty]. unfold_m. simpl.
  destruct (contains (_models s) model_id) eqn:Hc; simpl; [|auto].
  apply contains_true in Hc as (k & -> & Hk). simpl.
  assert (is_Some (_model_types s !! k)) as Hk'.
  { apply elem_of_dom. rewrite <- Hdom. by apply elem_of_dom. }
  apply contains_Some in Hk'. rewrite Hk'. simpl.
  split; [done|]. right. by exists k.
Qed.

Lemma consistent_unload msg_id model_id s :
  consistent s →
  consistent (handle_unload_model msg_id model_id s).1.
Proof.
  intros Hs.
  destruct (handle_unload_model_registry msg_id model_id s Hs)
    as [_ [[Hm Ht] | (k & _ & Hm & Ht)]];
    destruct Hs as [Hdom Hty]; unfold consistent; rewrite Hm, Ht.
  - done.
  - split.
    + rewrite !dom_delete_L. by rewrite Hdom.
    + intros k' t'. rewrite lookup_delete.
      case_decide; [done | apply Hty].
Qed.

(** Inference and status leave the registry as it is. *)
Lemma handle_predict_registry msg_id model_id input_data s :
  let s' := (handle_predict E msg_id model_id input_data s).1 in
  _models s' = _models s ∧ _model_types s' = _model_types s.
Proof.
  unfold_m. simpl.
  repeat (case_match; simpl in *; simplify_eq; auto).
Qed.

Lemma handle_message_consistent m s :
  consistent s → consistent (handle_message E m s).1.
Proof.
  intros Hs.
  pose proof (consistent_load (default "unknown" (m_id m))
                (m_model_path m) (m_model_id m) s Hs) as Hl.
  pose proof (consistent_unload (default "unknown" (m_id m))
                (m_model_id m) s Hs) as Hu.
  pose proof (handle_predict_registry (default "unknown" (m_id m))
                (m_model_id m) (m_input_data m) s) as [Hp1 Hp2].
  unfold handle_message, dispatch.
  repeat case_match; simpl in *;
    unfold try_except, bind, ret, send_response, handle_status in *; simpl in *;
    repeat (case_match; simpl in *; simplify_eq);
    try done;
    unfold consistent in *; simpl in *;
    try (rewrite Hp1, Hp2 in *; done).
Qed.

Lemma read_loop_consistent lines s :
  consistent s → consistent (read_loop E lines s).1.
Proof.
  revert s. induction lines as [|l rest IH]; intros s Hs; simpl; [done|].
  destruct l as [|err|e|m|]; simpl; auto.
  pose proof (handle_message_consistent m s Hs) as Hm.
  destruct (handle_message E m s) as [s' [[]|e]]; simpl in *; auto.
Qed.

(** The general form of the answer to a command [main] does not know:
    one failure response is written and the loop goes on with the next
    line, in a state that differs by that response only. *)
Lemma read_loop_unknown_command m rest s :
  default EmptyString (m_command m) ∉ recognized →
  read_loop E (JsonObject m :: rest) s =
  read_loop E rest
    (say (mk_response (default "unknown" (m_id m)) false None
            (Some ("Unknown command: " +:+ default EmptyString (m_command m)))) s).
Proof.
  intros Hc. simpl. unfold handle_message, dispatch.
  assert (∀ c, c ∈ recognized →
               String.eqb (default EmptyString (m_command m)) c = false) as Hne.
  { intros c Hin. apply String.eqb_neq. intros Heq. by rewrite Heq in Hc. }
  rewrite !Hne by (unfold recognized; set_solver).
  reflexivity.
Qed.


Lemma ensure_batch_vector a n :
  shape a = [n] → ensure_batch a = mk_ndarray (arr_dtype a) [1; n] (data a).
Proof.
  intros Hsh. unfold ensure_batch, ndim, reshape_1_m1, arr_size.
  rewrite Hsh. simpl. by rewrite Nat.mul_1_r.
Qed.

Lemma ensure_batch_other a : ndim a ≠ 1 → ensure_batch a = a.
Proof.
  intros Hn. unfold ensure_batch.
  by apply Nat.eqb_neq in Hn as ->.
Qed.

(** Loading a key that is present: one response, nothing else. *)
Lemma reload_streaming msg_id model_path model_id k s :
  requested_id model_path model_id = Some k →
  is_Some (_models s !! k) →
  handle_load_model E msg_id model_path model_id s =
  (say (mk_response msg_id true
          (Some (JObj [("message", JStr ("Model " +:+ k +:+ " already loaded"))]))
          None) s,
   Return tt).
Proof.
  intros Hid Hk%contains_Some. unfold requested_id in Hid.
  unfold_m.
  destruct (truthy model_id) eqn:Ht; simpl.
  - subst model_id. simpl. by rewrite Hk.
  - destruct model_path as [p|]; simplify_eq/=. by rewrite Hk.
Qed.

(** Loading from a path on which every loader raises. *)
Lemma load_missing_file_streaming msg_id p model_id k s :
  (∀ l, ∃ e, backend_load E l p = Raised e) →
  requested_id (Some p) model_id = Some k →
  _models s !! k = None →
  ∃ err s',
    handle_load_model E msg_id (Some p) model_id s = (s', Return tt) ∧
    _models s' = _models s ∧ _model_types s' = _model_types s ∧
    stdout s' = stdout s ++ [mk_response msg_id false None (Some err)] ∧
    (err = "Unsupported model format: " +:+ lower (splitext p).2 ∨
     ∃ l, backend_load E l p = Raised err).
Proof.
  intros Hfail Hid Hk%contains_false. unfold requested_id in Hid.
  assert (∀ l, ∃ e, backend_load E l p = Raised e ∧ True) as Hfail'.
  { intros l. destruct (Hfail l) as [e He]. eauto. }
  unfold_m.
  destruct (truthy model_id) eqn:Ht; simpl in *; simplify_eq; simpl;
    rewrite Hk; simpl;
    repeat (case_match; simpl in *; simplify_eq);
    try (match goal with
         | H : backend_load E ?l p = Return _ |- _ =>
             destruct (Hfail l) as [? ?]; congruence
         end);
    eexists _, _; (split; [reflexivity|]); simpl;
    (split; [reflexivity|]); (split; [reflexivity|]);
    (split; [reflexivity|]); eauto.
Qed.

(** An unload, whatever its outcome, leaves the key out of [_models]. *)
Lemma unload_removes msg_id model_id s :
  contains (_models (handle_unload_model msg_id model_id s).1) model_id = false.
Proof.
  unfold_m. simpl.
  destruct (contains (_models s) model_id) eqn:Hc; simpl; [|done].
  apply contains_true in Hc as (k & -> & Hk). simpl.
  assert (contains (delete k (_models s)) (Some k) = false) as Hd.
  { apply contains_false. apply lookup_delete_eq. }
  destruct (contains (_model_types s) (Some k)); simpl; exact Hd.
Qed.

Lemma predict_after_unload_streaming id1 id2 model_id input_data s :
  numpy_installed E →
  let s1 := (handle_unload_model id1 model_id s).1 in
  handle_predict E id2 model_id input_data s1 =
  (say (mk_response id2 false None
          (Some ("Model " +:+ fmt model_id +:+ " not loaded"))) s1,
   Return tt).
Proof.
  intros [array Hnp] s1. unfold handle_predict, bind, lift.
  rewrite Hnp. subst s1. by rewrite unload_removes.
Qed.

(** Without numpy a predict is answered by the handler of [main], with
    the exception of the import, whatever the registry holds. *)
Lemma predict_without_numpy e m s :
  import_numpy E = Raised e →
  m_command m = Some "predict" →
  handle_message E m s =
  (say (mk_response (default "unknown" (m_id m)) false None
          (Some ("Error: " +:+ e +:+ newline +:+ format_exc E e))) s,
   Return false).
Proof.
  intros Hnp Hc. unfold handle_message, dispatch. rewrite Hc. simpl.
  unfold handle_predict, try_except, bind, lift. by rewrite Hnp.
Qed.

(** The array the backend is called with. *)
Lemma predict_call_streaming msg_id k h t input_data a s :
  _models s !! k = Some h →
  _model_types s !! k = Some t →
  t ∈ known_types →
  np_array E input_data Float32 = Return a →
  calls (handle_predict E msg_id (Some k) input_data s).1 =
  calls s ++ [CallPredict t h (ensure_batch a)].
Proof.
  intros Hm Ht Hk Ha.
  assert (contains (_models s) (Some k) = true) as Hc.
  { apply contains_Some. by rewrite Hm. }
  apply str_in_spec in Hk. unfold known_types in Hk.
  unfold np_array in Ha.
  destruct (import_numpy E) as [array|] eqn:Hnp; [|done].
  unfold_m. rewrite Hnp, Hc. simpl. rewrite Hm, Ht. simpl.
  rewrite Ha. simpl. rewrite Hk. simpl.
  by destruct (backend_predict E t h (ensure_batch a)).
Qed.

End WithEnv.

(** Whatever the command and the state, the handling of one parsed
    request writes one response, carries the id of the request, and ends
    normally; the loop is left on [shutdown] only. *)
Lemma handle_message_answers (E : Env) m s :
  ∃ r b,
    (handle_message E m s).2 = Return b ∧
    stdout (handle_message E m s).1 = stdout s ++ [r] ∧
    id r = default "unknown" (m_id m) ∧
    b = String.eqb (default EmptyString (m_command m)) "shutdown".
Proof.
  unfold_m. simpl.
  repeat (case_match; simpl in *; simplify_eq);
    eexists _, _; (split; [reflexivity|]); (split; [reflexivity|]);
    (split; [reflexivity|]);
    repeat match goal with
      | H : (_ =? _)%string = true |- _ => apply String.eqb_eq in H; rewrite H; clear H
      | H : (_ =? _)%string = false |- _ => rewrite ?H; clear H
      end;
    reflexivity.
Qed.

(** The output only grows. *)
Lemma read_loop_extends (E : Env) lines s :
  ∃ out, stdout (read_loop E lines s).1 = stdout s ++ out.
Proof.
  revert s. induction lines as [|l rest IH]; intros s; simpl.
  - exists []. by rewrite app_nil_r.
  - destruct l as [|err|e|m|]; simpl.
    + apply IH.
    + match goal with |- context [read_loop E rest ?s1] =>
        destruct (IH s1) as [out Hout] end.
      rewrite Hout. simpl. rewrite <- app_assoc. eauto.
    + exists []. by rewrite app_nil_r.
    + destruct (handle_message_answers E m s) as (r & b & Hb & Hout & _).
      destruct (handle_message E m s) as [s1 o]. simpl in *. subst o.
      destruct b; simpl.
      * rewrite Hout. eauto.
      * destruct (IH s1) as [out Hout1]. rewrite Hout1, Hout, <- app_assoc. eauto.
    + exists []. by rewrite app_nil_r.
Qed.

(** C9.  On the streaming transport a request whose command is not one
    of [load_model], [predict], [unload_model], [status], [shutdown], [ping]
    is answered with exactly one response, with [success = false], the error
    text ["Unknown command: <name>"] and the id of the request, and nothing
    else changes: the handling of the message returns without leaving the
    loop; the loop run on that line alone ends at the end of the input with
    that response appended to the output; followed by further lines, the
    loop handles them from that state, and its output holds the response
    right after what had been written before. *)
Theorem unknown_command_is_answered_and_loop_continues
    (E : Env) (m : msg) (rest : list line) (s : state) (i c : string) :
  m_id m = Some i →
  m_command m = Some c →
  c ∉ recognized →
  let r := mk_response i false None (Some ("Unknown command: " +:+ c)) in
  let s' := mk_state (_models s) (_model_types s) (stdout s ++ [r]) (calls s) in
  handle_message E m s = (s', Return false) ∧
  read_loop E [JsonObject m] s = (s', EndOfInput) ∧
  read_loop E (JsonObject m :: rest) s = read_loop E rest s' ∧
  ∃ out, stdout (read_loop E (JsonObject m :: rest) s).1 = stdout s ++ r :: out.
Proof.
  intros Hi Hc Hn r s'.
  assert (handle_message E m s = (s', Return false)) as Hm.
  { unfold handle_message, dispatch.
    assert (∀ c', c' ∈ recognized →
                  String.eqb (default EmptyString (m_command m)) c' = false) as Hne.
    { intros c' Hin. apply String.eqb_neq. intros Heq.
      rewrite Hc in Heq. simpl in Heq. by subst c'. }
    rewrite !Hne by (unfold recognized; set_solver).
    rewrite Hi, Hc. reflexivity. }
  assert (read_loop E (JsonObject m :: rest) s = read_loop E rest s') as Hgo.
  { simpl. by rewrite Hm. }
  split; [exact Hm|]. split; [simpl; by rewrite Hm|]. split; [exact Hgo|].
  rewrite Hgo. destruct (read_loop_extends E rest s') as [out Hout].
  exists out. rewrite Hout. subst s'. simpl. by rewrite <- app_assoc.
Qed.

Lemma unknown_command_is_answered_witness :
  ("frobnicate" ∉ recognized) ∧
  (stdout (read_loop Demo.py_env
             [JsonObject (mk_msg (Some "7") (Some "frobnicate") None None JNull);
              JsonObject (mk_msg (Some "8") (Some "ping") None None JNull)] initial).1 =
   [mk_response "7" false None (Some "Unknown command: frobnicate");
    mk_response "8" true (Some (JObj [("message", JStr "pong")])) None]).
Proof.
  assert ("frobnicate" ∉ recognized) as Hn.
  { apply (bool_decide_unpack _). vm_compute. exact I. }
  split; [exact Hn|].
  destruct (unknown_command_is_answered_and_loop_continues Demo.py_env
              (mk_msg (Some "7") (Some "frobnicate") None None JNull)
              [JsonObject (mk_msg (Some "8") (Some "ping") None None JNull)]
              initial "7" "frobnicate" eq_refl eq_refl Hn)
    as (_ & _ & Hgo & _).
  rewrite Hgo. reflexivity.
Defined.

(** C10.  After the start-up message and after any sequence of input
    lines, [_models] and [_model_types] have exactly the same keys, and
    every type stored is one of ["keras"], ["sklearn"], ["tflite"]: a
    loaded model always has a known backend type. *)
Theorem registry_maps_share_their_keys (E : Env) (lines : list line) :
  dom (_models (main E lines).1) = dom (_model_types (main E lines).1) ∧
  map_Forall (λ _ t, t ∈ known_types) (_model_types (main E lines).1).
Proof.
  assert (consistent (main E lines).1) as [Hdom Hty].
  { unfold main. apply read_loop_consistent.
    split; simpl; [by rewrite !dom_empty_L | intros k t; by rewrite lookup_empty]. }
  split; [exact Hdom | exact Hty].
Qed.

End PythonBridgeFacts.
(* ===================================================================== *)
(** ** Facts about the HTTP bridge *)
(* ===================================================================== *)

Module MaxBridgeFacts.
Import Py MaxBridge.

Definition requested_id := PythonBridgeFacts.requested_id.

(** The value of a key of a response body. *)
Fixpoint lookup_field (k : string) (fields : list (string * json)) : option json :=
  match fields with
  | [] => None
  | (k', v) :: rest => if String.eqb k k' then Some v else lookup_field k rest
  end.

Definition field (k : string) (r : http_response) : option json :=
  lookup_field k (payload r).

(** A call to the MAX engine. *)
Definition is_max_call (c : call) : bool :=
  match c with
  | MaxSession _ | MaxLoad _ _ => true
  | _ => false
  end.

(** The state once [requests_total] has been incremented. *)
Definition counted (s : state) : state :=
  mk_state (_models s) (_inference_session s) (incr_requests (_stats s)) (calls s).

Definition failed (s : state) : state :=
  mk_state (_models s) (_inference_session s) (incr_errors (_stats s)) (calls s).

Definition logged (c : call) (s : state) : state :=
  mk_state (_models s) (_inference_session s) (_stats s) (calls s ++ [c]).

(** The body of a successful [/load]. *)
Definition loaded_response (model_id : string) (load_time : Q)
    (result : list (string * json)) : http_response :=
  mk_http 200 ([("success", JBool true);
                ("message", JStr ("Model " +:+ model_id +:+ " loaded successfully"));
                ("load_time_ms", JNum (round2 load_time))] ++ result).

Definition error_response (E : Env) (e : exn) : http_response :=
  mk_http 500 [("success", JBool false); ("error", JStr e);
               ("traceback", JStr (format_exc E e))].

(** The arithmetic mean of a list of latencies ([0] for none). *)
Definition mean (xs : list Q) : Q :=
  (foldr Qplus 0 xs / inject_Z (Z.of_nat (length xs)))%Q.

(** The latencies a run records: the inference times of the [/predict]
    requests answered with 200, oldest first. *)
Fixpoint recorded (rs : list request) (resps : list http_response) : list Q :=
  match rs, resps with
  | PostPredict _ t :: rs', resp :: resps' =>
      if (status resp =? 200)%nat then t :: recorded rs' resps'
      else recorded rs' resps'
  | _ :: rs', _ :: resps' => recorded rs' resps'
  | _, _ => []
  end.

(** A request that does not disturb the average: a [/predict] that is
    answered with 200, a [/batch_predict] that is refused, or any other
    request. *)
Definition undisturbed (r : request) (resp : http_response) : Prop :=
  match r with
  | PostPredict _ _ => status resp = 200
  | PostBatchPredict _ _ => status resp ≠ 200
  | _ => True
  end.

Ltac unfold_m :=
  unfold serve, load_model, predict, unload_model, batch_predict, health,
    status_route, on_error, on_error_traced, get_json, jsonify,
    predict_max, predict_onnx, prepare_input,
    set_models, set_session, set_stats, record_call,
    try_except, bind, ret, raise, lift in *.

#[local] Arguments contains : simpl never.
#[local] Arguments String.eqb : simpl never.
#[local] Arguments load_model_max : simpl never.
#[local] Arguments load_model_onnx : simpl never.
#[local] Arguments basename : simpl never.
#[local] Arguments round2 : simpl never.
#[local] Arguments truthy : simpl never.

Lemma truthy_Some o : truthy o = true → ∃ p, o = Some p ∧ p ≠ EmptyString ∧ fmt o = p.
Proof. destruct o as [[|a p]|]; unfold truthy; simpl; try done. intros _. eauto. Qed.

Lemma truthy_nonempty p : p ≠ EmptyString → truthy (Some p) = true.
Proof. by destruct p. Qed.

Lemma requested_id_eq model_path model_id k :
  requested_id model_path model_id = Some k →
  (if truthy model_id then @ret string (fmt model_id)
   else match model_path with
        | Some p => ret (basename p)
        | None => raise "expected str, bytes or os.PathLike object, not NoneType"
        end) = ret k.
Proof.
  unfold requested_id, PythonBridgeFacts.requested_id.
  destruct (truthy model_id) eqn:Ht.
  - intros ->. reflexivity.
  - destruct model_path; simpl; congruence.
Qed.

Section WithEnv.
Context (E : Env).

(** *** Loading *)

Definition quiet (c : call) : Prop :=
  match c with
  | MaxSession _ | Printed _ => True
  | _ => False
  end.

Definition not_ort (c : call) : Prop :=
  match c with
  | OrtSession _ _ | OrtRun _ _ _ => False
  | _ => True
  end.

Lemma get_inference_session_spec s :
  let r := get_inference_session E s in
  r.2 = Return (_inference_session r.1) ∧
  _models r.1 = _models s ∧ _stats r.1 = _stats s ∧
  ∃ cs, calls r.1 = calls s ++ cs ∧ Forall quiet cs ∧
        (MAX_AVAILABLE E = true →
         match _inference_session s with
         | None => ∃ rest, cs = MaxSession "gpu:0" :: rest
         | Some h => cs = [] ∧ _inference_session r.1 = Some h
         end).
Proof.
  unfold get_inference_session. unfold_m. simpl.
  destruct (MAX_AVAILABLE E); simpl.
  2:{ repeat split; try done. exists []. rewrite app_nil_r. repeat split; auto. done. }
  case_bool_decide as Hs; simpl.
  2:{ repeat split; try done. exists []. rewrite app_nil_r. repeat split; auto.
      intros _. destruct (_inference_session s); done. }
  rewrite Hs.
  destruct (max_session E "gpu:0"); simpl.
  { repeat split; try done. eexists [_; _]. rewrite <- app_assoc. simpl.
    repeat split; eauto. all: repeat constructor. }
  destruct (max_session E "cpu"); simpl.
  { repeat split; try done. eexists [_; _; _]. rewrite <- !app_assoc. simpl.
    repeat split; eauto 10. all: repeat constructor. }
  repeat split; try done. eexists [_; _; _]. rewrite <- !app_assoc. simpl.
  repeat split; eauto 10. all: repeat constructor.
Qed.

(** A MAX load either raises before it has touched the registry, or
    registers the model under the backend tag ["max"] and says so. *)
Lemma load_model_max_spec p k s s' o :
  load_model_max E p k s = (s', o) →
  _stats s' = _stats s ∧
  (∃ cs, calls s' = calls s ++ cs ∧ Forall not_ort cs ∧
         (MAX_AVAILABLE E = true → ∃ c rest, cs = c :: rest ∧ is_max_call c = true)) ∧
  match o with
  | Return meta =>
      ∃ info, backend info = "max" ∧
              _models s' = <[k:=info]> (_models s) ∧
              lookup_field "model_id" meta = Some (JStr k) ∧
              lookup_field "backend" meta = Some (JStr "max")
  | Raised _ => _models s' = _models s
  end.
Proof.
  pose proof (get_inference_session_spec s) as (Hr & Hm & Hst & cs & Hcs & Hq & Hfirst).
  unfold load_model_max. unfold bind at 1.
  destruct (get_inference_session E s) as [s1 o1]. simpl in *. subst o1.
  assert (Forall not_ort cs) as Hq'.
  { eapply Forall_impl; [exact Hq|]. by intros []. }
  destruct (_inference_session s1) as [h|] eqn:Hsess.
  - unfold_m. simpl.
    assert (Forall not_ort (cs ++ [MaxLoad h p])) as Hq''.
    { apply Forall_app. split; [done | by repeat constructor]. }
    assert (MAX_AVAILABLE E = true →
            ∃ c rest, cs ++ [MaxLoad h p] = c :: rest ∧ is_max_call c = true) as Hf.
    { intros Hav. specialize (Hfirst Hav).
      destruct (_inference_session s).
      - destruct Hfirst as [-> _]. simpl. eauto.
      - destruct Hfirst as [rest ->]. simpl. eauto. }
    destruct (max_load E h p) as [mdl|e]; simpl; intros [= <- <-]; simpl.
    + split; [done|]. split.
      { exists (cs ++ [MaxLoad h p]). rewrite Hcs, <- app_assoc. auto. }
      eexists. rewrite Hm. repeat split; reflexivity.
    + split; [done|]. split; [|done].
      exists (cs ++ [MaxLoad h p]). rewrite Hcs, <- app_assoc. auto.
  - unfold_m. simpl. intros [= <- <-]. split; [done|]. split; [|done].
    exists cs. repeat split; auto.
    intros Hav. specialize (Hfirst Hav).
    destruct (_inference_session s).
    + destruct Hfirst as [_ ?]. congruence.
    + destruct Hfirst as [rest ->]. eauto.
Qed.

Lemma load_model_onnx_spec p k s s' o :
  load_model_onnx E p k s = (s', o) →
  _stats s' = _stats s ∧
  (∃ cs, calls s' = calls s ++ cs) ∧
  match o with
  | Return meta =>
      ∃ info, backend info = "onnx" ∧
              _models s' = <[k:=info]> (_models s) ∧
              lookup_field "model_id" meta = Some (JStr k) ∧
              lookup_field "backend" meta = Some (JStr "onnx")
  | Raised _ => _models s' = _models s
  end.
Proof.
  unfold load_model_onnx. unfold_m.
  destruct (ONNX_AVAILABLE E); simpl.
  2:{ intros [= <- <-]. repeat split; try done. exists []. by rewrite app_nil_r. }
  match goal with |- context [ort_session E p ?pr] =>
    destruct (ort_session E p pr) as [h|e] end; simpl; intros [= <- <-]; simpl.
  - repeat split; [eauto|]. eexists. repeat split; reflexivity.
  - repeat split; eauto.
Qed.



Ltac use_requested_id Hid Hp Hne :=
  unfold requested_id, PythonBridgeFacts.requested_id in Hid;
  pose proof (truthy_nonempty _ Hne) as Htp;
  unfold_m; simpl; rewrite ?Hp in *; simpl;
  destruct (truthy (b_model_id _)) eqn:?; simpl;
  [ rewrite Hid; simpl | simpl in Hid; injection Hid as Hid; rewrite ?Hid; simpl ];
  rewrite ?Htp; simpl.

(** [/load] of a key that is present. *)
Lemma load_model_already_loaded d t p k info s :
  b_model_path d = Some p → p ≠ EmptyString →
  requested_id (Some p) (b_model_id d) = Some k →
  _models s !! k = Some info →
  serve E (PostLoad (Some d) t) s =
  (counted s,
   mk_http 200 [("success", JBool true);
                ("message", JStr ("Model " +:+ k +:+ " already loaded"));
                ("model_id", JStr k);
                ("backend", JStr (backend info))]).
Proof.
  intros Hp Hne Hid Hk.
  use_requested_id Hid Hp Hne; by rewrite Hk.
Qed.

(** [/load] of a file that is not on disk. *)
Lemma load_model_missing_file d t p k s :
  b_model_path d = Some p → p ≠ EmptyString →
  requested_id (Some p) (b_model_id d) = Some k →
  _models s !! k = None →
  path_exists E p = false →
  serve E (PostLoad (Some d) t) s =
  (counted s,
   mk_http 404 [("success", JBool false);
                ("error", JStr ("Model file not found: " +:+ p))]).
Proof.
  intros Hp Hne Hid Hk Hex.
  use_requested_id Hid Hp Hne; rewrite Hk; simpl; by rewrite Hex.
Qed.

(** [/load] with the backend left to the bridge while MAX is
    available: the MAX load runs first; the ONNX load runs after it has
    raised, when ONNX Runtime is there. *)
Lemma load_model_auto d t p k s :
  b_model_path d = Some p → p ≠ EmptyString →
  requested_id (Some p) (b_model_id d) = Some k →
  default "auto" (b_backend d) = "auto" →
  MAX_AVAILABLE E = true →
  _models s !! k = None →
  path_exists E p = true →
  serve E (PostLoad (Some d) t) s =
  match load_model_max E p k (counted s) with
  | (s1, Return result) => (s1, loaded_response k t result)
  | (s1, Raised e) =>
      if ONNX_AVAILABLE E then
        match load_model_onnx E p k
                (logged (Printed ("[MAX Bridge] MAX load failed, falling back to ONNX: " +:+ e)) s1) with
        | (s2, Return result) => (s2, loaded_response k t result)
        | (s2, Raised e2) => (failed s2, error_response E e2)
        end
      else (failed s1, error_response E e)
  end.
Proof.
  intros Hp Hne Hid Hauto Hmax Hk Hex.
  use_requested_id Hid Hp Hne;
    rewrite Hk; simpl; rewrite Hex, Hauto, Hmax; simpl;
    fold (counted s);
    (destruct (load_model_max E _ k (counted s)) as [s1 [result|e]]; simpl;
     [reflexivity|]);
    (destruct (ONNX_AVAILABLE E); simpl; [|reflexivity]);
    fold (logged (Printed ("[MAX Bridge] MAX load failed, falling back to ONNX: " +:+ e)) s1);
    by destruct (load_model_onnx E _ k _) as [s2 [result|e2]].
Qed.



(** *** Inference and the statistics *)

Lemma prepare_input_spec i s s' o :
  prepare_input E i s = (s', o) →
  s' = s ∧
  match o with
  | Return a =>
      match i with
      | Raw v => ∃ l a0, v = JArr l ∧ np_array E v Float32 = Return a0 ∧ a = ensure_batch a0
      | Array a0 => a = ensure_batch a0
      end
  | Raised _ => True
  end.
Proof.
  unfold_m. destruct i as [[]|a0]; simpl;
    try (intros [= <- <-]; split; eauto; done).
  destruct (np_array E (JArr l) Float32) eqn:Hnp; simpl;
    intros [= <- <-]; split; eauto.
Qed.

(** The two backends' inference functions call their engine once at
    most and touch neither the registry nor the statistics. *)
Lemma predict_max_spec k i s s' o :
  predict_max E k i s = (s', o) →
  _models s' = _models s ∧ _stats s' = _stats s ∧
  _inference_session s' = _inference_session s ∧
  match o with
  | Return _ =>
      ∃ info a, _models s !! k = Some info ∧
                prepare_input E i s = (s, Return a) ∧
                calls s' = calls s ++ [MaxExecute (model info) a]
  | Raised _ => True
  end.
Proof.
  unfold predict_max.
  destruct (_models s !! k) as [info|] eqn:Hk;
    [|unfold_m; intros [= <- <-]; done].
  unfold bind at 1.
  destruct (prepare_input E i s) as [s1 o1] eqn:Hprep.
  apply prepare_input_spec in Hprep as Hs. destruct Hs as [-> _].
  destruct o1 as [a|e]; [|intros [= <- <-]; done].
  unfold_m. simpl.
  destruct (max_execute E (model info) a); intros [= <- <-]; simpl;
    repeat split; eauto.
Qed.

Lemma predict_onnx_spec k i s s' o :
  predict_onnx E k i s = (s', o) →
  _models s' = _models s ∧ _stats s' = _stats s ∧
  _inference_session s' = _inference_session s ∧
  match o with
  | Return _ =>
      ∃ info a name, _models s !! k = Some info ∧
                prepare_input E i s = (s, Return a) ∧
                calls s' = calls s ++ [OrtRun (model info) name a]
  | Raised _ => True
  end.
Proof.
  unfold predict_onnx.
  destruct (_models s !! k) as [info|] eqn:Hk;
    [|unfold_m; intros [= <- <-]; done].
  unfold bind at 1.
  destruct (prepare_input E i s) as [s1 o1] eqn:Hprep.
  apply prepare_input_spec in Hprep as Hs. destruct Hs as [-> _].
  destruct o1 as [a|e]; [|intros [= <- <-]; done].
  destruct ((ort_inputs E (model info)).*1) as [|name names];
    [unfold_m; intros [= <- <-]; done|].
  unfold_m. simpl.
  destruct (ort_run E (model info) name a); intros [= <- <-]; simpl;
    repeat split; eauto 10.
Qed.

(** The backend a registry entry selects. *)
Definition run_backend (info : model_info) (k : string) (i : input) : M json :=
  if String.eqb (backend info) "max" then predict_max E k i else predict_onnx E k i.

Lemma run_backend_spec info k i s s' o :
  run_backend info k i s = (s', o) →
  _models s' = _models s ∧ _stats s' = _stats s.
Proof.
  unfold run_backend. destruct (String.eqb (backend info) "max").
  - intros H%predict_max_spec. tauto.
  - intros H%predict_onnx_spec. tauto.
Qed.

(** The statistics once [/predict] has counted the request. *)
Definition entered (st : stats) : stats := add_inference 1 (incr_requests st).

(** [/predict] in full: the early returns, the backend call and the
    update of the average. *)
Lemma predict_route data t s s' resp :
  serve E (PostPredict data t) s = (s', resp) →
  _models s' = _models s ∧
  ((status resp ≠ 200 ∧
    (_stats s' = entered (_stats s) ∨ _stats s' = incr_errors (entered (_stats s)))) ∨
   (status resp = 200 ∧
    (inference_total (_stats s) + 1 ≠ 0)%Z ∧
    _stats s' =
      set_avg ((avg_inference_time_ms (_stats s)
                * inject_Z (inference_total (_stats s) + 1 - 1) + t)
               / inject_Z (inference_total (_stats s) + 1)) (entered (_stats s)))).
Proof.
  unfold serve, predict.
  unfold bind at 1 2, set_stats at 1 2. simpl. fold (entered (_stats s)).
  set (s0 := mk_state (_models s) (_inference_session s) (entered (_stats s)) (calls s)).
  unfold try_except at 1, bind at 1.
  destruct data as [d|]; unfold get_json; [unfold ret at 1|]; cbv beta iota.
  2:{ unfold_m. simpl. intros [= <- <-]. split; [done|]. left. auto. }
  destruct (truthy (b_model_id d)) eqn:Ht; cbn [negb].
  2:{ unfold_m. simpl. intros [= <- <-]. split; [done|]. left. auto. }
  destruct (is_none (b_input_data d)) eqn:Hin.
  { unfold_m. simpl. intros [= <- <-]. split; [done|]. left. auto. }
  destruct (_models s0 !! fmt (b_model_id d)) as [info|] eqn:Hk.
  2:{ unfold_m. simpl. intros [= <- <-]. split; [done|]. left. auto. }
  unfold bind at 1. fold (run_backend info (fmt (b_model_id d)) (Raw (b_input_data d))).
  destruct (run_backend info (fmt (b_model_id d)) (Raw (b_input_data d)) s0)
    as [s1 o1] eqn:Hrun.
  apply run_backend_spec in Hrun as [Hm Hst].
  destruct o1 as [result|e].
  2:{ unfold_m. simpl. intros [= <- <-]. simpl. rewrite Hst. split; [done|]. left. auto. }
  rewrite Hst. simpl.
  destruct (inference_total (_stats s) + 1 =? 0)%Z eqn:Hz.
  { unfold_m. simpl. intros [= <- <-]. simpl. rewrite Hst. split; [done|]. left. auto. }
  apply Z.eqb_neq in Hz.
  unfold_m. simpl. intros [= <- <-]. simpl. rewrite Hst. split; [done|]. right. auto.
Qed.

(** The part of the statistics the average is computed from. *)
Definition inference_stats (s : state) : Z * Q :=
  (inference_total (_stats s), avg_inference_time_ms (_stats s)).

Ltac use_load_specs :=
  repeat match goal with
    | H : load_model_max E _ _ _ = (_, _) |- _ =>
        apply load_model_max_spec in H as (? & _ & _)
    | H : load_model_onnx E _ _ _ = (_, _) |- _ =>
        apply load_model_onnx_spec in H as (? & _ & _)
    end.

Lemma load_route_stats data t s s' resp :
  serve E (PostLoad data t) s = (s', resp) →
  inference_stats s' = inference_stats s.
Proof.
  unfold inference_stats. unfold_m. simpl.
  repeat (case_match; simpl in *; simplify_eq); intros ?; simplify_eq; simpl;
    use_load_specs; simpl in *;
    repeat match goal with H : _stats _ = _ |- _ => rewrite H; clear H end;
    reflexivity.
Qed.

Lemma unload_route_stats data s s' resp :
  serve E (PostUnload data) s = (s', resp) →
  inference_stats s' = inference_stats s.
Proof.
  unfold inference_stats. unfold_m. simpl.
  repeat (case_match; simpl in *; simplify_eq); intros ?; simplify_eq; reflexivity.
Qed.

Lemma status_route_stats uptime s s' resp :
  serve E (GetStatus uptime) s = (s', resp) →
  inference_stats s' = inference_stats s.
Proof. unfold inference_stats. unfold_m. simpl. intros ?; simplify_eq. reflexivity. Qed.

Lemma health_route_stats s s' resp :
  serve E GetHealth s = (s', resp) → s' = s.
Proof. unfold_m. simpl. intros ?; by simplify_eq. Qed.

(** [/batch_predict] in full. *)
Lemma batch_route data t s s' resp :
  serve E (PostBatchPredict data t) s = (s', resp) →
  _models s' = _models s ∧
  avg_inference_time_ms (_stats s') = avg_inference_time_ms (_stats s) ∧
  ((status resp ≠ 200 ∧ inference_total (_stats s') = inference_total (_stats s)) ∨
   (status resp = 200 ∧
    ∃ d k, data = Some d ∧ py_len (b_inputs d) = Return k ∧
           inference_total (_stats s') = (inference_total (_stats s) + k)%Z)).
Proof.
  unfold serve, batch_predict.
  unfold bind at 1, set_stats at 1. simpl.
  set (s0 := mk_state (_models s) (_inference_session s) (incr_requests (_stats s)) (calls s)).
  unfold try_except at 1, bind at 1.
  destruct data as [d|]; unfold get_json; [unfold ret at 1|]; cbv beta iota.
  2:{ unfold_m. simpl. intros [= <- <-]. split; [done|]. split; [done|]. left. auto. }
  destruct (negb (truthy (b_model_id d)) || negb (truthy_json (b_inputs d))) eqn:Hv.
  { unfold_m. simpl. intros [= <- <-]. split; [done|]. split; [done|]. left. auto. }
  destruct (_models s0 !! fmt (b_model_id d)) as [info|] eqn:Hk.
  2:{ unfold_m. simpl. intros [= <- <-]. split; [done|]. split; [done|]. left. auto. }
  unfold bind at 1, lift at 1.
  destruct (np_array E (b_inputs d) Float32) as [batch_input|e] eqn:Hnp.
  2:{ unfold_m. simpl. intros [= <- <-]. split; [done|]. split; [done|]. left. auto. }
  unfold bind at 1. fold (run_backend info (fmt (b_model_id d)) (Array batch_input)).
  destruct (run_backend info (fmt (b_model_id d)) (Array batch_input) s0)
    as [s1 o1] eqn:Hrun.
  apply run_backend_spec in Hrun as [Hm Hst].
  destruct o1 as [result|e].
  2:{ unfold_m. simpl. intros [= <- <-]. simpl. rewrite Hst, Hm.
      split; [done|]. split; [done|]. left. auto. }
  unfold bind at 1, lift at 1.
  destruct (py_len (b_inputs d)) as [k|e] eqn:Hlen.
  2:{ unfold_m. simpl. intros [= <- <-]. simpl. rewrite Hst, Hm.
      split; [done|]. split; [done|]. left. auto. }
  unfold_m. simpl. intros [= <- <-]. simpl. rewrite Hst, Hm.
  split; [done|]. split; [done|]. right. split; [done|]. eauto.
Qed.

(** A [/load] answered with 200 leaves the key registered, and the
    answer names the key and the backend of its entry. *)
Lemma load_ok_registers d t s s' resp :
  serve E (PostLoad (Some d) t) s = (s', resp) →
  status resp = 200 →
  ∃ p k info,
    b_model_path d = Some p ∧ p ≠ EmptyString ∧
    requested_id (Some p) (b_model_id d) = Some k ∧
    _models s' !! k = Some info ∧
    field "model_id" resp = Some (JStr k) ∧
    field "backend" resp = Some (JStr (backend info)).
Proof.
  unfold requested_id, PythonBridgeFacts.requested_id, field.
  destruct (b_model_path d) as [p|] eqn:Hp.
  2:{ unfold_m. simpl. rewrite Hp.
      repeat (case_match; simpl in *; simplify_eq); intros ?; simplify_eq; done. }
  destruct (decide (p = EmptyString)) as [->|Hne].
  { unfold_m. simpl. rewrite Hp.
    repeat (case_match; simpl in *; simplify_eq); intros ?; simplify_eq; done. }
  pose proof (truthy_nonempty p Hne) as Htp.
  intros Hserve Hok. exists p.
  exists (if truthy (b_model_id d) then fmt (b_model_id d) else basename p).
  revert Hserve Hok. unfold_m. simpl. rewrite Hp. simpl.
  assert (∀ k, (if truthy (b_model_id d) then b_model_id d else Some (basename p)) = Some k
               ↔ k = (if truthy (b_model_id d) then fmt (b_model_id d) else basename p)) as Hkey.
  { intros k. destruct (truthy (b_model_id d)) eqn:Ht; [|naive_solver].
    apply truthy_Some in Ht as (q & -> & _ & _). naive_solver. }
  destruct (truthy (b_model_id d)) eqn:Ht; simpl; rewrite Htp; simpl;
    repeat (case_match; simpl in *; simplify_eq); intros ? ?; simplify_eq;
    repeat match goal with
      | H : load_model_max E _ _ _ = (_, _) |- _ =>
          apply load_model_max_spec in H as (_ & _ & H); simpl in H
      | H : load_model_onnx E _ _ _ = (_, _) |- _ =>
          apply load_model_onnx_spec in H as (_ & _ & H); simpl in H
      end;
    repeat match goal with
      | H : ∃ _, _ |- _ => destruct H as (? & ? & ? & ? & ?)
      end;
    try (eexists; split; [done|]; split; [done|]; split; [by apply Hkey|];
         split; [eassumption|]; simpl; split; [reflexivity|reflexivity]);
    try (eexists; split; [done|]; split; [done|]; split; [by apply Hkey|];
         split; [match goal with H : _models _ = _ |- _ => rewrite H end;
                 apply lookup_insert_eq|];
         simpl; split; [done|]; congruence).
Qed.

(** After [/unload] of a key, answered or refused, the key is out. *)
Lemma unload_route_removes d k s :
  b_model_id d = Some k → k ≠ EmptyString →
  _models (serve E (PostUnload (Some d)) s).1 !! k = None.
Proof.
  intros Hk Hne. pose proof (truthy_nonempty k Hne) as Ht.
  unfold_m. simpl. rewrite Hk, Ht. simpl.
  destruct (contains (_models s) k) eqn:Hc; simpl.
  - apply lookup_delete_eq.
  - unfold contains in Hc. apply bool_decide_eq_false in Hc.
    by apply eq_None_not_Some.
Qed.

(** [/predict] of a key that is out, for a request that names a key
    and carries an input. *)
Lemma predict_route_not_loaded d t k s :
  b_model_id d = Some k → k ≠ EmptyString →
  is_none (b_input_data d) = false →
  _models s !! k = None →
  (serve E (PostPredict (Some d) t) s).2 =
  mk_http 404 [("success", JBool false);
               ("error", JStr ("Model " +:+ k +:+ " not loaded"))].
Proof.
  intros Hk Hne Hin Hout. pose proof (truthy_nonempty k Hne) as Ht.
  unfold_m. simpl. rewrite Hk, Ht, Hin. simpl. by rewrite Hout.
Qed.

(** The array the engines are called with. *)
Lemma predict_max_call k info l a s :
  _models s !! k = Some info →
  np_array E (JArr l) Float32 = Return a →
  calls (predict_max E k (Raw (JArr l)) s).1 =
  calls s ++ [MaxExecute (model info) (ensure_batch a)].
Proof.
  intros Hk Ha. unfold_m. rewrite Hk. simpl. rewrite Ha. simpl.
  by destruct (max_execute E (model info) (ensure_batch a)).
Qed.

Lemma predict_onnx_call k info l a name names s :
  _models s !! k = Some info →
  (ort_inputs E (model info)).*1 = name :: names →
  np_array E (JArr l) Float32 = Return a →
  calls (predict_onnx E k (Raw (JArr l)) s).1 =
  calls s ++ [OrtRun (model info) name (ensure_batch a)].
Proof.
  intros Hk Hn Ha. unfold_m. rewrite Hk. simpl. rewrite Ha. simpl.
  rewrite Hn. simpl.
  by destruct (ort_run E (model info) name (ensure_batch a)).
Qed.

(** *** The running average *)

Lemma sum_snoc xs t : (foldr Qplus 0 (xs ++ [t]) == foldr Qplus 0 xs + t)%Q.
Proof.
  induction xs as [|x xs IH]; simpl.
  - ring.
  - rewrite IH. ring.
Qed.

Lemma mean_times_length xs :
  (mean xs * inject_Z (Z.of_nat (length xs)) == foldr Qplus 0 xs)%Q.
Proof.
  unfold mean. destruct xs as [|x xs].
  - simpl. reflexivity.
  - apply Qdiv_mult_l. unfold Qeq. simpl. lia.
Qed.

(** One step of the source's update turns the mean of [xs] into the
    mean of [xs] followed by [t]. *)
Lemma mean_snoc xs t :
  ((mean xs * inject_Z (Z.of_nat (length xs) + 1 - 1) + t)
   / inject_Z (Z.of_nat (length xs) + 1) == mean (xs ++ [t]))%Q.
Proof.
  replace (Z.of_nat (length xs) + 1 - 1)%Z with (Z.of_nat (length xs)) by lia.
  rewrite mean_times_length. unfold mean.
  rewrite sum_snoc, length_app. simpl length.
  replace (Z.of_nat (length xs + 1)) with (Z.of_nat (length xs) + 1)%Z by lia.
  reflexivity.
Qed.

Lemma serve_all_tracks rs :
  ∀ s s' resps xs,
    serve_all E rs s = (s', resps) →
    Forall2 undisturbed rs resps →
    inference_total (_stats s) = Z.of_nat (length xs) →
    (avg_inference_time_ms (_stats s) == mean xs)%Q →
    inference_total (_stats s') = Z.of_nat (length (xs ++ recorded rs resps)) ∧
    (avg_inference_time_ms (_stats s') == mean (xs ++ recorded rs resps))%Q.
Proof.
  induction rs as [|r rs IH]; intros s s' resps xs Hrun Hok Hn Havg.
  - simpl in Hrun. injection Hrun as <- <-. simpl. by rewrite app_nil_r.
  - simpl in Hrun.
    destruct (serve E r s) as [s1 resp] eqn:Hstep.
    destruct (serve_all E rs s1) as [s2 resps'] eqn:Hrest.
    injection Hrun as <- <-.
    apply Forall2_cons in Hok as [Hr Hok].
    assert (∀ ys, inference_stats s1 = inference_stats s →
                  recorded (r :: rs) (resp :: resps') = ys →
                  recorded rs resps' = ys →
                  inference_total (_stats s2) = Z.of_nat (length (xs ++ ys)) ∧
                  (avg_inference_time_ms (_stats s2) == mean (xs ++ ys))%Q) as Hsame.
    { intros ys [= Hi Ha] _ <-. apply (IH s1 s2 resps' xs Hrest Hok).
      - by rewrite Hi.
      - by rewrite Ha. }
    destruct r as [|uptime|data lt|data t|data|data t]; simpl in Hr.
    + apply health_route_stats in Hstep as ->. by apply Hsame.
    + apply status_route_stats in Hstep. by apply Hsame.
    + apply load_route_stats in Hstep. by apply Hsame.
    + apply predict_route in Hstep as [_ [[Hbad _] | (_ & Hnz & Hst)]]; [done|].
      simpl. rewrite Hr. simpl.
      replace (xs ++ t :: recorded rs resps') with ((xs ++ [t]) ++ recorded rs resps')
        by (by rewrite <- app_assoc).
      apply (IH s1 s2 resps' (xs ++ [t]) Hrest Hok).
      * rewrite Hst. simpl. rewrite Hn, length_app. simpl. lia.
      * rewrite Hst. simpl. rewrite Hn, Havg. apply mean_snoc.
    + apply unload_route_stats in Hstep. by apply Hsame.
    + apply batch_route in Hstep as (_ & Ha & [[_ Hi] | [Hbad _]]); [|done].
      apply Hsame; [|done|done]. unfold inference_stats. by rewrite Hi, Ha.
Qed.

(** While every [/predict] succeeds and no [/batch_predict] does, the
    average is the arithmetic mean of the recorded latencies. *)
Lemma avg_is_mean_of_undisturbed_run rs start s' resps :
  serve_all E rs (initial start) = (s', resps) →
  Forall2 undisturbed rs resps →
  inference_total (_stats s') = Z.of_nat (length (recorded rs resps)) ∧
  (avg_inference_time_ms (_stats s') == mean (recorded rs resps))%Q.
Proof.
  intros Hrun Hok.
  apply (serve_all_tracks rs (initial start) s' resps [] Hrun Hok); reflexivity.
Qed.

End WithEnv.

Definition fallback_notice (e : exn) : call :=
  Printed ("[MAX Bridge] MAX load failed, falling back to ONNX: " +:+ e).

(** C2.  A [/load] request that leaves the backend to the bridge
    (["auto"]) while MAX is available, for a file that exists and a key
    that is free:
    - calls the MAX engine before anything else;
    - when the MAX load succeeds, answers 200 with backend ["max"] and
      never calls ONNX Runtime;
    - when the MAX load raises and ONNX Runtime is available, runs the
      ONNX load; if that succeeds the caller receives the ordinary 200
      response of a load, with backend ["onnx"], [errors_total] is not
      incremented and the fallback shows only as a printed notice;
    - answers with an error only when the MAX load has raised and ONNX
      Runtime is unavailable or has raised too. *)
Theorem auto_load_tries_max_then_falls_back_to_onnx
    (E : Env) (d : body) (t : Q) (p k : string) (s : state) :
  MAX_AVAILABLE E = true →
  default "auto" (b_backend d) = "auto" →
  b_model_path d = Some p →
  p ≠ EmptyString →
  requested_id (Some p) (b_model_id d) = Some k →
  _models s !! k = None →
  path_exists E p = true →
  let s' := (serve E (PostLoad (Some d) t) s).1 in
  let resp := (serve E (PostLoad (Some d) t) s).2 in
  let attempt := load_model_max E p k (counted s) in
  let fallback e := load_model_onnx E p k (logged (fallback_notice e) attempt.1) in
  (∃ c rest, calls s' = calls s ++ c :: rest ∧ is_max_call c = true) ∧
  (∀ meta, attempt.2 = Return meta →
     resp = loaded_response k t meta ∧
     field "backend" resp = Some (JStr "max") ∧
     ∃ cs, calls s' = calls s ++ cs ∧ Forall not_ort cs) ∧
  (∀ e meta, attempt.2 = Raised e → ONNX_AVAILABLE E = true →
     (fallback e).2 = Return meta →
     resp = loaded_response k t meta ∧
     status resp = 200 ∧
     field "success" resp = Some (JBool true) ∧
     field "backend" resp = Some (JStr "onnx") ∧
     errors_total (_stats s') = errors_total (_stats s) ∧
     (∃ info, _models s' !! k = Some info ∧ backend info = "onnx") ∧
     (∃ cs, calls s' = calls attempt.1 ++ fallback_notice e :: cs)) ∧
  (field "success" resp ≠ Some (JBool true) →
     ∃ e, attempt.2 = Raised e ∧
          (ONNX_AVAILABLE E = false ∨
           ∃ e2, (fallback e).2 = Raised e2 ∧ field "error" resp = Some (JStr e2))).
Proof.
  intros Hmax Hauto Hp Hne Hid Hk Hex s' resp attempt fallback.
  subst s' resp fallback attempt.
  rewrite (load_model_auto E d t p k s Hp Hne Hid Hauto Hmax Hk Hex).
  destruct (load_model_max E p k (counted s)) as [s1 o1] eqn:Hatt.
  pose proof (load_model_max_spec E p k (counted s) s1 o1 Hatt)
    as (Hst1 & (cs1 & Hcs1 & Hno & Hfirst) & Hreg1).
  simpl in *.
  destruct (Hfirst Hmax) as (c & rest & -> & Hc).
  destruct o1 as [meta1|e1]; simpl.
  - destruct Hreg1 as (info & Hb & Hm & Hf1 & Hf2).
    split; [eauto|]. split; [|split].
    + intros meta [= <-]. split; [done|]. split.
      * unfold field, loaded_response. simpl. exact Hf2.
      * eauto.
    + intros e meta [=].
    + intros Hbad. exfalso. apply Hbad. reflexivity.
  - fold (fallback_notice e1).
    destruct (load_model_onnx E p k (logged (fallback_notice e1) s1))
      as [s2 o2] eqn:Hfb.
    pose proof (load_model_onnx_spec E p k _ s2 o2 Hfb)
      as (Hst2 & (cs2 & Hcs2) & Hreg2).
    simpl in *.
    destruct (ONNX_AVAILABLE E) eqn:Honnx; simpl.
    + destruct o2 as [meta2|e2]; simpl.
      * destruct Hreg2 as (info & Hb & Hm & Hf1 & Hf2).
        split. { rewrite Hcs2. simpl. rewrite Hcs1, <- !app_assoc. simpl. eauto. }
        split; [intros meta [=]|]. split.
        { intros e meta [= <-] _. rewrite Hfb. simpl. intros [= <-].
          split; [done|]. split; [done|]. split; [done|]. split.
          { unfold field, loaded_response. simpl. exact Hf2. }
          split. { by rewrite Hst2, Hst1. }
          split. { exists info. by rewrite Hm, lookup_insert_eq. }
          exists cs2. rewrite Hcs2. simpl. by rewrite <- app_assoc. }
        intros Hbad. exfalso. apply Hbad. reflexivity.
      * split. { rewrite Hcs2. simpl. rewrite Hcs1, <- !app_assoc. simpl. eauto. }
        split; [intros meta [=]|]. split.
        { intros e meta [= <-] _. rewrite Hfb. simpl. intros [=]. }
        intros _. exists e1. split; [done|]. right. exists e2.
        rewrite Hfb. done.
    + split. { rewrite Hcs1. eauto. }
      split; [intros meta [=]|]. split; [intros e meta _ [=]|].
      intros _. exists e1. auto.
Qed.

Lemma auto_load_falls_back_witness :
  (MAX_AVAILABLE Demo.server = true) ∧
  (default "auto" (b_backend Demo.load_broken) = "auto") ∧
  (_models (initial 0) !! "demo" = None) ∧
  (path_exists Demo.server "models/demo/broken.onnx" = true) ∧
  (status (serve Demo.server (PostLoad (Some Demo.load_broken) 5) (initial 0)).2 = 200 ∧
   field "backend" (serve Demo.server (PostLoad (Some Demo.load_broken) 5) (initial 0)).2
     = Some (JStr "onnx")).
Proof.
  split; [reflexivity|]. split; [reflexivity|].
  split; [reflexivity|]. split; [reflexivity|].
  destruct (auto_load_tries_max_then_falls_back_to_onnx Demo.server
              Demo.load_broken 5 "models/demo/broken.onnx" "demo" (initial 0)
              eq_refl eq_refl eq_refl ltac:(discriminate) eq_refl eq_refl eq_refl)
    as (_ & _ & Hfall & _).
  destruct (Hfall "failed to compile the model"
              [("model_id", JStr "demo"); ("backend", JStr "onnx");
               ("input_names", JArr [JStr "input"]);
               ("output_names", JArr [JStr "output"]);
               ("input_shapes", JArr [JArr [JNull; JNum 5]]);
               ("providers", JArr [JStr "CPUExecutionProvider"])]
              eq_refl eq_refl eq_refl)
    as (_ & Hstatus & _ & Hbackend & _).
  split; [exact Hstatus | exact Hbackend].
Defined.

(** The state of the demonstration server once ["demo"] is loaded. *)
Definition loaded : state :=
  (serve Demo.server (PostLoad (Some Demo.load_demo) 5) (initial 0)).1.

(** C3.  The average is not the mean of the recorded latencies once a
    [/predict] has failed: the server loads a model, refuses a [/predict]
    that names no model, and then serves one inference that takes 10 ms.
    One latency has been recorded, [10], but [inference_total] is 2 and the
    average is [(0 * 1 + 10) / 2 = 5]. *)
Theorem failed_predict_dilutes_the_average :
  let requests := [PostLoad (Some Demo.load_demo) 5;
                   PostPredict (Some Demo.use_nothing) 3;
                   PostPredict (Some (Demo.use_demo Demo.sample)) 10] in
  let run := serve_all Demo.server requests (initial 0) in
  status <$> run.2 = [200; 400; 200]%nat ∧
  recorded requests run.2 = [10%Q] ∧
  inference_total (_stats run.1) = 2%Z ∧
  (avg_inference_time_ms (_stats run.1) == 5)%Q ∧
  ¬ (avg_inference_time_ms (_stats run.1) == mean (recorded requests run.2))%Q.
Proof.
  vm_compute. repeat split; try reflexivity. discriminate.
Qed.

Lemma incremental_form (a t : Q) (n : Z) :
  (n + 1 ≠ 0)%Z →
  ((a * inject_Z (n + 1 - 1) + t) / inject_Z (n + 1)
   == a + (t - a) / inject_Z (n + 1))%Q.
Proof.
  intros Hn.
  replace (n + 1 - 1)%Z with n by lia.
  rewrite inject_Z_plus.
  assert (¬ (inject_Z n + inject_Z 1 == 0)%Q) as Hnz.
  { rewrite <- inject_Z_plus. unfold Qeq. simpl. lia. }
  field. exact Hnz.
Qed.

(** What the two inference routes do to the statistics, for every
    request and state.  Every [/predict] call, refused or failed ones
    included, adds one to [inference_total]; a call answered with 200 moves
    the average by the incremental rule, with the call's elapsed time and
    the new value of the counter; a [/batch_predict] answered with 200 adds
    the number of its inputs to [inference_total]. *)
Lemma predict_counts_every_call_and_averages_successes
    (E : Env) (data : option body) (t : Q) (s : state) :
  let single := serve E (PostPredict data t) s in
  let batch := serve E (PostBatchPredict data t) s in
  (inference_total (_stats single.1) = inference_total (_stats s) + 1)%Z ∧
  (status single.2 = 200 →
     inference_total (_stats single.1) ≠ 0%Z ∧
     (avg_inference_time_ms (_stats single.1)
      == avg_inference_time_ms (_stats s)
         + (t - avg_inference_time_ms (_stats s))
           / inject_Z (inference_total (_stats single.1)))%Q) ∧
  (status batch.2 = 200 →
     ∃ d k, data = Some d ∧ py_len (b_inputs d) = Return k ∧
            (inference_total (_stats batch.1) = inference_total (_stats s) + k)%Z).
Proof.
  intros single batch.
  destruct single as [s1 r1] eqn:H1. destruct batch as [s2 r2] eqn:H2.
  subst single batch.
  apply predict_route in H1 as [_ H1]. apply batch_route in H2 as (_ & _ & H2).
  simpl. split; [|split].
  - destruct H1 as [[_ [-> | ->]] | (_ & _ & ->)]; reflexivity.
  - intros Hok. destruct H1 as [[Hbad _] | (_ & Hnz & ->)]; [done|].
    simpl. split; [exact Hnz|]. by apply incremental_form.
  - intros Hok. destruct H2 as [[Hbad _] | [_ Hk]]; [done | exact Hk].
Qed.

Lemma predict_counts_and_averages_witness :
  (status (serve Demo.server (PostPredict (Some (Demo.use_demo Demo.sample)) 10) loaded).2
   = 200) ∧
  (inference_total
     (_stats (serve Demo.server (PostPredict (Some (Demo.use_demo Demo.sample)) 10) loaded).1)
   = 1%Z) ∧
  (avg_inference_time_ms
     (_stats (serve Demo.server (PostPredict (Some (Demo.use_demo Demo.sample)) 10) loaded).1)
   == 10)%Q.
Proof.
  destruct (predict_counts_every_call_and_averages_successes Demo.server
              (Some (Demo.use_demo Demo.sample)) 10 loaded)
    as (Hcount & Havg & _).
  split; [reflexivity|]. split; [exact Hcount|].
  destruct (Havg eq_refl) as [_ ->]. vm_compute. reflexivity.
Defined.

(** The side effect of one inference as the specification words it: the
    counter is incremented and the running mean is updated with the elapsed
    time of the call. *)
Definition counted_and_averaged (x : Q) (st : stats) : stats :=
  let n := (inference_total st + 1)%Z in
  mk_stats (requests_total st) n (errors_total st)
    (avg_inference_time_ms st + (x - avg_inference_time_ms st) / inject_Z n)
    (start_time st).

(** C4.  Not every inference call updates the statistics.  With ["demo"]
    loaded, the server serves one [/predict] in 10 ms, refuses a [/predict]
    that names no model (3 ms), refuses a [/batch_predict] of two inputs on
    a model that is not loaded, and serves a [/batch_predict] of two inputs
    in 4 ms.  The served [/predict] is counted and averaged as specified.
    The refused [/predict] is counted but the average stays at 10, where the
    specified update gives 13/2.  The refused batch counts none of its two
    elements.  The served batch counts two inferences and leaves the average
    at 10 again. *)
Theorem failed_and_batched_inferences_skip_the_statistics :
  let served := serve Demo.server (PostPredict (Some (Demo.use_demo Demo.sample)) 10)
                  loaded in
  let refused := serve Demo.server (PostPredict (Some Demo.use_nothing) 3) served.1 in
  let ghost := serve Demo.server (PostBatchPredict (Some (Demo.batch_on "ghost")) 4)
                 refused.1 in
  let batch := serve Demo.server (PostBatchPredict (Some (Demo.batch_on "demo")) 4)
                 ghost.1 in
  (status served.2 = 200 ∧
   inference_total (_stats served.1) = 1%Z ∧
   (avg_inference_time_ms (_stats served.1) == 10)%Q ∧
   (avg_inference_time_ms (_stats served.1)
    == avg_inference_time_ms (counted_and_averaged 10 (_stats loaded)))%Q) ∧
  (status refused.2 = 400 ∧
   inference_total (_stats refused.1) = 2%Z ∧
   (avg_inference_time_ms (_stats refused.1) == 10)%Q ∧
   (avg_inference_time_ms (counted_and_averaged 3 (_stats served.1)) == 13 # 2)%Q ∧
   ¬ (avg_inference_time_ms (_stats refused.1)
      == avg_inference_time_ms (counted_and_averaged 3 (_stats served.1)))%Q) ∧
  (status ghost.2 = 404 ∧
   inference_total (_stats ghost.1) = 2%Z ∧
   inference_total (_stats ghost.1) ≠ (inference_total (_stats refused.1) + 2)%Z) ∧
  (status batch.2 = 200 ∧
   inference_total (_stats batch.1) = (inference_total (_stats ghost.1) + 2)%Z ∧
   avg_inference_time_ms (_stats batch.1) = avg_inference_time_ms (_stats ghost.1) ∧
   (avg_inference_time_ms (_stats batch.1) == 10)%Q).
Proof.
  vm_compute. repeat split; try reflexivity; discriminate.
Qed.

End MaxBridgeFacts.

(* ===================================================================== *)
(** ** Facts about the Edge TPU helper *)
(* ===================================================================== *)

Module CoralFacts.
Import Py Coral.

(** What [np.array(v, dtype=d)] guarantees about its result. *)
Definition typed (E : Env) : Prop :=
  ∀ v d a, np_array E v d = Return a → arr_dtype a = d.

(** The encoding the documentation of the helper describes, for one
    value: [round(x / scale + zero_point)] clamped to the int8 range. *)
Definition quantize_int8 (scale zero_point x : Q) : Z :=
  Z.max (-128) (Z.min 127 (round_half_even (x / scale + zero_point))).

#[local] Arguments shape_eqb : simpl never.

(** The quantisation branch of [prepare_input] is never taken: the
    array was built with the element type of the model input, so for an
    int8 model it is an int8 array, not a float32 one. *)
Lemma int8_input_is_converted_only (E : Env) details v a :
  typed E →
  td_dtype details = Int8 →
  prepare_input E details v = Return a →
  ∃ a0, np_array E v Int8 = Return a0 ∧
        data a = data a0 ∧ arr_dtype a = Int8.
Proof.
  intros Hty Hd. unfold prepare_input. rewrite Hd. simpl.
  destruct (np_array E v Int8) as [a0|e] eqn:Hnp; simpl; [|done].
  apply Hty in Hnp as Hdt.
  destruct (shape_eqb (shape a0) (td_shape details)); simpl.
  - rewrite Hdt. simpl. intros [= <-]. eauto.
  - unfold reshape. case_match; simpl; [|done].
    rewrite Hdt. simpl. intros [= <-]. eauto.
Qed.

(** The decoding of an int8 output. *)
Lemma dequantize_int8 (details : tensor_details) (scale zero_point : Q) out :
  td_dtype details = Int8 →
  td_quantization details = (scale, zero_point) →
  dequantize details out =
  mk_ndarray Float32 (shape out)
    (map (fun q => ((q - zero_point) * scale)%Q) (data out)).
Proof.
  intros Hd Hq. unfold dequantize. rewrite Hd, Hq. simpl.
  f_equal. unfold cast. by rewrite map_id.
Qed.

(** C5.  The helper does not quantise float input.  For the int8 model
    of the demonstration (scale 1/2, zero point 0) and the input
    [[1.0, 1.5]], the documented encoding is [[2, 3]]; the array handed to
    the interpreter is [[1, 1]], the truncation of the input.  The decoding
    of the output follows the documented formula. *)
Theorem float_input_of_int8_model_is_not_quantized :
  let details := input_details Demo.coral_env 3%nat in
  let input_data := JArr [JNum 1; JNum (3 # 2)] in
  td_dtype details = Int8 ∧
  td_quantization details = (1 # 2, 0)%Q ∧
  quantize_int8 (1 # 2) 0 <$> [1; 3 # 2]%Q = [2; 3]%Z ∧
  prepare_input Demo.coral_env details input_data =
    Return (mk_ndarray Int8 [1; 2]%nat [inject_Z 1; inject_Z 1]) ∧
  run Demo.coral_env "model_edgetpu.tflite" input_data =
    Return (mk_ndarray Float32 [1; 2]%nat
              [((inject_Z 1 - 0) * (1 # 2))%Q; ((inject_Z 1 - 0) * (1 # 2))%Q]).
Proof.
  repeat split; reflexivity.
Qed.

End CoralFacts.
(* ===================================================================== *)
(** ** Properties shared by the two transports *)
(* ===================================================================== *)

Module BridgeFacts.
Import Py.
Module P := PythonBridge.
Module H := MaxBridge.
Module PF := PythonBridgeFacts.
Module HF := MaxBridgeFacts.

Lemma is_prefix_app t post : is_prefix t (t +:+ post) = true.
Proof.
  induction t as [|a t IH]; [done|].
  change (String a t +:+ post) with (String a (t +:+ post)). simpl.
  by rewrite Ascii.eqb_refl, IH.
Qed.

Lemma is_infix_prefix t s : is_prefix t s = true → is_infix t s = true.
Proof. destruct s; simpl; intros ->; done. Qed.

Lemma mentions_is_infix s t : mentions s t → is_infix t s = true.
Proof.
  intros (pre & post & ->).
  induction pre as [|a pre IH].
  - change (EmptyString +:+ t +:+ post) with (t +:+ post).
    apply is_infix_prefix, is_prefix_app.
  - change (String a pre +:+ t +:+ post) with (String a (pre +:+ t +:+ post)).
    simpl. rewrite IH. by rewrite orb_true_r.
Qed.

Lemma mentions_suffix pre t : mentions (pre +:+ t) t.
Proof.
  exists pre, EmptyString. f_equal.
  induction t as [|a t IH]; [done|].
  change (String a t +:+ EmptyString) with (String a (t +:+ EmptyString)). by rewrite <- IH.
Qed.

(** *** Loading a key twice *)

(** C1 as stated fails: on both transports the answer to the second
    load differs from the answer to the first. *)
Lemma second_load_answers_with_other_metadata :
  let load1 := P.handle_load_model Demo.py_env "1"
                 (Some "models/demo/model.keras") (Some "demo") P.initial in
  let load2 := P.handle_load_model Demo.py_env "2"
                 (Some "models/demo/model.keras") (Some "demo") load1.1 in
  let post1 := H.serve Demo.server (H.PostLoad (Some Demo.load_demo) 5) (H.initial 0) in
  let post2 := H.serve Demo.server (H.PostLoad (Some Demo.load_demo) 5) post1.1 in
  (P.result <$> P.stdout load2.1 =
     [Some (JObj [("message", JStr "Model demo loaded successfully");
                  ("model_id", JStr "demo");
                  ("model_type", JStr "keras")]);
      Some (JObj [("message", JStr "Model demo already loaded")])]) ∧
  (H.payload post1.2 =
     [("success", JBool true);
      ("message", JStr "Model demo loaded successfully");
      ("load_time_ms", JNum (round2 5));
      ("model_id", JStr "demo");
      ("backend", JStr "max");
      ("input_names", JArr [JStr "input"]);
      ("output_names", JArr [JStr "output"])]) ∧
  (H.payload post2.2 =
     [("success", JBool true);
      ("message", JStr "Model demo already loaded");
      ("model_id", JStr "demo");
      ("backend", JStr "max")]) ∧
  H.payload post2.2 ≠ H.payload post1.2.
Proof.
  vm_compute. repeat split; try reflexivity. discriminate.
Qed.

(** C1, as the code has it.  A load request for a key that is in the
    registry calls no backend and leaves the registry as it is; the answer
    is a success whose message is ["Model <id> already loaded"].  On the
    HTTP transport the answer also carries the key and the backend of the
    registry entry, which are the [model_id] and [backend] of the answer to
    the load that created it. *)
Theorem reload_is_a_no_op_answered_already_loaded :
  (∀ (E : P.Env) msg_id model_path model_id k (s : P.state),
     PF.requested_id model_path model_id = Some k →
     is_Some (P._models s !! k) →
     P.handle_load_model E msg_id model_path model_id s =
     (P.mk_state (P._models s) (P._model_types s)
        (P.stdout s ++
           [P.mk_response msg_id true
              (Some (JObj [("message", JStr ("Model " +:+ k +:+ " already loaded"))]))
              None])
        (P.calls s),
      Return tt)) ∧
  (∀ (E : H.Env) d t p k info (s : H.state),
     H.b_model_path d = Some p → p ≠ EmptyString →
     HF.requested_id (Some p) (H.b_model_id d) = Some k →
     H._models s !! k = Some info →
     H.serve E (H.PostLoad (Some d) t) s =
     (H.mk_state (H._models s) (H._inference_session s)
        (H.incr_requests (H._stats s)) (H.calls s),
      H.mk_http 200 [("success", JBool true);
                     ("message", JStr ("Model " +:+ k +:+ " already loaded"));
                     ("model_id", JStr k);
                     ("backend", JStr (H.backend info))])) ∧
  (∀ (E : H.Env) d1 t1 d2 t2 p2 (s s1 : H.state) r1,
     H.serve E (H.PostLoad (Some d1) t1) s = (s1, r1) →
     H.status r1 = 200 →
     H.b_model_path d2 = Some p2 → p2 ≠ EmptyString →
     HF.requested_id (Some p2) (H.b_model_id d2)
       = HF.requested_id (H.b_model_path d1) (H.b_model_id d1) →
     let second := H.serve E (H.PostLoad (Some d2) t2) s1 in
     H._models second.1 = H._models s1 ∧
     H.calls second.1 = H.calls s1 ∧
     H.status second.2 = 200 ∧
     HF.field "success" second.2 = Some (JBool true) ∧
     HF.field "model_id" second.2 = HF.field "model_id" r1 ∧
     HF.field "backend" second.2 = HF.field "backend" r1).
Proof.
  split; [|split].
  - intros. by apply PF.reload_streaming.
  - intros E d t p k info s Hp Hne Hid Hk.
    exact (HF.load_model_already_loaded E d t p k info s Hp Hne Hid Hk).
  - intros E d1 t1 d2 t2 p2 s s1 r1 Hfirst Hok Hp2 Hne2 Hsame second.
    destruct (HF.load_ok_registers E d1 t1 s s1 r1 Hfirst Hok)
      as (p1 & k & info & Hp1 & _ & Hid1 & Hk & Hf1 & Hf2).
    rewrite Hp1, Hid1 in Hsame.
    subst second.
    rewrite (HF.load_model_already_loaded E d2 t2 p2 k info s1 Hp2 Hne2 Hsame Hk).
    simpl. rewrite Hf1, Hf2. repeat split; reflexivity.
Qed.

Lemma reload_is_a_no_op_witness :
  let load1 := P.handle_load_model Demo.py_env "1"
                 (Some "models/demo/model.keras") (Some "demo") P.initial in
  let post1 := H.serve Demo.server (H.PostLoad (Some Demo.load_demo) 5) (H.initial 0) in
  let post2 := H.serve Demo.server (H.PostLoad (Some Demo.load_demo) 7) post1.1 in
  (PF.requested_id (Some "models/demo/model.keras") (Some "demo") = Some "demo") ∧
  (is_Some (P._models load1.1 !! "demo")) ∧
  (P.calls (P.handle_load_model Demo.py_env "2"
              (Some "models/demo/model.keras") (Some "demo") load1.1).1
   = P.calls load1.1) ∧
  (H.status post1.2 = 200) ∧
  (H.calls post2.1 = H.calls post1.1 ∧
   HF.field "backend" post2.2 = HF.field "backend" post1.2).
Proof.
  intros load1 post1 post2.
  destruct reload_is_a_no_op_answered_already_loaded as (Hp & _ & Hh).
  assert (is_Some (P._models load1.1 !! "demo")) as Hin.
  { exists 7%nat. vm_compute. reflexivity. }
  split; [reflexivity|]. split; [exact Hin|]. split.
  { rewrite (Hp Demo.py_env "2" (Some "models/demo/model.keras") (Some "demo")
               "demo" load1.1 eq_refl Hin).
    reflexivity. }
  split; [reflexivity|].
  destruct (Hh Demo.server Demo.load_demo 5%Q Demo.load_demo 7%Q
              "models/demo/model.onnx" (H.initial 0) post1.1 post1.2
              eq_refl eq_refl eq_refl ltac:(discriminate) eq_refl)
    as (_ & Hcalls & _ & _ & _ & Hbackend).
  split; [exact Hcalls | exact Hbackend].
Defined.

(** *** Loading from a path that does not exist *)

(** C7 as stated fails on the streaming transport: the bridge looks at
    the extension before it touches the file, and the error it sends for
    [models/none/model.onnx] names the extension, not the path. *)
Lemma unsupported_format_error_does_not_mention_the_path :
  let load := P.handle_load_model Demo.py_env "1"
                (Some "models/none/model.onnx") None P.initial in
  Demo.on_disk "models/none/model.onnx" = false ∧
  P.stdout load.1 =
    [P.mk_response "1" false None (Some "Unsupported model format: .onnx")] ∧
  ¬ mentions "Unsupported model format: .onnx" "models/none/model.onnx".
Proof.
  split; [reflexivity|]. split; [reflexivity|].
  intros Hm%mentions_is_infix. vm_compute in Hm. discriminate.
Qed.

(** C7, as the code has it.  A load request for a key that is free and
    a path that does not exist is answered with a failure and creates no
    registry entry.  On the HTTP transport the status is 404, the error is
    ["Model file not found: <path>"], which mentions the path, and no
    backend is called.  The streaming transport does not check the path:
    when every loader raises on it, the error is either
    ["Unsupported model format: <ext>"] or the text of the loader's
    exception. *)
Theorem load_of_a_missing_file_fails_and_registers_nothing :
  (∀ (E : H.Env) d t p k (s : H.state),
     H.b_model_path d = Some p → p ≠ EmptyString →
     HF.requested_id (Some p) (H.b_model_id d) = Some k →
     H._models s !! k = None →
     H.path_exists E p = false →
     H.serve E (H.PostLoad (Some d) t) s =
     (H.mk_state (H._models s) (H._inference_session s)
        (H.incr_requests (H._stats s)) (H.calls s),
      H.mk_http 404 [("success", JBool false);
                     ("error", JStr ("Model file not found: " +:+ p))]) ∧
     mentions ("Model file not found: " +:+ p) p) ∧
  (∀ (E : P.Env) msg_id p model_id k (s : P.state),
     (∀ l, ∃ e, P.backend_load E l p = Raised e) →
     PF.requested_id (Some p) model_id = Some k →
     P._models s !! k = None →
     ∃ err s',
       P.handle_load_model E msg_id (Some p) model_id s = (s', Return tt) ∧
       P._models s' = P._models s ∧
       P._model_types s' = P._model_types s ∧
       P.stdout s' = P.stdout s ++ [P.mk_response msg_id false None (Some err)] ∧
       (err = "Unsupported model format: " +:+ lower (splitext p).2 ∨
        ∃ l, P.backend_load E l p = Raised err)).
Proof.
  split.
  - intros E d t p k s Hp Hne Hid Hk Hex. split.
    + exact (HF.load_model_missing_file E d t p k s Hp Hne Hid Hk Hex).
    + apply mentions_suffix.
  - intros E msg_id p model_id k s Hfail Hid Hk.
    exact (PF.load_missing_file_streaming E msg_id p model_id k s Hfail Hid Hk).
Qed.

Lemma load_of_a_missing_file_witness :
  let post := H.serve Demo.server (H.PostLoad (Some Demo.load_missing) 5) (H.initial 0) in
  (H.path_exists Demo.server "models/none/model.onnx" = false) ∧
  (H.status post.2 = 404 ∧ H._models post.1 = ∅ ∧ H.calls post.1 = []) ∧
  (∀ l, ∃ e, P.backend_load Demo.py_env l "models/none/model.pkl" = Raised e) ∧
  (∃ err s',
     P.handle_load_model Demo.py_env "1" (Some "models/none/model.pkl") None P.initial
       = (s', Return tt) ∧
     P._models s' = ∅ ∧
     P.stdout s' = [P.mk_response "1" false None (Some err)]).
Proof.
  intros post.
  destruct load_of_a_missing_file_fails_and_registers_nothing as [Hh Hp].
  split; [reflexivity|]. split.
  { destruct (Hh Demo.server Demo.load_missing 5%Q "models/none/model.onnx"
                "model.onnx" (H.initial 0)
                eq_refl ltac:(discriminate) eq_refl eq_refl eq_refl) as [Heq _].
    subst post. rewrite Heq. repeat split; reflexivity. }
  assert (∀ l, ∃ e, P.backend_load Demo.py_env l "models/none/model.pkl" = Raised e)
    as Hfail.
  { intros l. eexists. reflexivity. }
  split; [exact Hfail|].
  destruct (Hp Demo.py_env "1" "models/none/model.pkl" None "model.pkl" P.initial
              Hfail eq_refl eq_refl)
    as (err & s' & Heq & Hm & _ & Hout & _).
  exists err, s'. split; [exact Heq|]. split; [exact Hm | exact Hout].
Defined.

(** *** The batch dimension *)

(** C6 as stated fails: a 2 x 3 matrix sent to a model that declares
    the input shape [(None, 2, 3)] has one dimension fewer than the declared
    shape, and reaches ONNX Runtime with its two dimensions. *)
Lemma matrix_input_gets_no_batch_dimension :
  let s := (H.serve Demo.matrix_server (H.PostLoad (Some Demo.load_demo) 5)
              (H.initial 0)).1 in
  let after := H.serve Demo.matrix_server
                 (H.PostPredict (Some (Demo.use_demo Demo.matrix)) 1) s in
  (H.ort_inputs Demo.matrix_server 20%nat).*2 = [[None; Some 2%nat; Some 3%nat]] ∧
  shape <$> [mk_ndarray Float32 [2; 3]%nat [1; 2; 3; 4; 5; 6]%Q] = [[2; 3]%nat] ∧
  last (H.calls after.1) =
    Some (H.OrtRun 20%nat "input" (mk_ndarray Float32 [2; 3]%nat [1; 2; 3; 4; 5; 6]%Q)) ∧
  H.status after.2 = 200.
Proof.
  vm_compute. repeat split; reflexivity.
Qed.

(** C6, as the code has it.  Both bridges look at the input alone: an
    array with exactly one dimension is reshaped to one row holding its
    elements, every other array is passed on as it is; the array the
    backend is called with is the result of that step.  A vector sent to a
    model of declared rank 2 therefore arrives with the declared rank. *)
Theorem vectors_get_a_batch_dimension :
  (∀ a n, shape a = [n] →
     ensure_batch a = mk_ndarray (arr_dtype a) [1%nat; n] (data a)) ∧
  (∀ a, ndim a ≠ 1%nat → ensure_batch a = a) ∧
  (∀ (E : P.Env) msg_id k h t input_data a (s : P.state),
     P._models s !! k = Some h →
     P._model_types s !! k = Some t →
     t ∈ PF.known_types →
     P.np_array E input_data Float32 = Return a →
     P.calls (P.handle_predict E msg_id (Some k) input_data s).1 =
     P.calls s ++ [P.CallPredict t h (ensure_batch a)]) ∧
  (∀ (E : H.Env) k info l a (s : H.state),
     H._models s !! k = Some info →
     H.np_array E (JArr l) Float32 = Return a →
     H.calls (H.predict_max E k (H.Raw (JArr l)) s).1 =
     H.calls s ++ [H.MaxExecute (H.model info) (ensure_batch a)]) ∧
  (∀ (E : H.Env) k info l a name names (s : H.state),
     H._models s !! k = Some info →
     (H.ort_inputs E (H.model info)).*1 = name :: names →
     H.np_array E (JArr l) Float32 = Return a →
     H.calls (H.predict_onnx E k (H.Raw (JArr l)) s).1 =
     H.calls s ++ [H.OrtRun (H.model info) name (ensure_batch a)]).
Proof.
  split; [|split; [|split; [|split]]].
  - intros a n Hs. by apply PF.ensure_batch_vector.
  - intros a Hn. by apply PF.ensure_batch_other.
  - intros E msg_id k h t input_data a s Hm Ht Hk Ha.
    exact (PF.predict_call_streaming E msg_id k h t input_data a s Hm Ht Hk Ha).
  - intros E k info l a s Hk Ha.
    exact (HF.predict_max_call E k info l a s Hk Ha).
  - intros E k info l a name names s Hk Hn Ha.
    exact (HF.predict_onnx_call E k info l a name names s Hk Hn Ha).
Qed.

Lemma vectors_get_a_batch_dimension_witness :
  (shape (mk_ndarray Float32 [5%nat] [1 # 2; 1 # 2; 1 # 2; 1 # 2; 1 # 2]%Q) = [5%nat]) ∧
  (H._models HF.loaded !! "demo" = Some (H.mk_model_info 10 "max" "models/demo/model.onnx")) ∧
  (H.np_array Demo.server Demo.sample Float32 =
     Return (mk_ndarray Float32 [5%nat] [1 # 2; 1 # 2; 1 # 2; 1 # 2; 1 # 2]%Q)) ∧
  (H.calls (H.predict_max Demo.server "demo" (H.Raw Demo.sample) HF.loaded).1 =
   H.calls HF.loaded ++
     [H.MaxExecute 10%nat
        (mk_ndarray Float32 [1; 5]%nat [1 # 2; 1 # 2; 1 # 2; 1 # 2; 1 # 2]%Q)]).
Proof.
  destruct vectors_get_a_batch_dimension as (Hvec & _ & _ & Hmax & _).
  split; [reflexivity|]. split; [reflexivity|]. split; [reflexivity|].
  pose proof (Hmax Demo.server "demo"
                (H.mk_model_info 10 "max" "models/demo/model.onnx")
                [JNum (1 # 2); JNum (1 # 2); JNum (1 # 2); JNum (1 # 2); JNum (1 # 2)]
                (mk_ndarray Float32 [5%nat] [1 # 2; 1 # 2; 1 # 2; 1 # 2; 1 # 2]%Q)
                HF.loaded eq_refl eq_refl) as Hcall.
  rewrite (Hvec (mk_ndarray Float32 [5%nat] [1 # 2; 1 # 2; 1 # 2; 1 # 2; 1 # 2]%Q)
             5%nat eq_refl) in Hcall.
  exact Hcall.
Defined.

(** *** Inference after an unload *)

(** C8.  A [predict] that follows an [unload] of the same model is
    answered with a failure that says the model is not loaded, whether the
    unload found the model or not.  On the streaming transport this holds
    for every request, provided the [import numpy] that opens
    [handle_predict] succeeds; without numpy the request is still answered
    with a failure, which carries the exception of the import instead.  On
    the HTTP transport it holds for every [/predict] request that names the
    model and carries an input, the answer being a 404. *)
Theorem predict_after_unload_is_not_loaded :
  (∀ (E : P.Env) id1 id2 model_id input_data (s : P.state),
     PF.numpy_installed E →
     let s1 := (P.handle_unload_model id1 model_id s).1 in
     P.handle_predict E id2 model_id input_data s1 =
     (P.mk_state (P._models s1) (P._model_types s1)
        (P.stdout s1 ++
           [P.mk_response id2 false None
              (Some ("Model " +:+ fmt model_id +:+ " not loaded"))])
        (P.calls s1),
      Return tt)) ∧
  (∀ (E : P.Env) id1 (m : P.msg) (s : P.state),
     P.m_command m = Some "predict" →
     let s1 := (P.handle_unload_model id1 (P.m_model_id m) s).1 in
     ∃ err,
       P.handle_message E m s1 =
       (P.mk_state (P._models s1) (P._model_types s1)
          (P.stdout s1 ++
             [P.mk_response (default "unknown" (P.m_id m)) false None (Some err)])
          (P.calls s1),
        Return false) ∧
       (PF.numpy_installed E →
        err = "Model " +:+ fmt (P.m_model_id m) +:+ " not loaded")) ∧
  (∀ (E : H.Env) d1 d2 t k (s : H.state),
     k ≠ EmptyString →
     H.b_model_id d1 = Some k →
     H.b_model_id d2 = Some k →
     is_none (H.b_input_data d2) = false →
     let s1 := (H.serve E (H.PostUnload (Some d1)) s).1 in
     (H.serve E (H.PostPredict (Some d2) t) s1).2 =
     H.mk_http 404 [("success", JBool false);
                    ("error", JStr ("Model " +:+ k +:+ " not loaded"))]).
Proof.
  split; [|split].
  - intros E id1 id2 model_id input_data s Hnp.
    exact (PF.predict_after_unload_streaming E id1 id2 model_id input_data s Hnp).
  - intros E id1 m s Hc s1.
    destruct (P.import_numpy E) as [array|e] eqn:Hnp.
    + exists ("Model " +:+ fmt (P.m_model_id m) +:+ " not loaded").
      split; [|done].
      unfold P.handle_message, P.dispatch. rewrite Hc. simpl.
      unfold P.try_except, P.bind at 1.
      subst s1.
      rewrite (PF.predict_after_unload_streaming E id1 _ (P.m_model_id m)
                 (P.m_input_data m) s) by (by exists array).
      reflexivity.
    + exists ("Error: " +:+ e +:+ newline +:+ P.format_exc E e).
      split.
      * by apply PF.predict_without_numpy.
      * intros [array Harr]. congruence.
  - intros E d1 d2 t k s Hne Hk1 Hk2 Hin s1.
    apply HF.predict_route_not_loaded; [done..|].
    subst s1. by apply HF.unload_route_removes.
Qed.

Lemma predict_after_unload_witness :
  let s0 := (P.handle_load_model Demo.py_env "1" (Some "models/demo/model.pkl")
               (Some "demo") P.initial).1 in
  let s1 := (P.handle_unload_model "2" (Some "demo") s0).1 in
  let h1 := (H.serve Demo.server (H.PostUnload (Some (Demo.use_demo JNull))) HF.loaded).1 in
  (PF.numpy_installed Demo.py_env) ∧
  (P._models s0 !! "demo" = Some 7%nat) ∧
  (P.stdout (P.handle_predict Demo.py_env "3" (Some "demo") Demo.sample s1).1 =
   P.stdout s1 ++ [P.mk_response "3" false None (Some "Model demo not loaded")]) ∧
  (is_none (H.b_input_data (Demo.use_demo Demo.sample)) = false) ∧
  (H._models HF.loaded !! "demo" = Some (H.mk_model_info 10 "max" "models/demo/model.onnx")) ∧
  ((H.serve Demo.server (H.PostPredict (Some (Demo.use_demo Demo.sample)) 10) h1).2 =
   H.mk_http 404 [("success", JBool false); ("error", JStr "Model demo not loaded")]).
Proof.
  intros s0 s1 h1.
  assert (PF.numpy_installed Demo.py_env) as Hnp by (eexists; reflexivity).
  destruct predict_after_unload_is_not_loaded as (Hs & _ & Hh).
  split; [exact Hnp|]. split; [reflexivity|].
  split.
  - subst s1. rewrite (Hs Demo.py_env "2" "3" (Some "demo") Demo.sample s0 Hnp).
    reflexivity.
  - split; [reflexivity|]. split; [reflexivity|].
    exact (Hh Demo.server (Demo.use_demo JNull) (Demo.use_demo Demo.sample) 10%Q "demo"
             HF.loaded ltac:(discriminate) eq_refl eq_refl eq_refl).
Defined.

End BridgeFacts.
(* ===================================================================== *)
(** ** Further properties of the streaming bridge *)
(* ===================================================================== *)

Module StreamingProperties.
Import Py PythonBridge PythonBridgeFacts.

#[local] Arguments contains : simpl never.
#[local] Arguments str_in : simpl never.
#[local] Arguments String.eqb : simpl never.
#[local] Arguments basename : simpl never.
#[local] Arguments splitext : simpl never.
#[local] Arguments lower : simpl never.

(** A line the loop answers: every line but a blank one. *)
Definition answered (l : line) : bool :=
match l with
| Blank => false
| _ => true
end.

(** A line [main] has no handler for: reading or parsing it raises an
    exception other than [JSONDecodeError], or it parses to a JSON value
    that is not an object. *)
Definition unhandled (l : line) : bool :=
match l with
| Escapes _ | JsonOther => true
| _ => false
end.

(** The loader and the model type [handle_load_model] selects for each
    extension it accepts. *)
Definition formats : list (string * (loader * string)) :=
  [(".keras", (KerasLoad, "keras")); (".h5", (KerasLoad, "keras"));
   (".pkl", (PickleLoad, "sklearn")); (".joblib", (JoblibLoad, "sklearn"));
   (".tflite", (TFLiteLoad, "tflite"))].

(** The string has no path separator. *)
Fixpoint no_slash (s : string) : bool :=
match s with
| EmptyString => true
| String a t => negb (Ascii.eqb a "/"%char) && no_slash t
end.

Definition ready_message : response :=
mk_response "ready" true (Some (JObj [("message", JStr "Python bridge ready")])) None.

Lemma rfind_from_no_slash n i :
  no_slash n = true → rfind_from "/"%char n i = (-1)%Z.
Proof.
  revert i. induction n as [|a n IH]; intros i Hn; [done|].
  simpl in Hn. apply andb_true_iff in Hn as [Ha Hn].
  simpl. rewrite (IH _ Hn). simpl.
  apply negb_true_iff in Ha. by rewrite Ha.
Qed.

Lemma rfind_from_dir d n i :
  no_slash n = true → (0 ≤ i)%Z →
  rfind_from "/"%char (d +:+ String "/"%char n) i = (i + Z.of_nat (String.length d))%Z.
Proof.
  intros Hn. revert i. induction d as [|a d IH]; intros i Hi.
  - change (EmptyString +:+ String "/"%char n) with (String "/"%char n).
    simpl. rewrite (rfind_from_no_slash n _ Hn). simpl. lia.
  - change (String a d +:+ String "/"%char n) with (String a (d +:+ String "/"%char n)).
    simpl rfind_from. rewrite IH by lia.
    destruct (0 <=? i + 1 + Z.of_nat (String.length d))%Z eqn:Hle.
    + simpl String.length. lia.
    + apply Z.leb_gt in Hle. lia.
Qed.

Lemma str_drop_app d n : str_drop (String.length d) (d +:+ n) = n.
Proof.
  induction d as [|a d IH]; [done|].
  change (String a d +:+ n) with (String a (d +:+ n)). simpl. exact IH.
Qed.

(** The base name of [d/n] is [n] when [n] has no separator. *)
Lemma basename_of_file d n :
  no_slash n = true → basename (d +:+ "/" +:+ n) = n.
Proof.
  intros Hn. unfold basename, rfind, slice_from.
  change (d +:+ "/" +:+ n) with (d +:+ String "/"%char n).
  rewrite (rfind_from_dir d n 0 Hn) by lia.
  replace (Z.to_nat (0 + Z.of_nat (String.length d) + 1))
    with (S (String.length d)) by lia.
  change (d +:+ String "/"%char n) with (d +:+ (String "/"%char EmptyString +:+ n)).
  replace (S (String.length d))
    with (String.length (d +:+ String "/"%char EmptyString)).
  - assert (∀ x y z, x +:+ y +:+ z = (x +:+ y) +:+ z) as Hassoc.
    { intros x y z. induction x as [|c x IHx]; [done|].
      change (String c x +:+ y +:+ z) with (String c (x +:+ y +:+ z)).
      change ((String c x +:+ y) +:+ z) with (String c ((x +:+ y) +:+ z)).
      by rewrite IHx. }
    rewrite Hassoc. apply str_drop_app.
  - clear. induction d as [|a d IH]; [done|].
    change (String a d +:+ String "/"%char EmptyString)
      with (String a (d +:+ String "/"%char EmptyString)).
    simpl. by rewrite IH.
Qed.

Section WithEnv.
Context (E : Env).

Lemma read_loop_counts lines s :
  (read_loop E lines s).2 = EndOfInput →
  length (stdout (read_loop E lines s).1) =
  (length (stdout s) + length (List.filter answered lines))%nat.
Proof.
  revert s. induction lines as [|l rest IH]; intros s; simpl.
  - intros _. lia.
  - destruct l as [|err|e|m|]; simpl.
    + apply IH.
    + intros Hend. rewrite (IH _ Hend). simpl. rewrite length_app. simpl. lia.
    + done.
    + destruct (handle_message_answers E m s) as (r & b & Hb & Hout & _).
      destruct (handle_message E m s) as [s1 o]. simpl in *. subst o.
      destruct b; simpl; [done|].
      intros Hend. rewrite (IH _ Hend), Hout, length_app. simpl. lia.
    + done.
Qed.

Lemma read_loop_no_crash lines s :
  Forall (fun l => unhandled l = false) lines →
  (read_loop E lines s).2 = EndOfInput ∨ (read_loop E lines s).2 = ShutDown.
Proof.
  revert s. induction lines as [|l rest IH]; intros s Hall; simpl; [auto|].
  apply Forall_cons in Hall as [Hl Hall].
  destruct l as [|err|e|m|]; simpl; [by apply IH | by apply IH | done | | done].
  destruct (handle_message_answers E m s) as (r & b & Hb & _).
  destruct (handle_message E m s) as [s1 o]. simpl in *. subst o.
  destruct b; simpl; [auto | by apply IH].
Qed.

(** A prefix that is read to its end hands its state to what follows. *)
Lemma read_loop_app pre rest s :
  (read_loop E pre s).2 = EndOfInput →
  read_loop E (pre ++ rest) s = read_loop E rest (read_loop E pre s).1.
Proof.
  revert s. induction pre as [|l pre IH]; intros s; simpl; [done|].
  destruct l as [|err|e|m|]; simpl; [by apply IH | by apply IH | done | | done].
  destruct (handle_message E m s) as [s1 [[]|e]]; simpl; [done | by apply IH | done].
Qed.

(** A crash is met at an unhandled line, reached with the input before
    it read to its end. *)
Lemma read_loop_crash_site lines s e :
  (read_loop E lines s).2 = Crashed e →
  ∃ pre l post,
    lines = pre ++ l :: post ∧ unhandled l = true ∧
    (read_loop E pre s).2 = EndOfInput ∧
    (read_loop E lines s).1 = (read_loop E pre s).1.
Proof.
  revert s. induction lines as [|l rest IH]; intros s; simpl; [done|].
  destruct l as [|err|e'|m|]; simpl.
  - intros (pre & l & post & -> & Hl & Hpre & Hst)%IH.
    exists (Blank :: pre), l, post. done.
  - intros (pre & l & post & -> & Hl & Hpre & Hst)%IH.
    exists (NotJson err :: pre), l, post. done.
  - intros _. exists [], (Escapes e'), rest. done.
  - destruct (handle_message_answers E m s) as (r & b & Hb & _).
    destruct (handle_message E m s) as [s1 o] eqn:Hm. simpl in *. subst o.
    destruct b; simpl; [done|].
    intros (pre & l & post & -> & Hl & Hpre & Hst)%IH.
    exists (JsonObject m :: pre), l, post. simpl. rewrite Hm. done.
  - intros _. exists [], JsonOther, rest. done.
Qed.

Lemma read_loop_stops_at_shutdown pre m rest s :
  m_command m = Some "shutdown" →
  read_loop E (pre ++ JsonObject m :: rest) s =
  read_loop E (pre ++ [JsonObject m]) s.
Proof.
  intros Hc. revert s. induction pre as [|l pre IH]; intros s; simpl.
  - destruct (handle_message_answers E m s) as (r & b & Hb & _ & _ & Hflag).
    rewrite Hc in Hflag. simpl in Hflag. subst b.
    destruct (handle_message E m s) as [s1 o]. simpl in *. by subst o.
  - destruct l as [|err|e|m'|]; simpl; auto.
    destruct (handle_message E m' s) as [s1 [[]|e]]; auto.
Qed.

(** Every type of the table is one [handle_predict] dispatches on. *)
Lemma formats_known ext l t : (ext, (l, t)) ∈ formats → t ∈ known_types.
Proof.
  unfold formats, known_types. intros H.
  repeat match goal with
    | H : _ ∈ _ :: _ |- _ => apply elem_of_cons in H as [H|H]
    | H : _ ∈ [] |- _ => by apply elem_of_nil in H
    end;
  simplify_eq; repeat first [apply list_elem_of_here | apply list_elem_of_further].
Qed.

Ltac pick_format :=
  repeat match goal with
    | H : str_in _ _ = true |- _ => apply str_in_spec in H
    | H : (_ =? _)%string = true |- _ => apply String.eqb_eq in H
    | H : (_ =? _)%string = false |- _ => apply String.eqb_neq in H
    | H : _ ∈ _ :: _ |- _ => apply elem_of_cons in H as [H|H]
    | H : _ ∈ [] |- _ => by apply elem_of_nil in H
    end;
  try congruence;
  unfold formats;
  match goal with H : lower _ = _ |- _ => rewrite H end;
  repeat first [apply list_elem_of_here | apply list_elem_of_further].

(** What a load does when its key is free. *)
Lemma load_fresh_key msg_id path model_id k s :
  requested_id (Some path) model_id = Some k →
  _models s !! k = None →
  (handle_load_model E msg_id (Some path) model_id s).2 = Return tt ∧
  ((_models (handle_load_model E msg_id (Some path) model_id s).1 = _models s ∧
    _model_types (handle_load_model E msg_id (Some path) model_id s).1 = _model_types s) ∨
   (∃ l h t,
      backend_load E l path = Return h ∧
      (lower (splitext path).2, (l, t)) ∈ formats ∧
      _models (handle_load_model E msg_id (Some path) model_id s).1 = <[k:=h]> (_models s) ∧
      _model_types (handle_load_model E msg_id (Some path) model_id s).1
        = <[k:=t]> (_model_types s) ∧
      calls (handle_load_model E msg_id (Some path) model_id s).1
        = calls s ++ [CallLoad l path])).
Proof.
  intros Hid Hk%contains_false. unfold requested_id in Hid.
  unfold_m.
  destruct (truthy model_id) eqn:Ht; simpl in *; simplify_eq; simpl;
    rewrite Hk; simpl;
    repeat (case_match; simpl in *; simplify_eq);
    (split; [reflexivity|]);
    first [ left; split; reflexivity
          | right; eexists _, _, _; split; [eassumption|];
            split; [|split; [reflexivity|split; reflexivity]];
            pick_format ].
Qed.

End WithEnv.

(** X1.  The handling of one parsed request, whatever its command, its
    fields and the state of the bridge, ends normally after writing exactly
    one response, and that response carries the id of the request
    (["unknown"] when the request has none); the loop is left exactly when
    the command is [shutdown]. *)
Theorem every_request_gets_one_response_with_its_id
    (E : Env) (m : msg) (s : state) :
  ∃ r b,
    (handle_message E m s).2 = Return b ∧
    stdout (handle_message E m s).1 = stdout s ++ [r] ∧
    id r = default "unknown" (m_id m) ∧
    b = String.eqb (default EmptyString (m_command m)) "shutdown".
Proof. apply handle_message_answers. Qed.

(** X2.  A [shutdown] request is answered with ["Shutting down"] and ends
    the loop: the lines that follow it are never read, so the final state and
    output do not depend on them. *)
Theorem nothing_is_read_after_shutdown
    (E : Env) (pre : list line) (m : msg) (rest : list line) (s : state) :
  m_command m = Some "shutdown" →
  read_loop E (pre ++ JsonObject m :: rest) s = read_loop E (pre ++ [JsonObject m]) s ∧
  read_loop E (JsonObject m :: rest) s =
    (say (mk_response (default "unknown" (m_id m)) true
            (Some (JObj [("message", JStr "Shutting down")])) None) s,
     ShutDown).
Proof.
  intros Hc. split.
  - by apply read_loop_stops_at_shutdown.
  - simpl. unfold handle_message, dispatch. rewrite Hc. reflexivity.
Qed.

Lemma nothing_is_read_after_shutdown_witness :
  let bye := mk_msg (Some "9") (Some "shutdown") None None JNull in
  let ping := JsonObject (mk_msg (Some "8") (Some "ping") None None JNull) in
  (m_command bye = Some "shutdown") ∧
  (read_loop Demo.py_env ([ping] ++ JsonObject bye :: [ping; ping]) initial =
   read_loop Demo.py_env ([ping] ++ [JsonObject bye]) initial).
Proof.
  intros bye ping. split; [reflexivity|].
  exact (proj1 (nothing_is_read_after_shutdown Demo.py_env [ping] bye [ping; ping]
                  initial eq_refl)).
Defined.

(** X3.  The loop ends abnormally only at a line [main] has no handler
    for: one on which reading or [json.loads] raises something other than
    [JSONDecodeError], or one that is valid JSON but not an object.  Over
    input without such a line the loop ends at the end of the input or on
    [shutdown], whatever the commands and the backends do.  Such a line,
    reached without a [shutdown] before it, ends the loop with an uncaught
    exception and no response, and the lines after it are not read.  Every
    abnormal end is of that kind. *)
Theorem only_an_unhandled_line_crashes_the_loop
    (E : Env) (lines : list line) (s : state) :
  (Forall (fun l => unhandled l = false) lines →
   (read_loop E lines s).2 = EndOfInput ∨ (read_loop E lines s).2 = ShutDown) ∧
  (∀ l rest,
     unhandled l = true →
     (read_loop E lines s).2 = EndOfInput →
     ∃ e, read_loop E (lines ++ l :: rest) s = ((read_loop E lines s).1, Crashed e)) ∧
  (∀ e,
     (read_loop E lines s).2 = Crashed e →
     ∃ pre l post,
       lines = pre ++ l :: post ∧ unhandled l = true ∧
       (read_loop E pre s).2 = EndOfInput ∧
       (read_loop E lines s).1 = (read_loop E pre s).1).
Proof.
  split; [apply read_loop_no_crash|]. split; [|apply read_loop_crash_site].
  intros l rest Hl Hend. rewrite read_loop_app by done.
  destruct l; simpl in *; try done; eauto.
Qed.

Lemma only_an_unhandled_line_crashes_witness :
  let ping := JsonObject (mk_msg (Some "8") (Some "ping") None None JNull) in
  let lines := [ping; NotJson "Expecting value"; Blank] in
  let huge := Escapes "Exceeds the limit (4300 digits) for integer string conversion" in
  (Forall (fun l => unhandled l = false) lines) ∧
  (unhandled huge = true) ∧
  ((read_loop Demo.py_env lines initial).2 = EndOfInput) ∧
  (∃ e, read_loop Demo.py_env (lines ++ huge :: [ping]) initial =
        ((read_loop Demo.py_env lines initial).1, Crashed e)).
Proof.
  intros ping lines huge.
  assert (Forall (fun l => unhandled l = false) lines) as Hall by (repeat constructor).
  destruct (only_an_unhandled_line_crashes_the_loop Demo.py_env lines initial)
    as (Hsafe & Hcrash & _).
  split; [exact Hall|]. split; [reflexivity|]. split; [reflexivity|].
  exact (Hcrash huge [ping] eq_refl eq_refl).
Defined.

(** X4.  The first thing the bridge writes is the [ready] message, before
    any input line is handled, and nothing that follows removes it. *)
Theorem ready_is_the_first_message (E : Env) (lines : list line) :
  ∃ out, stdout (main E lines).1 = ready_message :: out.
Proof.
  unfold main.
  match goal with |- context [read_loop E lines ?s0] =>
    destruct (read_loop_extends E lines s0) as [out Hout] end.
  exists out. rewrite Hout. reflexivity.
Qed.

(** X5.  When the input ends without [shutdown] and without a crash, the
    bridge has written exactly one response for every line that is not
    blank: one per request and one per line of invalid JSON. *)
Theorem one_response_per_non_blank_line (E : Env) (lines : list line) (s : state) :
  (read_loop E lines s).2 = EndOfInput →
  length (stdout (read_loop E lines s).1) =
  (length (stdout s) + length (List.filter answered lines))%nat.
Proof. apply read_loop_counts. Qed.

Lemma one_response_per_non_blank_line_witness :
  let lines := [Blank; NotJson "Expecting value";
                Demo.line_load "1" "models/demo/model.keras" None;
                JsonObject (Demo.line_predict "2" "model.keras" Demo.sample);
                Blank;
                JsonObject (Demo.line_unload "3" "ghost")] in
  ((read_loop Demo.py_env lines initial).2 = EndOfInput) ∧
  (length (stdout (read_loop Demo.py_env lines initial).1) = 4%nat).
Proof.
  intros lines. split; [reflexivity|].
  exact (one_response_per_non_blank_line Demo.py_env lines initial eq_refl).
Defined.

(** X6.  Once a load has put a model in the registry, a [predict] on its
    id reaches the backend: the loader that was called and the model type
    passed to the inference call are the ones the extension of the path
    selects ([.keras] and [.h5]: keras; [.pkl]: pickle, sklearn; [.joblib]:
    joblib, sklearn; [.tflite]: tflite), the model object is the one that
    loader returned, and the response relays what the backend returns (its
    result, or its exception text as a failure). *)
Theorem a_loaded_model_serves_predictions
    (E : Env) (id1 id2 path : string) (model_id : option string) (k : string)
    (input_data : json) (a : ndarray) (s : state) :
  requested_id (Some path) model_id = Some k →
  _models s !! k = None →
  np_array E input_data Float32 = Return a →
  is_Some (_models (handle_load_model E id1 (Some path) model_id s).1 !! k) →
  let s1 := (handle_load_model E id1 (Some path) model_id s).1 in
  let s2 := (handle_predict E id2 (Some k) input_data s1).1 in
  ∃ l h t,
    (lower (splitext path).2, (l, t)) ∈ formats ∧
    backend_load E l path = Return h ∧
    calls s2 = calls s ++ [CallLoad l path; CallPredict t h (ensure_batch a)] ∧
    last (stdout s2) =
      Some (match backend_predict E t h (ensure_batch a) with
            | Return result => mk_response id2 true (Some result) None
            | Raised e => mk_response id2 false None (Some e)
            end) ∧
    _models s2 = _models s1 ∧ _model_types s2 = _model_types s1.
Proof.
  intros Hid Hk Ha Hin s1 s2. subst s1 s2.
  destruct (load_fresh_key E id1 path model_id k s Hid Hk)
    as [_ [[Hm _] | (l & h & t & Hl & Hfmt & Hm & Hty & Hc)]].
  { rewrite Hm, Hk in Hin. by destruct Hin. }
  exists l, h, t. split; [done|]. split; [done|].
  assert (t ∈ known_types) as Ht by (by eapply formats_known).
  unfold np_array in Ha.
  destruct (import_numpy E) as [array|] eqn:Hnp; [|done].
  set (s1 := (handle_load_model E id1 (Some path) model_id s).1) in *.
  assert (_models s1 !! k = Some h) as Hk1 by (rewrite Hm; apply lookup_insert_eq).
  assert (_model_types s1 !! k = Some t) as Hk2 by (rewrite Hty; apply lookup_insert_eq).
  assert (contains (_models s1) (Some k) = true) as Hc1.
  { apply contains_Some. by rewrite Hk1. }
  apply str_in_spec in Ht as Hknown. unfold known_types in Hknown.
  clearbody s1. clear Hin Hid Hk Hl.
  unfold_m. rewrite Hnp, Hc1. simpl. rewrite Hk1, Hk2. simpl.
  rewrite Ha. simpl. rewrite Hknown. simpl.
  destruct (backend_predict E t h (ensure_batch a)); simpl;
    rewrite Hc, <- app_assoc, last_snoc; done.
Qed.

Lemma a_loaded_model_serves_predictions_witness :
  let s1 := (handle_load_model Demo.py_env "1" (Some "models/demo/model.keras") None
               initial).1 in
  let s2 := (handle_predict Demo.py_env "2" (Some "model.keras") Demo.sample s1).1 in
  (requested_id (Some "models/demo/model.keras") None = Some "model.keras") ∧
  (is_Some (_models s1 !! "model.keras")) ∧
  (∃ l h t,
     (lower (splitext "models/demo/model.keras").2, (l, t)) ∈ formats ∧
     calls s2 = [CallLoad l "models/demo/model.keras";
                 CallPredict t h
                   (mk_ndarray Float32 [1; 5]%nat [1 # 2; 1 # 2; 1 # 2; 1 # 2; 1 # 2]%Q)]).
Proof.
  intros s1 s2.
  assert (is_Some (_models s1 !! "model.keras")) as Hin.
  { exists 7%nat. vm_compute. reflexivity. }
  split; [reflexivity|]. split; [exact Hin|].
  destruct (a_loaded_model_serves_predictions Demo.py_env "1" "2"
              "models/demo/model.keras" None "model.keras" Demo.sample
              (mk_ndarray Float32 [5%nat] [1 # 2; 1 # 2; 1 # 2; 1 # 2; 1 # 2]%Q)
              initial eq_refl eq_refl eq_refl Hin)
    as (l & h & t & Hfmt & _ & Hcalls & _).
  exists l, h, t. split; [exact Hfmt | exact Hcalls].
Defined.

(** X7.  Loading a model under a free key and then unloading that key
    restores both registry dictionaries exactly, whether or not the load
    succeeded. *)
Theorem unload_undoes_load
    (E : Env) (id1 id2 path : string) (model_id : option string) (k : string)
    (s : state) :
  requested_id (Some path) model_id = Some k →
  _models s !! k = None →
  _model_types s !! k = None →
  let s1 := (handle_load_model E id1 (Some path) model_id s).1 in
  let s2 := (handle_unload_model id2 (Some k) s1).1 in
  _models s2 = _models s ∧ _model_types s2 = _model_types s.
Proof.
  intros Hid Hk Hkt s1 s2. subst s1 s2.
  destruct (load_fresh_key E id1 path model_id k s Hid Hk)
    as [_ [[Hm Hty] | (l & h & t & _ & _ & Hm & Hty & _)]];
    set (s1 := (handle_load_model E id1 (Some path) model_id s).1) in *;
    unfold handle_unload_model.
  - assert (contains (_models s1) (Some k) = false) as ->.
    { apply contains_false. by rewrite Hm. }
    simpl. done.
  - assert (contains (_models s1) (Some k) = true) as Hc.
    { apply contains_Some. rewrite Hm, lookup_insert_eq. eauto. }
    rewrite Hc.
    unfold delitem_models, delitem_model_types, set_models, set_model_types,
      send_response, bind, raise. rewrite Hc. simpl.
    assert (contains (_model_types s1) (Some k) = true) as ->.
    { apply contains_Some. rewrite Hty, lookup_insert_eq. eauto. }
    simpl. rewrite Hm, Hty. split; by apply delete_insert_id.
Qed.

Lemma unload_undoes_load_witness :
  let s1 := (handle_load_model Demo.py_env "1" (Some "models/demo/model.pkl")
               (Some "pump") initial).1 in
  let s2 := (handle_unload_model "2" (Some "pump") s1).1 in
  (requested_id (Some "models/demo/model.pkl") (Some "pump") = Some "pump") ∧
  (_models s1 !! "pump" = Some 7%nat) ∧
  (_models s2 = ∅ ∧ _model_types s2 = ∅).
Proof.
  intros s1 s2. split; [reflexivity|]. split; [reflexivity|].
  exact (unload_undoes_load Demo.py_env "1" "2" "models/demo/model.pkl" (Some "pump")
           "pump" initial eq_refl eq_refl eq_refl).
Defined.

(** X8.  Without a [model_id], the key of a load is the file name of the
    path, the part after the last ["/"]: two files of the same name in
    different directories share one key.  While that key is in the registry,
    a load of [d/name] for any directory [d] loads nothing and is answered
    ["Model <name> already loaded"]. *)
Theorem files_with_the_same_name_share_one_key
    (E : Env) (msg_id d name : string) (s : state) :
  no_slash name = true →
  is_Some (_models s !! name) →
  handle_load_model E msg_id (Some (d +:+ "/" +:+ name)) None s =
  (say (mk_response msg_id true
          (Some (JObj [("message", JStr ("Model " +:+ name +:+ " already loaded"))]))
          None) s,
   Return tt).
Proof.
  intros Hn Hin. apply reload_streaming; [|done].
  unfold requested_id. simpl. by rewrite basename_of_file.
Qed.

Lemma files_with_the_same_name_witness :
  let s1 := (handle_load_model Demo.py_env "1" (Some "models/demo/model.keras") None
               initial).1 in
  (no_slash "model.keras" = true) ∧
  (is_Some (_models s1 !! "model.keras")) ∧
  (calls (handle_load_model Demo.py_env "2" (Some "backup/old/model.keras") None s1).1
   = calls s1).
Proof.
  intros s1.
  assert (is_Some (_models s1 !! "model.keras")) as Hin.
  { exists 7%nat. vm_compute. reflexivity. }
  split; [reflexivity|]. split; [exact Hin|].
  change "backup/old/model.keras" with ("backup/old" +:+ "/" +:+ "model.keras").
  rewrite (files_with_the_same_name_share_one_key Demo.py_env "2" "backup/old"
             "model.keras" s1 eq_refl Hin).
  reflexivity.
Defined.


End StreamingProperties.
(* ===================================================================== *)
(** ** Further properties of the HTTP bridge *)
(* ===================================================================== *)

Module HttpProperties.
Import Py MaxBridge MaxBridgeFacts.

#[local] Arguments contains : simpl never.
#[local] Arguments String.eqb : simpl never.
#[local] Arguments load_model_max : simpl never.
#[local] Arguments load_model_onnx : simpl never.
#[local] Arguments basename : simpl never.
#[local] Arguments round2 : simpl never.
#[local] Arguments truthy : simpl never.
#[local] Arguments truthy_json : simpl never.
#[local] Arguments is_none : simpl never.
#[local] Arguments py_len : simpl never.

(** The routes that count in [requests_total]: all but [/health]. *)
Definition counted_route (r : request) : bool :=
match r with
| GetHealth => false
| _ => true
end.

(** The routes that answer with a [success] flag. *)
Definition post_route (r : request) : bool :=
match r with
| GetHealth | GetStatus _ => false
| _ => true
end.

(** The routes that only read the registry. *)
Definition read_route (r : request) : bool :=
match r with
| PostLoad _ _ | PostUnload _ => false
| _ => true
end.

Definition is_500 (resp : http_response) : bool := (status resp =? 500)%nat.

(** A call that creates a MAX inference session. *)
Definition opens_session (c : call) : bool :=
match c with
| MaxSession _ => true
| _ => false
end.

(** The latency of a [/predict] request lies in [[lo, hi]]. *)
Definition latency_within (lo hi : Q) (r : request) : Prop :=
match r with
| PostPredict _ t => (lo <= t)%Q ∧ (t <= hi)%Q
| _ => True
end.

(** A call to ONNX Runtime. *)
Definition is_ort_call (c : call) : bool :=
match c with
| OrtSession _ _ | OrtRun _ _ _ => true
| _ => false
end.

(** The one call to its engine an inference on the registry entry [info]
    can make: an execution of the model by MAX when the entry was
    registered by MAX, a run of the session by ONNX Runtime otherwise. *)
Definition engine_call_of (info : model_info) (c : call) : Prop :=
if String.eqb (backend info) "max"
then ∃ a, c = MaxExecute (model info) a
else ∃ input_name a, c = OrtRun (model info) input_name a.

Section WithEnv.
Context (E : Env).

Ltac split_routes :=
  unfold_m; simpl;
  repeat (case_match; simpl in *; simplify_eq); intros ?; simplify_eq; simpl.

Ltac use_stats :=
  repeat match goal with
    | H : load_model_max E _ _ _ = (_, _) |- _ =>
        apply load_model_max_spec in H as (H & _ & _); simpl in H; rewrite ?H
    | H : load_model_onnx E _ _ _ = (_, _) |- _ =>
        apply load_model_onnx_spec in H as (H & _ & _); simpl in H; rewrite ?H
    end.

(** The bookkeeping of one request. *)
Lemma serve_books r s s' resp :
  serve E r s = (s', resp) →
  requests_total (_stats s') =
    (requests_total (_stats s) + (if counted_route r then 1 else 0))%Z ∧
  errors_total (_stats s') =
    (errors_total (_stats s) + (if is_500 resp then 1 else 0))%Z ∧
  (status resp = 200 ∨ status resp = 400 ∨ status resp = 404 ∨ status resp = 500) ∧
  (post_route r = true →
   field "success" resp = Some (JBool (status resp =? 200)%nat)).
Proof.
  unfold is_500, field.
  destruct r as [|uptime|data lt|data t|data|data t]; split_routes; use_stats; simpl;
    repeat match goal with H : _stats _ = _ |- _ => rewrite H; clear H end; simpl;
    (split; [lia|]); (split; [lia|]); (split; [tauto|]); done.
Qed.

(** What [/load] does to the registry. *)
Lemma load_route_effect data t s s' resp :
  serve E (PostLoad data t) s = (s', resp) →
  (status resp ≠ 200 ∧ _models s' = _models s) ∨
  (status resp = 200 ∧
   ∃ d p k, data = Some d ∧ b_model_path d = Some p ∧
            requested_id (Some p) (b_model_id d) = Some k ∧
            ((is_Some (_models s !! k) ∧ _models s' = _models s) ∨
             (_models s !! k = None ∧ ∃ info, _models s' = <[k:=info]> (_models s)))).
Proof.
  unfold requested_id, PythonBridgeFacts.requested_id.
  destruct data as [d|]; [|split_routes; left; done].
  destruct (b_model_path d) as [p|] eqn:Hp.
  2:{ unfold_m. simpl. rewrite Hp.
      repeat (case_match; simpl in *; simplify_eq); intros ?; simplify_eq; left; done. }
  assert (∀ k, (if truthy (b_model_id d) then b_model_id d else Some (basename p)) = Some k
               ↔ k = (if truthy (b_model_id d) then fmt (b_model_id d) else basename p))
    as Hkey.
  { intros k. destruct (truthy (b_model_id d)) eqn:Ht; [|naive_solver].
    apply truthy_Some in Ht as (q & -> & _ & _). naive_solver. }
  set (k0 := if truthy (b_model_id d) then fmt (b_model_id d) else basename p).
  assert ((if truthy (b_model_id d) then b_model_id d else Some (basename p)) = Some k0)
    as Hk0 by (by apply Hkey).
  clear Hkey.
  unfold_m. simpl. rewrite Hp. simpl.
  destruct (truthy (b_model_id d)) eqn:Ht; simpl; subst k0;
    repeat (case_match; simpl in *; simplify_eq); intros ?; simplify_eq; simpl;
    repeat match goal with
      | H : load_model_max E _ _ _ = (_, _) |- _ =>
          apply load_model_max_spec in H as (_ & _ & H); simpl in H
      | H : load_model_onnx E _ _ _ = (_, _) |- _ =>
          apply load_model_onnx_spec in H as (_ & _ & H); simpl in H
      end;
    repeat match goal with
      | H : ∃ _, _ |- _ => destruct H as (? & ? & ? & ? & ?)
      end;
    try (left; split; [done | congruence]);
    right; (split; [done|]); eexists d, p, _; (split; [done|]); (split; [done|]);
    (split; [rewrite ?Ht; first [exact Hk0 | reflexivity]|]);
    first [ left; split; [eauto | done]
          | right; split; [done|]; eexists; eassumption
          | right; split; [done|]; eexists; etrans; [eassumption|]; by f_equal ].
Qed.

(** [/unload] of a named key deletes it, whether it was there or not. *)
Lemma unload_route_effect d k s :
  b_model_id d = Some k → k ≠ EmptyString →
  _models (serve E (PostUnload (Some d)) s).1 = delete k (_models s).
Proof.
  intros Hk Hne. pose proof (truthy_nonempty k Hne) as Ht.
  unfold_m. simpl. rewrite Hk, Ht. simpl.
  destruct (contains (_models s) k) eqn:Hc; simpl; [done|].
  unfold contains in Hc. apply bool_decide_eq_false in Hc.
  symmetry. apply delete_id. by apply eq_None_not_Some.
Qed.

(** Inference, status and health requests leave registry and session as
    they are. *)
Lemma read_route_frame r s s' resp :
  read_route r = true →
  serve E r s = (s', resp) →
  _models s' = _models s ∧ _inference_session s' = _inference_session s.
Proof.
  destruct r as [|uptime|data lt|data t|data|data t]; try done; intros _;
    split_routes; done.
Qed.

(** While a session exists no request replaces it or opens another. *)
Lemma session_is_kept r s s' resp h :
  _inference_session s = Some h →
  serve E r s = (s', resp) →
  _inference_session s' = Some h ∧
  ∃ cs, calls s' = calls s ++ cs ∧ Forall (fun c => opens_session c = false) cs.
Proof.
  intros Hs.
  destruct r as [|uptime|data lt|data t|data|data t];
    unfold serve; try unfold load_model;
    try unfold load_model_max; try unfold load_model_onnx;
    try unfold get_inference_session;
    unfold_m; simpl; rewrite ?Hs; simpl;
    repeat (first [case_bool_decide | rewrite andb_false_r | case_match];
            simpl in *; simplify_eq);
    intros ?; simplify_eq; simpl; rewrite ?Hs;
    try (exfalso;
         match goal with
         | H : _ && false = true |- _ => rewrite andb_false_r in H; discriminate H
         end);
    (split; [reflexivity|]);
    first [ exists []; split; [by rewrite app_nil_r | constructor]
          | eexists; split; [rewrite <- ?app_assoc; reflexivity | by repeat constructor] ].
Qed.

Ltac use_requested_id Hid Hp Hne :=
  unfold requested_id, PythonBridgeFacts.requested_id in Hid;
  pose proof (truthy_nonempty _ Hne) as Htp;
  unfold_m; simpl; rewrite ?Hp in *; simpl;
  destruct (truthy (b_model_id _)) eqn:?; simpl;
  [ rewrite Hid; simpl | simpl in Hid; injection Hid as Hid; rewrite ?Hid; simpl ];
  rewrite ?Htp; simpl.

(** [/load] with the backend ["max"]: the MAX load alone decides. *)
Lemma load_model_explicit_max d t p k s :
  b_model_path d = Some p → p ≠ EmptyString →
  requested_id (Some p) (b_model_id d) = Some k →
  b_backend d = Some "max" →
  _models s !! k = None →
  path_exists E p = true →
  serve E (PostLoad (Some d) t) s =
  match load_model_max E p k (counted s) with
  | (s1, Return result) => (s1, loaded_response k t result)
  | (s1, Raised e) => (failed s1, error_response E e)
  end.
Proof.
  intros Hp Hne Hid Hb Hk Hex.
  use_requested_id Hid Hp Hne;
    rewrite Hk; simpl; rewrite Hex, Hb; simpl;
    fold (counted s);
    destruct (load_model_max E _ k (counted s)) as [s1 [result|e]]; simpl;
    try reflexivity;
    rewrite andb_false_r; reflexivity.
Qed.

(** [/load] when neither ["max"] is asked for nor ["auto"] finds MAX:
    the ONNX load alone decides. *)
Lemma load_model_direct_onnx d t p k s :
  b_model_path d = Some p → p ≠ EmptyString →
  requested_id (Some p) (b_model_id d) = Some k →
  String.eqb (default "auto" (b_backend d)) "max" = false →
  String.eqb (default "auto" (b_backend d)) "auto" && MAX_AVAILABLE E = false →
  _models s !! k = None →
  path_exists E p = true →
  serve E (PostLoad (Some d) t) s =
  match load_model_onnx E p k (counted s) with
  | (s1, Return result) => (s1, loaded_response k t result)
  | (s1, Raised e) => (failed s1, error_response E e)
  end.
Proof.
  intros Hp Hne Hid Hb1 Hb2 Hk Hex.
  use_requested_id Hid Hp Hne;
    rewrite Hk; simpl; rewrite Hex, Hb1, Hb2; simpl;
    fold (counted s);
    by destruct (load_model_onnx E _ k (counted s)) as [s1 [result|e]].
Qed.

(** An ONNX load makes one call at most, to ONNX Runtime. *)
Lemma load_model_onnx_calls p k s :
  ∃ cs, calls (load_model_onnx E p k s).1 = calls s ++ cs ∧
        Forall (fun c => is_max_call c = false) cs.
Proof.
  unfold load_model_onnx. unfold_m.
  destruct (ONNX_AVAILABLE E); simpl.
  2:{ exists []. split; [by rewrite app_nil_r | constructor]. }
  match goal with |- context [ort_session E p ?pr] =>
    destruct (ort_session E p pr) as [h|e] end; simpl;
    eexists; (split; [reflexivity|]); by repeat constructor.
Qed.

(** One step of the source's update keeps the average between the bounds
    of the old average and the new latency. *)
Lemma average_step_within (lo hi a t : Q) (n : Z) :
  (0 ≤ n)%Z →
  (lo <= a)%Q → (a <= hi)%Q → (lo <= t)%Q → (t <= hi)%Q →
  (lo <= (a * inject_Z (n + 1 - 1) + t) / inject_Z (n + 1))%Q ∧
  ((a * inject_Z (n + 1 - 1) + t) / inject_Z (n + 1) <= hi)%Q.
Proof.
  intros Hn Hla Hah Hlt Hth.
  replace (n + 1 - 1)%Z with n by lia.
  assert (0 <= inject_Z n)%Q as HN.
  { change 0%Q with (inject_Z 0). rewrite <- Zle_Qle. lia. }
  assert (0 < inject_Z (n + 1))%Q as Hpos.
  { change 0%Q with (inject_Z 0). rewrite <- Zlt_Qlt. lia. }
  assert (inject_Z (n + 1) == inject_Z n + 1)%Q as Hsum.
  { rewrite inject_Z_plus. reflexivity. }
  split.
  - apply Qle_shift_div_l; [exact Hpos|]. rewrite Hsum.
    assert (lo * (inject_Z n + 1) == lo * inject_Z n + lo)%Q as Hx by ring.
    rewrite Hx.
    apply Qplus_le_compat; [|exact Hlt].
    by apply Qmult_le_compat_r.
  - apply Qle_shift_div_r; [exact Hpos|]. rewrite Hsum.
    assert (hi * (inject_Z n + 1) == hi * inject_Z n + hi)%Q as Hx by ring.
    rewrite Hx.
    apply Qplus_le_compat; [|exact Hth].
    by apply Qmult_le_compat_r.
Qed.

(** The bounds are kept by every request. *)
Lemma serve_keeps_average_within lo hi r s s' resp :
  latency_within lo hi r →
  serve E r s = (s', resp) →
  (0 ≤ inference_total (_stats s))%Z →
  (lo <= avg_inference_time_ms (_stats s))%Q →
  (avg_inference_time_ms (_stats s) <= hi)%Q →
  (0 ≤ inference_total (_stats s'))%Z ∧
  (lo <= avg_inference_time_ms (_stats s'))%Q ∧
  (avg_inference_time_ms (_stats s') <= hi)%Q.
Proof.
  intros Hr Hstep Hn Hlo Hhi.
  assert (inference_stats s' = inference_stats s →
          (0 ≤ inference_total (_stats s'))%Z ∧
          (lo <= avg_inference_time_ms (_stats s'))%Q ∧
          (avg_inference_time_ms (_stats s') <= hi)%Q) as Hsame.
  { intros [= Hi Ha]. by rewrite Hi, Ha. }
  destruct r as [|uptime|data lt|data t|data|data t]; simpl in Hr.
  - apply health_route_stats in Hstep as ->. auto.
  - apply status_route_stats in Hstep. auto.
  - apply load_route_stats in Hstep. auto.
  - destruct Hr as [Hlt Hth].
    apply predict_route in Hstep as [_ [[_ [-> | ->]] | (_ & _ & ->)]]; simpl.
    + split; [lia | auto].
    + split; [lia | auto].
    + split; [lia|]. by apply average_step_within.
  - apply unload_route_stats in Hstep. auto.
  - apply batch_route in Hstep as (_ & Ha & [[_ Hi] | [_ (d & k & -> & Hlen & Hi)]]).
    + rewrite Hi, Ha. auto.
    + rewrite Hi, Ha. split; [|auto].
      assert (0 ≤ k)%Z; [|lia].
      unfold py_len in Hlen. destruct (b_inputs d); simplify_eq; lia.
Qed.

Lemma serve_all_keeps_average_within lo hi rs :
  ∀ s, Forall (latency_within lo hi) rs →
       (0 ≤ inference_total (_stats s))%Z →
       (lo <= avg_inference_time_ms (_stats s))%Q →
       (avg_inference_time_ms (_stats s) <= hi)%Q →
       (lo <= avg_inference_time_ms (_stats (serve_all E rs s).1))%Q ∧
       (avg_inference_time_ms (_stats (serve_all E rs s).1) <= hi)%Q.
Proof.
  induction rs as [|r rs IH]; intros s Hall Hn Hlo Hhi; simpl; [auto|].
  apply Forall_cons in Hall as [Hr Hall].
  destruct (serve E r s) as [s1 resp] eqn:Hstep.
  destruct (serve_keeps_average_within lo hi r s s1 resp Hr Hstep Hn Hlo Hhi)
    as (Hn1 & Hlo1 & Hhi1).
  specialize (IH s1 Hall Hn1 Hlo1 Hhi1).
  destruct (serve_all E rs s1) as [s2 resps]. exact IH.
Qed.

(** The counters over a run. *)
Lemma serve_all_books rs :
  ∀ s, requests_total (_stats (serve_all E rs s).1) =
         (requests_total (_stats s)
          + Z.of_nat (length (List.filter counted_route rs)))%Z ∧
       errors_total (_stats (serve_all E rs s).1) =
         (errors_total (_stats s)
          + Z.of_nat (length (List.filter is_500 (serve_all E rs s).2)))%Z.
Proof.
  induction rs as [|r rs IH]; intros s; simpl; [split; lia|].
  destruct (serve E r s) as [s1 resp] eqn:Hstep.
  apply serve_books in Hstep as (Hreq & Herr & _).
  specialize (IH s1). destruct (serve_all E rs s1) as [s2 resps]. simpl in *.
  destruct IH as [-> ->]. rewrite Hreq, Herr.
  destruct (counted_route r), (is_500 resp); simpl; split; lia.
Qed.

End WithEnv.
(** X10.  [requests_total] counts every request except [/health]:
    after any sequence of requests it has grown by the number of requests to
    the other routes, whatever their outcome. *)
Theorem requests_total_counts_all_but_health
    (E : Env) (rs : list request) (s : state) :
  requests_total (_stats (serve_all E rs s).1) =
  (requests_total (_stats s) + Z.of_nat (length (List.filter counted_route rs)))%Z.
Proof. apply serve_all_books. Qed.

(** X11.  [errors_total] counts exactly the responses with status 500:
    a request refused with 400 or 404 is not counted as an error. *)
Theorem errors_total_counts_the_500_responses
    (E : Env) (rs : list request) (s : state) :
  errors_total (_stats (serve_all E rs s).1) =
  (errors_total (_stats s)
   + Z.of_nat (length (List.filter is_500 (serve_all E rs s).2)))%Z.
Proof. apply serve_all_books. Qed.

(** X12.  Every response has status 200, 400, 404 or 500.  The answers
    of [/load], [/predict], [/unload] and [/batch_predict] carry a [success]
    flag that is true exactly when the status is 200; the answers of
    [/health] and [/status] carry none. *)
Theorem success_flag_agrees_with_the_status
    (E : Env) (r : request) (s : state) :
  let resp := (serve E r s).2 in
  (status resp = 200 ∨ status resp = 400 ∨ status resp = 404 ∨ status resp = 500) ∧
  field "success" resp =
    (if post_route r then Some (JBool (status resp =? 200)%nat) else None).
Proof.
  intros resp. subst resp.
  destruct (serve E r s) as [s' resp] eqn:Hstep. simpl.
  pose proof (serve_books E r s s' resp Hstep) as (_ & _ & Hcode & Hflag).
  split; [exact Hcode|].
  destruct (post_route r) eqn:Hpost; [by apply Hflag|].
  destruct r; try discriminate Hpost; revert Hstep;
    unfold serve, health, status_route, jsonify, set_stats, bind, ret;
    simpl; intros [= <- <-]; reflexivity.
Qed.

(** X13.  [/predict], [/batch_predict], [/status] and [/health] never
    change the registry or the MAX session, whatever they answer. *)
Theorem inference_and_status_leave_the_registry_alone
    (E : Env) (r : request) (s : state) :
  read_route r = true →
  _models (serve E r s).1 = _models s ∧
  _inference_session (serve E r s).1 = _inference_session s.
Proof.
  intros Hr. destruct (serve E r s) as [s' resp] eqn:Hstep.
  exact (read_route_frame E r s s' resp Hr Hstep).
Qed.

Lemma inference_and_status_leave_the_registry_witness :
  (read_route (PostBatchPredict (Some (Demo.batch_on "demo")) 4) = true) ∧
  (_models (serve Demo.server (PostBatchPredict (Some (Demo.batch_on "demo")) 4) loaded).1
   = _models loaded).
Proof.
  split; [reflexivity|].
  exact (proj1 (inference_and_status_leave_the_registry_alone Demo.server
                  (PostBatchPredict (Some (Demo.batch_on "demo")) 4) loaded eq_refl)).
Defined.

(** X14.  A [/load] that is not answered with 200 registers nothing: the
    registry is exactly as it was, also when the MAX load and the ONNX
    fallback have both been tried. *)
Theorem a_failed_load_registers_nothing
    (E : Env) (data : option body) (t : Q) (s : state) :
  status (serve E (PostLoad data t) s).2 ≠ 200 →
  _models (serve E (PostLoad data t) s).1 = _models s.
Proof.
  intros Hbad. destruct (serve E (PostLoad data t) s) as [s' resp] eqn:Hstep.
  destruct (load_route_effect E data t s s' resp Hstep) as [[_ Hm] | [Hok _]]; [done|].
  simpl in Hbad. done.
Qed.

Lemma a_failed_load_registers_nothing_witness :
  let corrupt := mk_body (Some "models/demo/broken.onnx") (Some "pump") (Some "max")
                   JNull JNull in
  (status (serve Demo.server (PostLoad (Some corrupt) 5) loaded).2 = 500) ∧
  (_models (serve Demo.server (PostLoad (Some corrupt) 5) loaded).1 = _models loaded).
Proof.
  intros corrupt. split; [reflexivity|].
  apply (a_failed_load_registers_nothing Demo.server (Some corrupt) 5 loaded).
  vm_compute. discriminate.
Defined.

(** X15.  A [/load] under a free key followed by an [/unload] of that
    key restores the registry exactly, whether or not the load succeeded. *)
Theorem http_unload_undoes_load
    (E : Env) (d1 d2 : body) (t : Q) (p k : string) (s : state) :
  b_model_path d1 = Some p →
  requested_id (Some p) (b_model_id d1) = Some k →
  k ≠ EmptyString →
  b_model_id d2 = Some k →
  _models s !! k = None →
  let s1 := (serve E (PostLoad (Some d1) t) s).1 in
  _models (serve E (PostUnload (Some d2)) s1).1 = _models s.
Proof.
  intros Hp Hid Hne Hk2 Hfresh s1. subst s1.
  rewrite (unload_route_effect E d2 k _ Hk2 Hne).
  destruct (serve E (PostLoad (Some d1) t) s) as [s1 resp] eqn:Hstep. simpl.
  destruct (load_route_effect E (Some d1) t s s1 resp Hstep)
    as [[_ Hm] | [_ (d & p' & k' & [= <-] & Hp' & Hid' & Hcase)]].
  - rewrite Hm. by apply delete_id.
  - rewrite Hp in Hp'. injection Hp' as <-. rewrite Hid in Hid'. injection Hid' as <-.
    destruct Hcase as [[Hin _] | [_ [info Hm]]].
    + rewrite Hfresh in Hin. by destruct Hin.
    + rewrite Hm. by apply delete_insert_id.
Qed.

Lemma http_unload_undoes_load_witness :
  (requested_id (Some "models/demo/model.onnx") (b_model_id Demo.load_demo) = Some "demo") ∧
  (_models (serve Demo.server (PostLoad (Some Demo.load_demo) 5) (initial 0)).1 !! "demo"
   = Some (mk_model_info 10 "max" "models/demo/model.onnx")) ∧
  (_models (serve Demo.server (PostUnload (Some (Demo.use_demo JNull)))
              (serve Demo.server (PostLoad (Some Demo.load_demo) 5) (initial 0)).1).1
   = ∅).
Proof.
  split; [reflexivity|]. split; [reflexivity|].
  exact (http_unload_undoes_load Demo.server Demo.load_demo (Demo.use_demo JNull) 5
           "models/demo/model.onnx" "demo" (initial 0)
           eq_refl eq_refl ltac:(discriminate) eq_refl eq_refl).
Defined.

(** X16.  The MAX session is created once: while a session exists, no
    request replaces it and no request opens another one. *)
Theorem the_max_session_is_created_once
    (E : Env) (r : request) (s : state) (h : handle) :
  _inference_session s = Some h →
  _inference_session (serve E r s).1 = Some h ∧
  ∃ cs, calls (serve E r s).1 = calls s ++ cs ∧
        Forall (fun c => opens_session c = false) cs.
Proof.
  intros Hs. destruct (serve E r s) as [s' resp] eqn:Hstep.
  exact (session_is_kept E r s s' resp h Hs Hstep).
Qed.

Lemma the_max_session_is_created_once_witness :
  (_inference_session loaded = Some 1%nat) ∧
  (_inference_session (serve Demo.server (PostLoad (Some Demo.load_broken) 5) loaded).1
   = Some 1%nat).
Proof.
  split; [reflexivity|].
  exact (proj1 (the_max_session_is_created_once Demo.server
                  (PostLoad (Some Demo.load_broken) 5) loaded 1%nat eq_refl)).
Defined.

(** X17.  An explicit backend is respected.  With [backend = "max"] a
    [/load] never calls ONNX Runtime: when the MAX load raises, the answer is
    a 500 carrying that exception and nothing is registered.  When the
    request names another backend, or leaves the choice open while MAX is
    unavailable, the MAX engine is never called. *)
Theorem an_explicit_backend_is_respected
    (E : Env) (d : body) (t : Q) (p k : string) (s : state) :
  b_model_path d = Some p →
  p ≠ EmptyString →
  requested_id (Some p) (b_model_id d) = Some k →
  _models s !! k = None →
  path_exists E p = true →
  let s' := (serve E (PostLoad (Some d) t) s).1 in
  let resp := (serve E (PostLoad (Some d) t) s).2 in
  (b_backend d = Some "max" →
   (∃ cs, calls s' = calls s ++ cs ∧ Forall (fun c => is_ort_call c = false) cs) ∧
   (∀ e, (load_model_max E p k (counted s)).2 = Raised e →
         status resp = 500 ∧ field "error" resp = Some (JStr e) ∧
         _models s' = _models s)) ∧
  (String.eqb (default "auto" (b_backend d)) "max" = false →
   String.eqb (default "auto" (b_backend d)) "auto" && MAX_AVAILABLE E = false →
   ∃ cs, calls s' = calls s ++ cs ∧ Forall (fun c => is_max_call c = false) cs).
Proof.
  intros Hp Hne Hid Hk Hex s' resp. subst s' resp. split.
  - intros Hb.
    rewrite (load_model_explicit_max E d t p k s Hp Hne Hid Hb Hk Hex).
    destruct (load_model_max E p k (counted s)) as [s1 o1] eqn:Hatt.
    pose proof (load_model_max_spec E p k (counted s) s1 o1 Hatt)
      as (_ & (cs & Hcs & Hno & _) & Hreg).
    assert (Forall (fun c => is_ort_call c = false) cs) as Hno'.
    { eapply Forall_impl; [exact Hno|]. by intros []. }
    destruct o1 as [result|e]; simpl in *.
    + split; [eauto|]. intros e [=].
    + split; [eauto|]. intros e' [= <-]. repeat split; done.
  - intros Hb1 Hb2.
    rewrite (load_model_direct_onnx E d t p k s Hp Hne Hid Hb1 Hb2 Hk Hex).
    destruct (load_model_onnx_calls E p k (counted s)) as (cs & Hcs & Hno).
    destruct (load_model_onnx E p k (counted s)) as [s1 [result|e]];
      simpl in *; eauto.
Qed.

Lemma an_explicit_backend_is_respected_witness :
  let forced := mk_body (Some "models/demo/broken.onnx") (Some "pump") (Some "max")
                  JNull JNull in
  (_models loaded !! "pump" = None) ∧
  (path_exists Demo.server "models/demo/broken.onnx" = true) ∧
  (status (serve Demo.server (PostLoad (Some forced) 5) loaded).2 = 500 ∧
   field "error" (serve Demo.server (PostLoad (Some forced) 5) loaded).2
     = Some (JStr "failed to compile the model") ∧
   _models (serve Demo.server (PostLoad (Some forced) 5) loaded).1 = _models loaded).
Proof.
  intros forced. split; [reflexivity|]. split; [reflexivity|].
  destruct (an_explicit_backend_is_respected Demo.server forced 5
              "models/demo/broken.onnx" "pump" loaded
              eq_refl ltac:(discriminate) eq_refl eq_refl eq_refl) as [Hmax _].
  destruct (Hmax eq_refl) as [_ Hfail].
  exact (Hfail "failed to compile the model" eq_refl).
Defined.

(** X18.  Starting from a fresh server, the average inference time is
    never negative and never exceeds the largest latency measured: if every
    [/predict] of a run took between 0 and [hi] milliseconds, the average
    lies between 0 and [hi] after the run, whatever else was requested and
    whichever requests failed. *)
Theorem the_average_stays_within_the_latencies
    (E : Env) (rs : list request) (start hi : Q) :
  (0 <= hi)%Q →
  Forall (latency_within 0 hi) rs →
  (0 <= avg_inference_time_ms (_stats (serve_all E rs (initial start)).1))%Q ∧
  (avg_inference_time_ms (_stats (serve_all E rs (initial start)).1) <= hi)%Q.
Proof.
  intros Hhi Hall.
  apply (serve_all_keeps_average_within E 0 hi rs (initial start) Hall); simpl.
  - lia.
  - apply Qle_refl.
  - exact Hhi.
Qed.

Lemma the_average_stays_within_the_latencies_witness :
  let rs := [PostLoad (Some Demo.load_demo) 5;
             PostPredict (Some (Demo.use_demo Demo.sample)) 12;
             PostPredict (Some Demo.use_nothing) 3;
             PostBatchPredict (Some (Demo.batch_on "demo")) 40;
             PostPredict (Some (Demo.use_demo Demo.sample)) 8] in
  (0 <= 12)%Q ∧
  Forall (latency_within 0 12) rs ∧
  (0 <= avg_inference_time_ms (_stats (serve_all Demo.server rs (initial 0)).1))%Q ∧
  (avg_inference_time_ms (_stats (serve_all Demo.server rs (initial 0)).1) <= 12)%Q.
Proof.
  intros rs.
  assert (0 <= 12)%Q as Hhi by (unfold Qle; simpl; lia).
  assert (Forall (latency_within 0 12) rs) as Hall.
  { repeat constructor; unfold Qle; simpl; lia. }
  split; [exact Hhi|]. split; [exact Hall|].
  exact (the_average_stays_within_the_latencies Demo.server rs 0 12 Hhi Hall).
Defined.

(** The demonstration server on a machine where no MAX device can be
    opened. *)
Definition no_device_server : Env :=
mk_env true true (path_exists Demo.server)
  (fun dev => Raised ("no device " +:+ dev))
  (max_load Demo.server)
  (max_input_metadata Demo.server)
  (max_output_metadata Demo.server)
  (ort_cuda Demo.server)
  (ort_session Demo.server)
  (ort_inputs Demo.server)
  (ort_outputs Demo.server)
  (ort_providers Demo.server)
  (max_execute Demo.server)
  (ort_run Demo.server)
  (np_array Demo.server)
  (format_exc Demo.server).

(** X21.  When MAX is available but no session exists and neither the
    GPU nor the CPU device can be opened, a [/load] with [backend = "max"]
    tries the GPU first and the CPU second, never calls the model loader,
    answers 500 with ["MAX Engine session not available"], registers nothing
    and leaves the session empty, so that the next load tries again. *)
Theorem without_a_session_max_loads_nothing
    (E : Env) (d : body) (t : Q) (p k : string) (s : state) (e_gpu e_cpu : exn) :
  b_model_path d = Some p →
  p ≠ EmptyString →
  requested_id (Some p) (b_model_id d) = Some k →
  b_backend d = Some "max" →
  _models s !! k = None →
  path_exists E p = true →
  MAX_AVAILABLE E = true →
  _inference_session s = None →
  max_session E "gpu:0" = Raised e_gpu →
  max_session E "cpu" = Raised e_cpu →
  let s' := (serve E (PostLoad (Some d) t) s).1 in
  let resp := (serve E (PostLoad (Some d) t) s).2 in
  status resp = 500 ∧
  field "error" resp = Some (JStr "MAX Engine session not available") ∧
  _models s' = _models s ∧
  _inference_session s' = None ∧
  calls s' = calls s ++
    [MaxSession "gpu:0"; MaxSession "cpu";
     Printed ("[MAX Bridge] MAX session creation failed: " +:+ e_cpu)].
Proof.
  intros Hp Hne Hid Hb Hk Hex Hmax Hs Hgpu Hcpu s' resp. subst s' resp.
  rewrite (load_model_explicit_max E d t p k s Hp Hne Hid Hb Hk Hex).
  unfold load_model_max, get_inference_session, counted, failed, error_response, field.
  unfold_m. simpl. rewrite Hmax, Hs. simpl. rewrite Hgpu. simpl. rewrite Hcpu. simpl.
  rewrite <- !app_assoc. simpl. repeat split; reflexivity.
Qed.

Lemma without_a_session_max_loads_nothing_witness :
  let forced := mk_body (Some "models/demo/model.onnx") None (Some "max") JNull JNull in
  (requested_id (Some "models/demo/model.onnx") None = Some "model.onnx") ∧
  (max_session no_device_server "gpu:0" = Raised "no device gpu:0") ∧
  (max_session no_device_server "cpu" = Raised "no device cpu") ∧
  (status (serve no_device_server (PostLoad (Some forced) 5) (initial 0)).2 = 500 ∧
   _inference_session (serve no_device_server (PostLoad (Some forced) 5) (initial 0)).1
     = None).
Proof.
  intros forced. split; [reflexivity|]. split; [reflexivity|]. split; [reflexivity|].
  destruct (without_a_session_max_loads_nothing no_device_server forced 5
              "models/demo/model.onnx" "model.onnx" (initial 0)
              "no device gpu:0" "no device cpu"
              eq_refl ltac:(discriminate) eq_refl eq_refl eq_refl eq_refl eq_refl
              eq_refl eq_refl eq_refl)
    as (Hst & _ & _ & Hsess & _).
  split; [exact Hst | exact Hsess].
Defined.

(** X22.  [/predict] uses the engine recorded when the model was loaded,
    on the model object of the entry: for a model registered with backend
    ["max"] the only call it can make is one execution of that model by
    MAX, for any other backend one run of that session by ONNX Runtime.  It
    makes that call at most once, and exactly once when it answers 200. *)
Theorem predict_uses_the_engine_of_the_entry
    (E : Env) (d : body) (t : Q) (k : string) (info : model_info) (s : state) :
  b_model_id d = Some k →
  _models s !! k = Some info →
  ∃ cs, calls (serve E (PostPredict (Some d) t) s).1 = calls s ++ cs ∧
        (cs = [] ∨ ∃ c, cs = [c] ∧ engine_call_of info c) ∧
        (status (serve E (PostPredict (Some d) t) s).2 = 200 → cs ≠ []).
Proof.
  intros Hk Hin. unfold engine_call_of. unfold_m. simpl. rewrite Hk. simpl.
  destruct (truthy (Some k)) eqn:Ht; simpl.
  2:{ exists []. rewrite app_nil_r. repeat split; [by left | done]. }
  destruct (is_none (b_input_data d)) eqn:Hnone; simpl.
  { exists []. rewrite app_nil_r. repeat split; [by left | done]. }
  rewrite Hin. simpl.
  destruct (String.eqb (backend info) "max") eqn:Hb; simpl; rewrite Hin; simpl;
    repeat (case_match; simpl in *; simplify_eq);
    first [ exists []; rewrite app_nil_r; repeat split; [by left | done]
          | eexists [_]; repeat split; [right; eexists; split; [reflexivity|]; eauto | done] ].
Qed.

Lemma predict_uses_the_engine_of_the_entry_witness :
  (_models loaded !! "demo" = Some (mk_model_info 10 "max" "models/demo/model.onnx")) ∧
  (status (serve Demo.server (PostPredict (Some (Demo.use_demo Demo.sample)) 10) loaded).2
   = 200) ∧
  (∃ a, calls (serve Demo.server (PostPredict (Some (Demo.use_demo Demo.sample)) 10)
                 loaded).1 = calls loaded ++ [MaxExecute 10%nat a]).
Proof.
  split; [reflexivity|]. split; [reflexivity|].
  destruct (predict_uses_the_engine_of_the_entry Demo.server
              (Demo.use_demo Demo.sample) 10 "demo"
              (mk_model_info 10 "max" "models/demo/model.onnx") loaded
              eq_refl eq_refl) as (cs & Hcs & [-> | (c & -> & [a ->])] & Hrun).
  - by destruct (Hrun eq_refl).
  - exists a. exact Hcs.
Defined.

End HttpProperties.
(* ===================================================================== *)
(** ** Further properties of the tensor preparation *)
(* ===================================================================== *)

Module CodecProperties.
Import Py.

#[local] Arguments shape_eqb : simpl never.

Lemma shape_eqb_eq a b : shape_eqb a b = true ↔ a = b.
Proof. unfold shape_eqb. apply bool_decide_eq_true. Qed.

(** numpy builds an array of the element type it is asked for. *)
Lemma np_array_typed v d a : np_array v d = Return a → arr_dtype a = d.
Proof.
  unfold np_array. destruct (np_shape_data v) as [[sh xs]|]; [|done].
  by intros [= <-].
Qed.

(** X19.  The step that adds the batch dimension never changes the
    elements, their number or their type, is idempotent, and never hands a
    one-dimensional array on: a vector becomes a single row, anything else
    is kept. *)
Theorem ensure_batch_keeps_the_elements (a : ndarray) :
  data (ensure_batch a) = data a ∧
  arr_dtype (ensure_batch a) = arr_dtype a ∧
  arr_size (ensure_batch a) = arr_size a ∧
  ndim (ensure_batch a) ≠ 1%nat ∧
  ensure_batch (ensure_batch a) = ensure_batch a.
Proof.
  unfold ensure_batch.
  destruct (ndim a =? 1)%nat eqn:Hn.
  - unfold reshape_1_m1, ndim, arr_size. simpl.
    repeat split; [lia | lia].
  - rewrite Hn. apply Nat.eqb_neq in Hn. repeat split; done.
Qed.

(** X20.  The Edge TPU helper hands the interpreter an array of exactly
    the declared input shape and element type, holding the values numpy
    converted, unchanged; it fails before the interpreter is invoked exactly
    when the number of supplied elements differs from the number the
    declared shape holds. *)
Theorem the_interpreter_receives_the_declared_shape
    (E : Coral.Env) (details : Coral.tensor_details) (v : json) (a0 : ndarray) :
  CoralFacts.typed E →
  Coral.np_array E v (Coral.td_dtype details) = Return a0 →
  ((∃ a, Coral.prepare_input E details v = Return a) ↔
   foldr Nat.mul 1%nat (Coral.td_shape details) = arr_size a0) ∧
  (∀ a, Coral.prepare_input E details v = Return a →
        shape a = Coral.td_shape details ∧
        arr_dtype a = Coral.td_dtype details ∧
        data a = data a0).
Proof.
  intros Hty Hnp. apply Hty in Hnp as Hdt.
  unfold Coral.prepare_input. rewrite Hnp. simpl.
  assert (∀ b : ndarray,
            arr_dtype b = Coral.td_dtype details →
            (if dtype_eqb (Coral.td_dtype details) Int8
             then if dtype_eqb (arr_dtype b) Float32
                  then let '(scale, zero_point) := Coral.td_quantization details in
                       Return (Coral.astype Int8
                                 (Coral.quantize_values scale zero_point b))
                  else Return b
             else Return b) = Return b) as Hdead.
  { intros b Hb. rewrite Hb. by destruct (Coral.td_dtype details). }
  destruct (shape_eqb (shape a0) (Coral.td_shape details)) eqn:Hsh; simpl.
  - apply shape_eqb_eq in Hsh. rewrite (Hdead a0 Hdt). split.
    + split; [|eauto]. intros _. unfold arr_size. by rewrite Hsh.
    + intros a [= <-]. done.
  - unfold Coral.reshape.
    destruct (foldr Nat.mul 1%nat (Coral.td_shape details) =? arr_size a0)%nat eqn:Hsz;
      simpl.
    + apply Nat.eqb_eq in Hsz.
      pose proof (Hdead (mk_ndarray (arr_dtype a0) (Coral.td_shape details) (data a0)) Hdt)
        as Hd2.
      simpl in Hd2. rewrite Hd2.
      split; [split; eauto|]. intros a [= <-]. done.
    + apply Nat.eqb_neq in Hsz. split.
      * split; [intros [a [=]] | done].
      * intros a [=].
Qed.

Lemma the_interpreter_receives_the_declared_shape_witness :
  let details := Coral.input_details Demo.coral_env 3%nat in
  let a0 := mk_ndarray Int8 [2%nat] [inject_Z 1; inject_Z 1] in
  CoralFacts.typed Demo.coral_env ∧
  (Coral.np_array Demo.coral_env (JArr [JNum 1; JNum (3 # 2)]) (Coral.td_dtype details)
   = Return a0) ∧
  (∃ a, Coral.prepare_input Demo.coral_env details (JArr [JNum 1; JNum (3 # 2)])
        = Return a) ∧
  (¬ ∃ a, Coral.prepare_input Demo.coral_env details (JArr [JNum 1]) = Return a).
Proof.
  intros details a0.
  assert (CoralFacts.typed Demo.coral_env) as Hty.
  { intros v d a. apply np_array_typed. }
  split; [exact Hty|]. split; [reflexivity|]. split.
  - apply (the_interpreter_receives_the_declared_shape Demo.coral_env details
             (JArr [JNum 1; JNum (3 # 2)]) a0 Hty eq_refl).
    reflexivity.
  - intros Hex.
    apply (the_interpreter_receives_the_declared_shape Demo.coral_env details
             (JArr [JNum 1]) (mk_ndarray Int8 [1%nat] [inject_Z 1]) Hty eq_refl) in Hex.
    discriminate Hex.
Defined.

End CodecProperties.
